(** * Keyword-driven sales chatbot: query interpreter, aggregators, router

    A shallow embedding of [app/nlp_processor.py], [app/analytics_engine.py],
    [app/main.py], and the text and chart selection of
    [app/insight_generator.py] and [app/visualization.py], with the
    properties of the written specification stated and proved over it.

    Modelling conventions.
    - A Python [str] is a list of characters.  Characters are the code
      points 0..255 (Latin-1); [str.lower], the regex classes [\d], [\s],
      [\w] and the assertion [\b] are the ones the interpreter applies to
      those code points in a [str] pattern.
    - A [set] is a [gset]; [sorted] is a merge sort.
    - The data frame is the list of its rows, in row order.  A value of the
      column [total_sales] is a double, held as the rational it is; what the
      libraries make of such values (the sum of a column or of a group, the
      rounding to two decimals, the order in which a sort leaves equal sums)
      is a parameter of the model, the class [Runtime] below. *)

From Stdlib Require Import ZArith QArith Qround Ascii String DecimalString DecimalPos List Bool Lia.
From Stdlib Require Import Sorting.Sorted Sorting.Permutation Lqa.
From stdpp Require Import base option list gmap sorting.
Import ListNotations.

Local Open Scope Z_scope.

(** ** Python strings *)

Module Py.

Definition str : Type := list ascii.

(** A literal. *)
Definition py (s : string) : str := list_ascii_of_string s.

Definition code (c : ascii) : N := N_of_ascii c.

Definition in_range (lo hi : N) (c : ascii) : bool :=
  (lo <=? code c)%N && (code c <=? hi)%N.

(** [\d]: the decimal digits. *)
Definition is_decimal (c : ascii) : bool := in_range 48 57 c.

(** [\s]: tab..carriage return, the separators 28..31, space, NEL, NBSP. *)
Definition is_space (c : ascii) : bool :=
  in_range 9 13 c || in_range 28 32 c || (code c =? 133)%N || (code c =? 160)%N.

(** [str.isalnum] on one character: letters, digits and numeric signs. *)
Definition is_alnum (c : ascii) : bool :=
  in_range 48 57 c || in_range 65 90 c || in_range 97 122 c
  || (code c =? 170)%N || in_range 178 179 c || (code c =? 181)%N
  || in_range 185 186 c || in_range 188 190 c
  || in_range 192 214 c || in_range 216 246 c || in_range 248 255 c.

(** [\w]: alphanumeric or the underscore. *)
Definition is_word (c : ascii) : bool := is_alnum c || (code c =? 95)%N.

Definition is_upper (c : ascii) : bool :=
  in_range 65 90 c || (in_range 192 222 c && negb (code c =? 215)%N).

Definition lower_char (c : ascii) : ascii :=
  if is_upper c then ascii_of_N (code c + 32) else c.

(** [s.lower()] *)
Definition lower (s : str) : str := map lower_char s.

(** [s.capitalize()]: first character upper-cased, the rest lower-cased.
    The upper-casing is that of the letters a..z, which is all the region
    names need. *)
Definition upper_char (c : ascii) : ascii :=
  if in_range 97 122 c then ascii_of_N (code c - 32) else c.

Definition capitalize (s : str) : str :=
  match s with
  | [] => []
  | c :: s' => upper_char c :: lower s'
  end.

(** [s.startswith(p)] *)
Fixpoint startswith (p s : str) : bool :=
  match p, s with
  | [], _ => true
  | _ :: _, [] => false
  | a :: p', b :: s' => Ascii.eqb a b && startswith p' s'
  end.

(** [sub in s] *)
Fixpoint contains (sub s : str) : bool :=
  startswith sub s ||
  match s with
  | [] => false
  | _ :: s' => contains sub s'
  end.

Definition digit_value (c : ascii) : Z := Z.of_N (code c) - 48.

(** The largest number of digits [int] accepts, as the interpreter sets it
    when it starts ([sys.int_info.default_max_str_digits]). *)
Definition int_max_str_digits : N := 4300.

(** [int(s)] on the strings the regular expressions capture, which consist
    of decimal digits: the value read in base ten.  [None] stands for
    [ValueError], which the empty string raises, and so does a string of
    more than [int_max_str_digits] digits, leading zeros counted; a string
    with any other character is never passed in and is answered [None] as
    well. *)
Definition int (s : str) : option Z :=
  match s with
  | [] => None
  | _ =>
    if forallb is_decimal s && (N.of_nat (length s) <=? int_max_str_digits)%N
    then Some (fold_left (fun acc c => 10 * acc + digit_value c) s 0)
    else None
  end.

(** Truthiness of a string, a list and an optional value. *)
Definition truthy_list {A} (l : list A) : bool :=
  match l with [] => false | _ => true end.

(** [sorted(xs)] on integers. *)
Definition sorted (xs : list Z) : list Z := merge_sort Z.le xs.

End Py.
Import Py.

(** ** The three regular expressions of the interpreter *)

Module Re.

Definition word_opt (o : option ascii) : bool :=
  match o with Some c => is_word c | None => false end.

(** [\b] between the character before and the character after a position. *)
Definition boundary (prev next : option ascii) : bool :=
  xorb (word_opt prev) (word_opt next).

(** [\b(20\d{2})\b] anchored at the head of [s], [prev] being the character
    before it; the result is group 1. *)
Definition year_at (prev : option ascii) (s : str) : option str :=
  match s with
  | c1 :: c2 :: c3 :: c4 :: rest =>
    if boundary prev (Some c1)
       && Ascii.eqb c1 "2" && Ascii.eqb c2 "0"
       && is_decimal c3 && is_decimal c4
       && boundary (Some c4) (head rest)
    then Some [c1; c2; c3; c4]
    else None
  | _ => None
  end.

(** [re.search(r"\b20\d{2}\b", s)] as a truth value. *)
Fixpoint search_year (prev : option ascii) (s : str) : bool :=
  match year_at prev s with
  | Some _ => true
  | None =>
    match s with
    | [] => false
    | c :: s' => search_year (Some c) s'
    end
  end.

(** [re.findall(r"\b(20\d{2})\b", s)]: the groups of the successive
    non-overlapping matches, the scan resuming after each match. *)
Fixpoint findall_year (prev : option ascii) (s : str) : list str :=
  match s with
  | [] => []
  | c1 :: s1 =>
    match year_at prev s, s1 with
    | Some g, _ :: _ :: c4 :: rest => g :: findall_year (Some c4) rest
    | _, _ => findall_year (Some c1) s1
    end
  end.

(** The longest prefix of [s] made of characters in the class [p], and
    what follows it. *)
Fixpoint span (p : ascii -> bool) (s : str) : str * str :=
  match s with
  | c :: s' =>
    if p c then let '(a, b) := span p s' in (c :: a, b) else ([], s)
  | [] => ([], [])
  end.

(** [top\s+(\d+)] anchored at the head of [s]; the result is group 1.
    The classes [\s] and [\d] are disjoint, so the greedy [\s+] never has
    to give a character back. *)
Definition top_at (s : str) : option str :=
  match s with
  | c1 :: c2 :: c3 :: rest =>
    if Ascii.eqb c1 "t" && Ascii.eqb c2 "o" && Ascii.eqb c3 "p" then
      let '(ws, rest') := span is_space rest in
      let '(ds, _) := span is_decimal rest' in
      if truthy_list ws && truthy_list ds then Some ds else None
    else None
  | _ => None
  end.

(** [re.search(r"top\s+(\d+)", s)]: group 1 of the leftmost match. *)
Fixpoint search_top (s : str) : option str :=
  match top_at s with
  | Some g => Some g
  | None =>
    match s with
    | [] => None
    | _ :: s' => search_top s'
    end
  end.

End Re.

(** ** nlp_processor.py *)

Module nlp_processor.

Definition REGIONS : list str := [py "north"; py "south"; py "east"; py "west"].

Record ParsedQuery := mkParsedQuery {
  intent : str;
  years : list Z;
  regions : list str;
  top_n : option Z
}.

Definition detect_intent (message : str) : str :=
  let text := lower message in
  if existsb (fun word => contains word text)
       [py "compare"; py "vs"; py "versus"]
     && Re.search_year None text
  then py "year_comparison"
  else if contains (py "trend") text || contains (py "over time") text
          || contains (py "monthly") text
  then py "monthly_trend"
  else if contains (py "region") text
          || existsb (fun r => contains r text) REGIONS
  then py "sales_by_region"
  else if contains (py "top") text || contains (py "best") text
          || contains (py "highest") text
  then py "top_products"
  else if contains (py "total") text || contains (py "overall") text
          || contains (py "revenue") text
  then py "total_sales"
  else py "unknown".

(** [None] stands for an exception escaping the function. *)
Definition extract_years (message : str) : option (list Z) :=
  let years := Re.findall_year None message in
  ys ← mapM int years;
  Some (sorted (elements (list_to_set ys : gset Z))).

(** The de-duplication loop, [seen] being the set of strings met so far. *)
Fixpoint dedup (seen : gset str) (found : list str) : list str :=
  match found with
  | [] => []
  | r :: found' =>
    if decide (r ∈ seen) then dedup seen found'
    else r :: dedup ({[r]} ∪ seen) found'
  end.

(** The scanning loop over the region names. *)
Fixpoint scan_regions (text : str) (names : list str) : list str :=
  match names with
  | [] => []
  | region :: names' =>
    if contains region text
    then capitalize region :: scan_regions text names'
    else scan_regions text names'
  end.

Definition extract_regions (message : str) : list str :=
  let text := lower message in
  let found := scan_regions text REGIONS in
  dedup ∅ found.

Definition extract_top_n (message : str) : option Z :=
  match Re.search_top (lower message) with
  | Some g =>
    match int g with
    | Some v => Some (Z.max 1 v)
    | None => None
    end
  | None => None
  end.

Definition parse_user_message (message : str) : option ParsedQuery :=
  ys ← extract_years message;
  Some {| intent := detect_intent message;
          years := ys;
          regions := extract_regions message;
          top_n := extract_top_n message |}.

End nlp_processor.

(** ** analytics_engine.py *)

Module analytics_engine.

(** One row of the sales data set. *)
Record Row := mkRow {
  col_order_date : str;
  col_year : Z;
  col_month : Z;
  col_region : str;
  col_product : str;
  col_category : str;
  col_quantity : Z;
  col_unit_price : Q;
  col_total_sales : Q
}.

Definition DataFrame : Type := list Row.

(** A result table: one column of totals, or a key column next to the
    [total_sales] column. *)
Inductive Table :=
| Scalar (column : str) (values : list Q)
| KeyedStr (key_column : str) (rows : list (str * Q))
| KeyedInt (key_column : str) (rows : list (Z * Q)).

Record AnalysisResult := mkAnalysisResult {
  intent : str;
  table : Table;
  years : list Z;
  regions : list str;
  description : str
}.

(** Order of the group keys: integers, and strings by code point. *)
Definition str_compare : str -> str -> comparison := list_compare Ascii.compare.

Definition str_eqb (a b : str) : bool :=
  match str_compare a b with Eq => true | _ => false end.

(** The nearest integer, a tie going to the even one. *)
Definition round_half_even (x : Q) : Z :=
  let f := Qfloor x in
  match Qcompare (x - inject_Z f) (1 # 2) with
  | Lt => f
  | Gt => f + 1
  | Eq => if Z.even f then f else f + 1
  end.

(** *** Floating point and the order of equal sums

    A [total_sales] value is a double.  Every finite double is a rational
    number, and comparing two doubles is comparing these rationals, so a
    value is held as a [Q].  Adding doubles, however, rounds after every
    step, rounding to two decimals gives the double next to the decimal, and
    the default algorithm of [sort_values] is not a stable one: what these
    operations return is decided by the libraries, not by this program.
    They are therefore left open, and a property of the program is proved
    for whatever they return. *)
Class Runtime : Type := {
  (** [Series.sum()] on the values of a column *)
  series_sum : list Q -> Q;
  (** [.sum()] on the values of one group of a [groupby] *)
  group_sum : list Q -> Q;
  (** [round(float(x), 2)] *)
  round2 : Q -> Q;
  (** [.sort_values(ascending=False)] on a series of sums *)
  sort_values_desc : forall K : Type, list (K * Q) -> list (K * Q)
}.
Arguments sort_values_desc {_ K} l.

(** The sums, added without rounding, and the hundredth next to a value. *)
Definition Qsum (xs : list Q) : Q := fold_left Qplus xs 0%Q.

Definition round2_exact (x : Q) : Q := Qred (round_half_even (x * 100) # 100).

(** [str(n)] and [sep.join(parts)], for the descriptions. *)
Definition str_of_int (n : Z) : str :=
  list_ascii_of_string (NilZero.string_of_int (Z.to_int n)).

Fixpoint join (sep : str) (parts : list str) : str :=
  match parts with
  | [] => []
  | [p] => p
  | p :: parts' => p ++ sep ++ join sep parts'
  end.

(** [xs or []] and the truth value of an optional list. *)
Definition truthy_opt {A} (xs : option (list A)) : bool :=
  match xs with Some (_ :: _) => true | _ => false end.

Definition or_empty {A} (xs : option (list A)) : list A :=
  match xs with Some l => l | None => [] end.

(** [Series.isin(values)] on one entry. *)
Definition isin {A} (eqb : A -> A -> bool) (values : list A) (x : A) : bool :=
  existsb (eqb x) values.

Definition _filter_data (df : DataFrame) (years : option (list Z))
    (regions : option (list str)) : DataFrame :=
  let filtered := df in
  let filtered :=
    if truthy_opt years
    then List.filter (fun r => isin Z.eqb (or_empty years) (col_year r)) filtered
    else filtered in
  let filtered :=
    if truthy_opt regions
    then List.filter (fun r => isin str_eqb (or_empty regions) (col_region r)) filtered
    else filtered in
  filtered.

Section GroupBy.
Context {K : Type} (cmp : K -> K -> comparison).

(** The distinct keys in ascending order. *)
Fixpoint insert_key (k : K) (ks : list K) : list K :=
  match ks with
  | [] => [k]
  | k' :: ks' =>
    match cmp k k' with
    | Lt => k :: ks
    | Eq => ks
    | Gt => k' :: insert_key k ks'
    end
  end.

Definition sorted_keys (ks : list K) : list K := fold_right insert_key [] ks.

Definition group_rows (key : Row -> K) (k : K) (data : DataFrame) : DataFrame :=
  List.filter (fun r => match cmp (key r) k with Eq => true | _ => false end) data.

(** [data.groupby(key)["total_sales"].sum()]: one entry per distinct key,
    keys ascending, each with the sum over the rows of its group. *)
Definition groupby_sum {R : Runtime} (key : Row -> K) (data : DataFrame)
    : list (K * Q) :=
  map (fun k => (k, group_sum (map col_total_sales (group_rows key k data))))
      (sorted_keys (map key data)).

(** Two ways of sorting by the sum, largest first.  The first one keeps
    entries with equal sums in the order they had. *)
Fixpoint insert_desc (x : K * Q) (l : list (K * Q)) : list (K * Q) :=
  match l with
  | [] => [x]
  | y :: l' =>
    if Qle_bool (snd y) (snd x) then x :: l else y :: insert_desc x l'
  end.

Definition stable_sort_desc (l : list (K * Q)) : list (K * Q) :=
  fold_right insert_desc [] l.

(** The second one sorts by the sum, smallest first, keeping entries with
    equal sums in the order they had, and reverses the outcome: entries with
    equal sums come out in the opposite order. *)
Fixpoint insert_by_sum (x : K * Q) (l : list (K * Q)) : list (K * Q) :=
  match l with
  | [] => [x]
  | y :: l' =>
    if Qle_bool (snd x) (snd y) then x :: l else y :: insert_by_sum x l'
  end.

Definition reversed_sort_desc (l : list (K * Q)) : list (K * Q) :=
  rev (fold_right insert_by_sum [] l).

(** [.sort_index()] and [.sort_values(key_column)]: by the key, smallest
    first; entries with equal keys keep the order they had. *)
Fixpoint insert_asc (x : K * Q) (l : list (K * Q)) : list (K * Q) :=
  match l with
  | [] => [x]
  | y :: l' =>
    match cmp (fst y) (fst x) with
    | Lt => y :: insert_asc x l'
    | _ => x :: l
    end
  end.

Definition sort_by_key (l : list (K * Q)) : list (K * Q) :=
  fold_right insert_asc [] l.
End GroupBy.

(** Two runtimes with exact arithmetic, on which the examples are run:
    sums without rounding error, hundredths held exactly, and either of the
    two sorts.  On data whose sums and hundredths are doubles the arithmetic
    is that of the libraries. *)
#[global] Instance exact_runtime : Runtime := {|
  series_sum := Qsum;
  group_sum := Qsum;
  round2 := round2_exact;
  sort_values_desc := @stable_sort_desc
|}.

Definition reversing_runtime : Runtime := {|
  series_sum := Qsum;
  group_sum := Qsum;
  round2 := round2_exact;
  sort_values_desc := @reversed_sort_desc
|}.

(** What every runtime is taken to satisfy: no values add up to zero, zero
    rounds to zero, and sorting rearranges the entries so that no sum is
    followed by a larger one. *)
Class RuntimeSpec (R : Runtime) : Prop := {
  series_sum_nil : series_sum [] = 0%Q;
  round2_zero : round2 0%Q = 0%Q;
  sort_values_desc_Permutation :
    forall (K : Type) (l : list (K * Q)), Permutation (sort_values_desc l) l;
  sort_values_desc_descending :
    forall (K : Type) (l : list (K * Q)),
      StronglySorted (fun a b => (snd b <= snd a)%Q) (sort_values_desc l)
}.

(** [.head(n)]: the first [n] entries, or all but the last [-n]. *)
Definition head_n {A} (n : Z) (l : list A) : list A :=
  if 0 <=? n then firstn (Z.to_nat n) l
  else firstn (length l - Z.to_nat (- n)) l.

(** [Series.unique()]: the distinct values in order of first appearance. *)
Fixpoint unique (seen : gset Z) (xs : list Z) : list Z :=
  match xs with
  | [] => []
  | x :: xs' =>
    if decide (x ∈ seen) then unique seen xs'
    else x :: unique ({[x]} ∪ seen) xs'
  end.

Definition years_suffix (label : string) (years : option (list Z)) : str :=
  if truthy_opt years
  then py label ++ join (py ", ") (map str_of_int (or_empty years))
  else [].

Definition regions_suffix (label : string) (regions : option (list str)) : str :=
  if truthy_opt regions
  then py label ++ join (py ", ") (or_empty regions)
  else [].

Definition total_sales {R : Runtime} (df : DataFrame) (years : option (list Z))
    (regions : option (list str)) : AnalysisResult :=
  let data := _filter_data df years regions in
  let total := series_sum (map col_total_sales data) in
  let table := Scalar (py "total_sales") [round2 total] in
  let desc := py "Total sales" ++ years_suffix " for years " years
              ++ regions_suffix " in regions " regions in
  {| intent := py "total_sales"; table := table;
     years := if truthy_opt years then or_empty years else [];
     regions := if truthy_opt regions then or_empty regions else [];
     description := desc |}.

Definition top_n_products {R : Runtime} (df : DataFrame) (n : Z) (years : option (list Z))
    (regions : option (list str)) : AnalysisResult :=
  let data := _filter_data df years regions in
  let grouped :=
    head_n n (sort_values_desc (groupby_sum str_compare col_product data)) in
  let desc := py "Top " ++ str_of_int n ++ py " products by sales"
              ++ years_suffix " in years " years
              ++ regions_suffix " for regions " regions in
  {| intent := py "top_products"; table := KeyedStr (py "product") grouped;
     years := if truthy_opt years then or_empty years else [];
     regions := if truthy_opt regions then or_empty regions else [];
     description := desc |}.

Definition sales_by_region {R : Runtime} (df : DataFrame) (years : option (list Z))
    : AnalysisResult :=
  let data := _filter_data df years None in
  let grouped := sort_values_desc (groupby_sum str_compare col_region data) in
  let desc := py "Sales by region" ++ years_suffix " for years " years in
  {| intent := py "sales_by_region"; table := KeyedStr (py "region") grouped;
     years := if truthy_opt years then or_empty years else [];
     regions := map fst grouped;
     description := desc |}.

(** The rows [monthly_trend] aggregates. *)
Definition monthly_data (df : DataFrame) (year : option Z) (region : option str)
    : DataFrame :=
  let data := df in
  let data :=
    match year with
    | Some y => List.filter (fun r => Z.eqb (col_year r) y) data
    | None => data
    end in
  match region with
  | Some g => List.filter (fun r => str_eqb (col_region r) g) data
  | None => data
  end.

Definition monthly_trend {R : Runtime} (df : DataFrame) (year : option Z) (region : option str)
    : AnalysisResult :=
  let data := monthly_data df year region in
  let grouped := sort_by_key Z.compare (groupby_sum Z.compare col_month data) in
  let desc := py "Monthly sales trend"
              ++ match year with Some y => py " for " ++ str_of_int y | None => [] end
              ++ match region with Some g => py " in " ++ g | None => [] end in
  {| intent := py "monthly_trend"; table := KeyedInt (py "month") grouped;
     years := match year with Some y => [y] | None => [] end;
     regions := match region with Some g => [g] | None => [] end;
     description := desc |}.

(** [region] as a truth value: absent and empty are both false. *)
Definition truthy_region (region : option str) : bool :=
  match region with Some (_ :: _) => true | _ => false end.

(** The years [year_comparison] works with. *)
Definition comparison_years (df : DataFrame) (years : option (list Z)) : list Z :=
  if negb (truthy_opt years) || (Z.of_nat (length (or_empty years)) <? 2)
  then sorted (unique ∅ (map col_year df))
  else or_empty years.

(** [[region] if region else None] *)
Definition region_list (region : option str) : option (list str) :=
  if truthy_region region then Some [default [] region] else None.

(** The rows [year_comparison] aggregates. *)
Definition comparison_data (df : DataFrame) (years : option (list Z))
    (region : option str) : DataFrame :=
  _filter_data df (Some (comparison_years df years)) (region_list region).

Definition year_comparison {R : Runtime} (df : DataFrame) (years : option (list Z))
    (region : option str) : AnalysisResult :=
  let data := comparison_data df years region in
  let years := comparison_years df years in
  let grouped := sort_by_key Z.compare (groupby_sum Z.compare col_year data) in
  let regions := or_empty (region_list region) in
  let desc := py "Year-on-year sales comparison"
              ++ (if truthy_region region
                  then py " for region " ++ default [] region else []) in
  {| intent := py "year_comparison"; table := KeyedInt (py "year") grouped;
     years := years; regions := regions; description := desc |}.

End analytics_engine.

(** ** main.py: the router *)

Module main.
Import nlp_processor analytics_engine.

Definition intent_is (intent : str) (name : string) : bool :=
  str_eqb intent (py name).

(** [xs or None] *)
Definition or_none {A} (xs : list A) : option (list A) :=
  match xs with [] => None | _ => Some xs end.

(** [xs[0] if xs else None] *)
Definition first_or_none {A} (xs : option (list A)) : option A :=
  match xs with Some (x :: _) => Some x | _ => None end.

(** [parsed.top_n or 5] *)
Definition top_n_or_default (top_n : option Z) : Z :=
  match top_n with
  | Some v => if v =? 0 then 5 else v
  | None => 5
  end.

Definition handle_query {R : Runtime} (message : str) (data : DataFrame)
    (parsed : ParsedQuery) : option AnalysisResult :=
  let intent := nlp_processor.intent parsed in
  let years := or_none (nlp_processor.years parsed) in
  let regions := or_none (nlp_processor.regions parsed) in
  if intent_is intent "total_sales" then
    Some (total_sales data years regions)
  else if intent_is intent "top_products" then
    let n := top_n_or_default (top_n parsed) in
    Some (top_n_products data n years regions)
  else if intent_is intent "sales_by_region" then
    Some (sales_by_region data years)
  else if intent_is intent "monthly_trend" then
    let year := first_or_none years in
    let region := first_or_none regions in
    Some (monthly_trend data year region)
  else if intent_is intent "year_comparison" then
    let region := first_or_none regions in
    Some (year_comparison data years region)
  else None.

End main.

(** ** insight_generator.py *)

Module insight_generator.
Import analytics_engine main.

(** What a call that can fail gives: its value, or an exception.  A third
    answer marks the inputs on which the text depends on how the library
    prints a floating-point number; no result of an aggregator is among
    them. *)
Inductive outcome (A : Type) : Type :=
| Returned (a : A)
| Raised
| Unmodelled.
Arguments Returned {A} a.
Arguments Raised {A}.
Arguments Unmodelled {A}.

(** The digits of a number, written from the units upwards, with a comma
    after every third digit that has a digit after it. *)
Fixpoint group3 (rev_digits : str) : str :=
  match rev_digits with
  | a :: b :: c :: rest =>
    match rest with
    | [] => [a; b; c]
    | _ :: _ => a :: b :: c :: ","%char :: group3 rest
    end
  | _ => rev_digits
  end.

Definition is_negative (value : Q) : bool :=
  match Qcompare value 0 with Lt => true | _ => false end.

(** [f"${value:,.0f}"]: the value rounded to an integer (a tie going to
    the even one), its digits grouped by three, a minus sign first for a
    negative value, also when it rounds to zero.  The value is a finite
    double held as a rational; the negative zero of the doubles, which is
    printed with a minus sign, has no rational of its own and is left
    out. *)
Definition format_currency (value : Q) : str :=
  py "$" ++ (if is_negative value then py "-" else [])
  ++ rev (group3 (rev (str_of_int (Z.abs (round_half_even value))))).

(** [idxmax()] and [idxmin()]: the first row holding the largest, resp. the
    smallest, sum. *)
Fixpoint first_max {K} (rows : list (K * Q)) : option (K * Q) :=
  match rows with
  | [] => None
  | r :: rows' =>
    match first_max rows' with
    | None => Some r
    | Some b => if Qle_bool (snd b) (snd r) then Some r else Some b
    end
  end.

Fixpoint first_min {K} (rows : list (K * Q)) : option (K * Q) :=
  match rows with
  | [] => None
  | r :: rows' =>
    match first_min rows' with
    | None => Some r
    | Some b => if Qle_bool (snd r) (snd b) then Some r else Some b
    end
  end.

Definition total_text (desc : str) (total : Q) : str :=
  py "Total sales amount to " ++ format_currency total ++ py ". " ++ desc ++ py ".".

Definition product_line (row : str * Q) : str :=
  fst row ++ py " (" ++ format_currency (snd row) ++ py ")".

Definition products_text (desc : str) (rows : list (str * Q)) : str :=
  desc ++ py ": " ++ join (py "; ") (map product_line rows) ++ py ".".

Definition regions_text (desc : str) (best worst : str * Q) : str :=
  desc ++ py ". Best performing region is " ++ fst best ++ py " with "
  ++ format_currency (snd best) ++ py ", while the lowest is " ++ fst worst
  ++ py " at " ++ format_currency (snd worst) ++ py ".".

Definition months_text (desc : str) (first last : Z * Q) : str :=
  desc ++ py ". Sales "
  ++ (if Qle_bool (snd first) (snd last) then py "increased" else py "decreased")
  ++ py " from " ++ format_currency (snd first) ++ py " in month "
  ++ str_of_int (fst first) ++ py " to " ++ format_currency (snd last)
  ++ py " in month " ++ str_of_int (fst last) ++ py ".".

Definition years_text (desc : str) (best worst : Z * Q) : str :=
  desc ++ py ". Highest sales were in " ++ str_of_int (fst best) ++ py " at "
  ++ format_currency (snd best) ++ py ", compared with "
  ++ format_currency (snd worst) ++ py " in " ++ str_of_int (fst worst) ++ py ".".

(** [df.iloc[0]] and [df.iloc[-1]] *)
Definition iloc_first {A} (rows : list A) : option A := head rows.
Definition iloc_last {A} (rows : list A) : option A := last rows.

(** [summarize].  The table is read by column name: a missing column is a
    [KeyError], a row asked of an empty table an [IndexError], the largest
    entry of an empty column a [ValueError].  A key column of integers is
    read back through a float, which changes no month and no year. *)
Definition summarize (result : AnalysisResult) : outcome str :=
  let desc := description result in
  let intent := intent result in
  if intent_is intent "total_sales" then
    match table result with
    | Scalar c vs =>
      if str_eqb c (py "total_sales")
      then match iloc_first vs with
           | Some total => Returned (total_text desc total)
           | None => Raised
           end
      else Raised
    | KeyedStr k rows =>
      if str_eqb k (py "total_sales") then Raised
      else match iloc_first rows with
           | Some r => Returned (total_text desc (snd r))
           | None => Raised
           end
    | KeyedInt k rows =>
      if str_eqb k (py "total_sales") then Raised
      else match iloc_first rows with
           | Some r => Returned (total_text desc (snd r))
           | None => Raised
           end
    end
  else if intent_is intent "top_products" then
    match table result with
    | Scalar _ [] => Returned (products_text desc [])
    | Scalar _ (_ :: _) => Raised
    | KeyedStr _ [] => Returned (products_text desc [])
    | KeyedStr k rows =>
      if str_eqb k (py "product") then Returned (products_text desc rows)
      else Raised
    | KeyedInt _ [] => Returned (products_text desc [])
    | KeyedInt k _ => if str_eqb k (py "product") then Unmodelled else Raised
    end
  else if intent_is intent "sales_by_region" then
    match table result with
    | Scalar _ _ => Raised
    | KeyedStr k rows =>
      match iloc_first rows, iloc_last rows with
      | Some best, Some worst =>
        if str_eqb k (py "region") then Returned (regions_text desc best worst)
        else Raised
      | _, _ => Raised
      end
    | KeyedInt _ [] => Raised
    | KeyedInt k _ => if str_eqb k (py "region") then Unmodelled else Raised
    end
  else if intent_is intent "monthly_trend" then
    match table result with
    | Scalar _ _ => Raised
    | KeyedInt k rows =>
      match iloc_first rows, iloc_last rows with
      | Some first, Some last =>
        if str_eqb k (py "month") then Returned (months_text desc first last)
        else Raised
      | _, _ => Raised
      end
    | KeyedStr _ [] => Raised
    | KeyedStr k _ => if str_eqb k (py "month") then Unmodelled else Raised
    end
  else if intent_is intent "year_comparison" then
    match table result with
    | Scalar _ _ => Raised
    | KeyedInt k rows =>
      match first_max rows, first_min rows with
      | Some best, Some worst =>
        if str_eqb k (py "year") then Returned (years_text desc best worst)
        else Raised
      | _, _ => Raised
      end
    | KeyedStr _ [] => Raised
    | KeyedStr k _ => if str_eqb k (py "year") then Unmodelled else Raised
    end
  else Returned (py "No clear insight available for this query.").

(** The path [export_pdf] writes to and returns. *)
Definition pdf_path (OUTPUT_DIR : str) : str :=
  OUTPUT_DIR ++ py "/" ++ py "latest_report.pdf".

End insight_generator.

(** ** visualization.py *)

Module visualization.
Import analytics_engine main insight_generator.

(** The columns of a table. *)
Definition columns (t : Table) : list str :=
  match t with
  | Scalar c _ => [c]
  | KeyedStr k _ => [k; py "total_sales"]
  | KeyedInt k _ => [k; py "total_sales"]
  end.

Definition has_column (t : Table) (name : str) : bool :=
  existsb (str_eqb name) (columns t).

(** [plot_bar_from_table] and [plot_line_from_table]: the two columns are
    read (a missing one is a [KeyError]), the chart is drawn and saved, and
    the path of the file is returned.  Drawing and saving are effects of the
    plotting library. *)
Definition plot_from_table (OUTPUT_DIR : str) (kind : string)
    (result : AnalysisResult) (x_col y_col : str) : outcome str :=
  if has_column (table result) x_col && has_column (table result) y_col
  then Returned (OUTPUT_DIR ++ py "/" ++ intent result ++ py "_" ++ py kind ++ py ".png")
  else Raised.

Definition plot_bar_from_table (OUTPUT_DIR : str) :=
  plot_from_table OUTPUT_DIR "bar".

Definition plot_line_from_table (OUTPUT_DIR : str) :=
  plot_from_table OUTPUT_DIR "line".

Definition some_path (o : outcome str) : outcome (option str) :=
  match o with
  | Returned path => Returned (Some path)
  | Raised => Raised
  | Unmodelled => Unmodelled
  end.

Definition visualize_result (OUTPUT_DIR : str) (result : AnalysisResult)
    : outcome (option str) :=
  let intent := intent result in
  if intent_is intent "top_products" then
    some_path (plot_bar_from_table OUTPUT_DIR result (py "product") (py "total_sales"))
  else if intent_is intent "sales_by_region" then
    some_path (plot_bar_from_table OUTPUT_DIR result (py "region") (py "total_sales"))
  else if intent_is intent "monthly_trend" then
    some_path (plot_line_from_table OUTPUT_DIR result (py "month") (py "total_sales"))
  else if intent_is intent "year_comparison" then
    some_path (plot_line_from_table OUTPUT_DIR result (py "year") (py "total_sales"))
  else Returned None.

End visualization.

(** ** main.py: the read loop *)

Module cli.
Import nlp_processor analytics_engine main insight_generator visualization.

(** What the loop remembers from one question to the next. *)
Record Session := mkSession {
  last_result : option AnalysisResult;
  last_summary : option str;
  last_chart_path : option str
}.

Definition fresh : Session := mkSession None None None.

(** What the loop does to the outside: a prompt, a printed line, a report
    written by [export_pdf]. *)
Inductive Output :=
| Ask (prompt : str)
| Print (line : str)
| PdfSaved (path summary : str) (result : AnalysisResult) (chart_path : option str).

(** How one turn of the loop ends. *)
Inductive Turn :=
| Continue (session : Session) (outputs : list Output)
| Break (outputs : list Output)
| Uncaught (outputs : list Output).

Definition nl : str := ["010"%char].

Fixpoint lstrip (s : str) : str :=
  match s with
  | c :: s' => if is_space c then lstrip s' else s
  | [] => []
  end.

(** [s.strip()] *)
Definition strip (s : str) : str := rev (lstrip (rev (lstrip s))).

Definition is_one_of (s : str) (names : list str) : bool :=
  existsb (str_eqb s) names.

Definition prompt : str := nl ++ py "You: ".

Definition help_text : str :=
  py "Bot: Example queries:" ++ nl
  ++ py "  - Total sales in 2023" ++ nl
  ++ py "  - Top 5 products in the North region" ++ nl
  ++ py "  - Sales by region for 2022" ++ nl
  ++ py "  - Monthly trend for 2024 in South" ++ nl
  ++ py "  - Compare 2022 vs 2023" ++ nl
  ++ py "  - export pdf (export last insight as PDF)" ++ nl.

Definition unknown_text : str :=
  py "Bot: I couldn't understand that. "
  ++ py "Try asking about total sales, top products, regional sales, "
  ++ py "monthly trends, or year comparisons.".

Definition truthy_str (s : option str) : bool :=
  match s with Some (_ :: _) => true | _ => false end.

(** One turn of the loop of [run_cli] on the line that [input] returns. *)
Definition turn {R : Runtime} (OUTPUT_DIR : str) (data : DataFrame)
    (session : Session) (line : str) : Turn :=
  let message := strip line in
  let asked := [Ask prompt] in
  if is_one_of (lower message) [py "exit"; py "quit"; py "q"] then
    Break (asked ++ [Print (py "Bot: Goodbye!")])
  else if is_one_of (lower message) [py "help"; py "examples"] then
    Continue session (asked ++ [Print help_text])
  else if startswith (py "export pdf") (lower message) then
    match last_result session, last_summary session with
    | Some result, Some (c :: summary') =>
      let path := pdf_path OUTPUT_DIR in
      Continue session
        (asked ++ [PdfSaved path (c :: summary') result (last_chart_path session);
                   Print (py "Bot: PDF report saved to " ++ path)])
    | _, _ =>
      Continue session
        (asked ++ [Print (py "Bot: There is no previous insight to export yet.")])
    end
  else
    match parse_user_message message with
    | None => Uncaught asked
    | Some parsed =>
      if intent_is (nlp_processor.intent parsed) "unknown" then
        Continue session (asked ++ [Print unknown_text])
      else
        match handle_query message data parsed with
        | None =>
          Continue session
            (asked ++ [Print (py "Bot: I wasn't able to compute that request.")])
        | Some result =>
          match summarize result with
          | Returned summary =>
            match visualize_result OUTPUT_DIR result with
            | Returned chart_path =>
              Continue (mkSession (Some result) (Some summary) chart_path)
                (asked ++ [Print (py "Bot: " ++ summary)]
                 ++ (if truthy_str chart_path
                     then [Print (py "Bot: I also saved a chart to: "
                                  ++ default [] chart_path)]
                     else []))
            | _ => Uncaught asked
            end
          | _ => Uncaught asked
          end
        end
    end.

(** How the loop ends: by the exit command, by an exception nobody
    catches, or because [input] has nothing left to read. *)
Inductive Ending := Exited | Crashed | EndOfInput.

(** The loop of [run_cli] over the lines typed. *)
Fixpoint loop {R : Runtime} (OUTPUT_DIR : str) (data : DataFrame)
    (session : Session) (lines : list str) : list Output * Session * Ending :=
  match lines with
  | [] => ([Ask prompt], session, EndOfInput)
  | line :: lines' =>
    match turn OUTPUT_DIR data session line with
    | Break outputs => (outputs, session, Exited)
    | Uncaught outputs => (outputs, session, Crashed)
    | Continue session' outputs =>
      let '(outputs', final, ending) := loop OUTPUT_DIR data session' lines' in
      (outputs ++ outputs', final, ending)
    end
  end.

(** [run_cli] once the data are loaded: the banner, then the loop. *)
Definition run_cli {R : Runtime} (OUTPUT_DIR : str) (data : DataFrame)
    (lines : list str) : list Output * Session * Ending :=
  let '(outputs, final, ending) := loop OUTPUT_DIR data fresh lines in
  (Print (py "=== AI Sales Chatbot ===")
   :: Print (py "Ask a question about sales (type 'exit' to quit).")
   :: outputs, final, ending).

End cli.

(** ** Auxiliary notions for the proofs *)

Module Aux.
Import analytics_engine.

(** The two steps of [_filter_data]. *)
Definition year_step (years : option (list Z)) (df : DataFrame) : DataFrame :=
  if truthy_opt years
  then List.filter (fun r => isin Z.eqb (or_empty years) (col_year r)) df
  else df.

Definition region_step (regions : option (list str)) (df : DataFrame) : DataFrame :=
  if truthy_opt regions
  then List.filter (fun r => isin str_eqb (or_empty regions) (col_region r)) df
  else df.

(** The characters of a decimal numeral. *)
Definition uint_chars (d : Decimal.uint) : str :=
  list_ascii_of_string (NilEmpty.string_of_uint d).

(** One step of reading a numeral in base ten. *)
Definition read_digit (acc : Z) (c : ascii) : Z := 10 * acc + digit_value c.

(** Every character but the comma. *)
Definition not_comma (c : ascii) : bool := negb (Ascii.eqb c ",").

(** The three things a session remembers belong together: the summary is
    the summary of the remembered result, the chart path the one of its
    chart. *)
Definition consistent (OUTPUT_DIR : str) (s : cli.Session) : Prop :=
  s = cli.fresh
  \/ exists r text,
       cli.last_result s = Some r
       /\ cli.last_summary s = Some text
       /\ text <> []
       /\ insight_generator.summarize r = insight_generator.Returned text
       /\ visualization.visualize_result OUTPUT_DIR r
          = insight_generator.Returned (cli.last_chart_path s).

(** What a turn of the read loop wrote. *)
Definition outputs_of (t : cli.Turn) : list cli.Output :=
  match t with
  | cli.Continue _ outputs => outputs
  | cli.Break outputs => outputs
  | cli.Uncaught outputs => outputs
  end.

(** The line is none of the commands of the read loop. *)
Definition is_question (line : str) : Prop :=
  cli.is_one_of (lower (cli.strip line)) [py "exit"; py "quit"; py "q"] = false
  /\ cli.is_one_of (lower (cli.strip line)) [py "help"; py "examples"] = false
  /\ startswith (py "export pdf") (lower (cli.strip line)) = false.

End Aux.
Import Aux.

(** ** What the patterns denote

    The occurrences the regular expressions stand for, stated on the text
    itself; the scanning functions above are proved to find exactly these. *)

Module Occurs.
Import Re.

(** [sub] occurs in [s]. *)
Definition substring (sub s : str) : Prop :=
  exists pre post, s = pre ++ sub ++ post.

(** The character just before the position reached after [pre], when the
    character before [pre] is [prev]. *)
Definition before (prev : option ascii) (pre : str) : option ascii :=
  match last pre with Some c => Some c | None => prev end.

(** [g] is a word-bounded token [20dd] of [s], found after [pre]. *)
Definition year_token_at (prev : option ascii) (s pre g : str) : Prop :=
  exists d3 d4 post,
    s = pre ++ g ++ post /\
    g = ["2"; "0"; d3; d4]%char /\
    is_decimal d3 = true /\ is_decimal d4 = true /\
    word_opt (before prev pre) = false /\
    word_opt (head post) = false.

Definition year_token (s g : str) : Prop :=
  exists pre, year_token_at None s pre g.

(** The character class [p] does not hold of the next character, if any. *)
Definition stops (p : ascii -> bool) (rest : str) : Prop :=
  match rest with c :: _ => p c = false | [] => True end.

(** [top\s+(\d+)] matches [s] right after [pre] with group [g]: the
    letters "top", a non-empty run of white space, then the longest
    non-empty run of decimal digits. *)
Definition top_match_at (s pre g : str) : Prop :=
  exists ws post,
    s = pre ++ py "top" ++ ws ++ g ++ post /\
    ws <> [] /\ forallb is_space ws = true /\
    g <> [] /\ forallb is_decimal g = true /\
    stops is_decimal post.

(** The match the search reports: none starts further to the left. *)
Definition leftmost_top_match (s pre g : str) : Prop :=
  top_match_at s pre g /\
  forall pre' g', top_match_at s pre' g' -> (length pre <= length pre')%nat.

End Occurs.
Import Occurs.

(** ** Vocabulary for the statements about result tables *)

Module Tables.
Import analytics_engine.

(** What the proofs need of a key order. *)
Class KeyOrder {K : Type} (cmp : K -> K -> comparison) : Prop := {
  cmp_eq : forall x y, cmp x y = Eq <-> x = y;
  cmp_antisym : forall x y, cmp y x = CompOpp (cmp x y);
  cmp_lt_trans : forall x y z, cmp x y = Lt -> cmp y z = Lt -> cmp x z = Lt
}.

Arguments cmp_eq {K} cmp {_} x y.
Arguments cmp_antisym {K} cmp {_} x y.
Arguments cmp_lt_trans {K} cmp {_} x y z.

Definition key_lt {K : Type} (cmp : K -> K -> comparison) (x y : K) : Prop :=
  cmp x y = Lt.

(** Largest sum first. *)
Definition sum_desc {K : Type} (a b : K * Q) : Prop := (snd b <= snd a)%Q.

(** The number of distinct products among the rows. *)
Definition distinct_products (data : DataFrame) : nat :=
  size (list_to_set (map col_product data) : gset str).

(** The sum of [total_sales] over the group of the rows selected by [sel]. *)
Definition sum_where {R : Runtime} (sel : Row -> bool) (data : DataFrame) : Q :=
  group_sum (map col_total_sales (List.filter sel data)).

(** The position at which [p] is first met in [ps]. *)
Fixpoint first_index (p : str) (ps : list str) : nat :=
  match ps with
  | [] => 0
  | q :: ps' => if str_eqb p q then 0 else S (first_index p ps')
  end.

(** The tie-break as the specification words it: of two groups with equal
    sums, the one first met comes first.  On rows that are in the order of
    their product names, the groups are met in that order in the rows and in
    the grouped series alike. *)
Definition ties_first_encountered (data : DataFrame) (rows : list (str * Q))
    : Prop :=
  forall i j a b,
    (i < j)%nat -> nth_error rows i = Some a -> nth_error rows j = Some b ->
    (snd a == snd b)%Q ->
    (first_index (fst a) (map col_product data)
     < first_index (fst b) (map col_product data))%nat.

(** The Top-N claim as the specification words it. *)
Definition top_n_as_specified {R : Runtime} (df : DataFrame) (n : Z)
    (years : option (list Z)) (regions : option (list str)) : Prop :=
  let data := _filter_data df years regions in
  exists rows,
    table (top_n_products df n years regions) = KeyedStr (py "product") rows
    /\ length rows = Nat.min (Z.to_nat n) (distinct_products data)
    /\ StronglySorted sum_desc rows
    /\ ties_first_encountered data rows
    /\ forall p v, In (p, v) rows ->
         v = sum_where (fun r => str_eqb (col_product r) p) data.

(** Two sales rows of the same amount, the later product first in the
    alphabet. *)
Definition two_equal_products : DataFrame :=
  [ mkRow (py "2023-01-05") 2023 1 (py "North") (py "Tablet") (py "Computers") 1 10 10;
    mkRow (py "2023-02-07") 2023 2 (py "South") (py "Laptop") (py "Computers") 1 10 10 ].

(** Sales of three products over the years 2021 to 2024. *)
Definition four_year_sales : DataFrame :=
  [ mkRow (py "2023-04-11") 2023 4 (py "East") (py "Printer") (py "Accessories") 2 100 200;
    mkRow (py "2021-06-02") 2021 6 (py "West") (py "Laptop") (py "Computers") 1 800 800;
    mkRow (py "2024-01-20") 2024 1 (py "East") (py "Monitor") (py "Accessories") 2 250 500;
    mkRow (py "2022-09-15") 2022 9 (py "North") (py "Laptop") (py "Computers") 1 790 790;
    mkRow (py "2021-12-01") 2021 12 (py "South") (py "Printer") (py "Accessories") 1 210 210 ].

(** Four products in the order of their names, two pairs of equal sums. *)
Definition tied_products : DataFrame :=
  [ mkRow (py "2023-01-05") 2023 1 (py "North") (py "Desktop") (py "Computers") 1 20 20;
    mkRow (py "2023-02-07") 2023 2 (py "South") (py "Laptop") (py "Computers") 1 20 20;
    mkRow (py "2023-03-09") 2023 3 (py "East") (py "Monitor") (py "Accessories") 1 30 30;
    mkRow (py "2023-04-11") 2023 4 (py "West") (py "Printer") (py "Accessories") 1 30 30 ].

(** One sale of an eighth of a unit of currency. *)
Definition one_eighth_sale : DataFrame :=
  [ mkRow (py "2024-03-09") 2024 3 (py "North") (py "Monitor") (py "Accessories")
      1 (1 # 8) (1 # 8) ].

End Tables.
Import Tables.

(** * Properties *)

(** ** Substring tests *)

Section StringFacts.

Lemma startswith_app (p post : str) : startswith p (p ++ post) = true.
Proof.
  induction p as [|a p IH]; simpl; [reflexivity|].
  rewrite Ascii.eqb_refl. exact IH.
Qed.

Lemma startswith_inv (p s : str) :
  startswith p s = true -> exists post, s = p ++ post.
Proof.
  revert s. induction p as [|a p IH]; intros s H.
  - exists s. reflexivity.
  - destruct s as [|b s]; simpl in H; [discriminate|].
    apply andb_prop in H as [Hab Hps].
    apply Ascii.eqb_eq in Hab. subst b.
    destruct (IH s Hps) as [post ->]. exists post. reflexivity.
Qed.

(** [sub in s] holds exactly when [s] splits around a copy of [sub]. *)
Lemma contains_iff (sub s : str) :
  contains sub s = true <-> exists pre post, s = pre ++ sub ++ post.
Proof.
  split.
  - induction s as [|c s IH]; simpl; intros H.
    + apply orb_prop in H as [H|H]; [|discriminate].
      apply startswith_inv in H as [post ->]. exists [], post. reflexivity.
    + apply orb_prop in H as [H|H].
      * apply startswith_inv in H as [post ->]. exists [], post. reflexivity.
      * destruct (IH H) as (pre & post & ->). exists (c :: pre), post. reflexivity.
  - intros (pre & post & ->).
    induction pre as [|c pre IH].
    + simpl. destruct (sub ++ post) eqn:E; simpl.
      * rewrite <- E, startswith_app. reflexivity.
      * rewrite <- E, startswith_app. reflexivity.
    + change ((c :: pre) ++ sub ++ post) with (c :: (pre ++ sub ++ post)).
      simpl. rewrite IH. apply orb_true_r.
Qed.

Lemma is_decimal_word (c : ascii) : is_decimal c = true -> is_word c = true.
Proof.
  unfold is_word, is_alnum, is_decimal. intros ->. reflexivity.
Qed.

Lemma is_decimal_not_space (c : ascii) : is_decimal c = true -> is_space c = false.
Proof.
  unfold is_decimal, is_space, in_range. intros H.
  apply andb_prop in H as [H1 H2].
  apply N.leb_le in H1. apply N.leb_le in H2.
  repeat (apply orb_false_intro);
    try (apply andb_false_iff; first [left; apply N.leb_gt; lia | right; apply N.leb_gt; lia]);
    apply N.eqb_neq; lia.
Qed.

Lemma digit_value_range (c : ascii) :
  is_decimal c = true -> 0 <= digit_value c <= 9.
Proof.
  unfold is_decimal, in_range, digit_value. intros H.
  apply andb_prop in H as [H1 H2].
  apply N.leb_le in H1. apply N.leb_le in H2. lia.
Qed.

End StringFacts.

(** ** The year pattern *)

Section YearPattern.
Import Re.

Lemma before_nil prev : before prev [] = prev.
Proof. reflexivity. Qed.

Lemma before_cons prev c pre : before prev (c :: pre) = before (Some c) pre.
Proof.
  unfold before. rewrite last_cons. destruct (last pre); reflexivity.
Qed.

Lemma boundary_word_r prev c :
  is_word c = true -> boundary prev (Some c) = negb (word_opt prev).
Proof. unfold boundary. simpl. intros ->. apply xorb_true_r. Qed.

Lemma boundary_word_l c next :
  is_word c = true -> boundary (Some c) next = negb (word_opt next).
Proof. unfold boundary. simpl. intros ->. reflexivity. Qed.

(** The anchored match, read off the text. *)
Lemma year_at_Some prev s g :
  year_at prev s = Some g <-> year_token_at prev s [] g.
Proof.
  unfold year_at, year_token_at. split.
  - destruct s as [|c1 [|c2 [|c3 [|c4 rest]]]]; try discriminate.
    destruct (_ && _) eqn:E; [|discriminate].
    intros [= <-].
    apply andb_prop in E as [E Hn]. apply andb_prop in E as [E H4].
    apply andb_prop in E as [E H3]. apply andb_prop in E as [E H2].
    apply andb_prop in E as [Hp H1].
    apply Ascii.eqb_eq in H1, H2. subst c1 c2.
    rewrite boundary_word_r in Hp by reflexivity.
    rewrite boundary_word_l in Hn by (apply is_decimal_word; assumption).
    apply negb_true_iff in Hp, Hn.
    exists c3, c4, rest. rewrite before_nil. repeat split; assumption.
  - intros (d3 & d4 & post & -> & -> & H3 & H4 & Hp & Hn).
    rewrite before_nil in Hp. simpl.
    rewrite boundary_word_r by reflexivity.
    rewrite boundary_word_l by (apply is_decimal_word; assumption).
    rewrite Hp, Hn, H3, H4. reflexivity.
Qed.

Lemma year_token_at_cons prev c s pre g :
  year_token_at prev (c :: s) (c :: pre) g <-> year_token_at (Some c) s pre g.
Proof.
  unfold year_token_at. split.
  - intros (d3 & d4 & post & E & -> & H3 & H4 & Hp & Hn).
    rewrite before_cons in Hp. injection E as E.
    exists d3, d4, post. repeat split; assumption.
  - intros (d3 & d4 & post & -> & -> & H3 & H4 & Hp & Hn).
    exists d3, d4, post. rewrite before_cons. repeat split; assumption.
Qed.

(** [re.search] succeeds exactly when the text has such a token. *)
Lemma search_year_iff prev s :
  search_year prev s = true <-> exists pre g, year_token_at prev s pre g.
Proof.
  split.
  - revert prev. induction s as [|c s IH]; intros prev H.
    + simpl in H. discriminate.
    + cbn [search_year] in H.
      destruct (year_at prev (c :: s)) as [g|] eqn:E.
      * exists [], g. apply year_at_Some. exact E.
      * destruct (IH _ H) as (pre & g & Hg).
        exists (c :: pre), g. apply year_token_at_cons. exact Hg.
  - intros (pre & g & Hg). revert prev s Hg.
    induction pre as [|c pre IH]; intros prev s Hg.
    + apply year_at_Some in Hg.
      destruct s; cbn [search_year]; rewrite Hg; reflexivity.
    + assert (exists s', s = c :: s') as [s' ->].
      { destruct Hg as (? & ? & ? & -> & _). eexists. reflexivity. }
      apply year_token_at_cons in Hg.
      cbn [search_year]. destruct (year_at prev (c :: s')); [reflexivity|].
      apply IH. exact Hg.
Qed.

End YearPattern.

Section FindAll.
Import Re.

Lemma findall_year_step prev c1 s1 :
  findall_year prev (c1 :: s1) =
  match year_at prev (c1 :: s1), s1 with
  | Some g, _ :: _ :: c4 :: rest => g :: findall_year (Some c4) rest
  | _, _ => findall_year (Some c1) s1
  end.
Proof. reflexivity. Qed.

Lemma year_token_at_skip4 prev a b c d s pre g :
  year_token_at prev (a :: b :: c :: d :: s) (a :: b :: c :: d :: pre) g
  <-> year_token_at (Some d) s pre g.
Proof. rewrite !year_token_at_cons. reflexivity. Qed.

(** A token that starts inside a match would start right after a word
    character: the next token starts at or after the end of the match. *)
Lemma year_token_after_match prev d3 d4 post0 pre g :
  is_decimal d3 = true -> is_decimal d4 = true ->
  year_token_at prev ("2" :: "0" :: d3 :: d4 :: post0)%char pre g ->
  pre = [] \/
  exists pre', pre = ("2" :: "0" :: d3 :: d4 :: pre')%char
               /\ year_token_at (Some d4) post0 pre' g.
Proof.
  intros H3 H4 Hg.
  destruct pre as [|a pre]; [left; reflexivity|right].
  assert (Hs := Hg). destruct Hs as (e3 & e4 & post & E & _ & _ & _ & Hp & _).
  destruct pre as [|b pre].
  { injection E as Ea _. subst a. vm_compute in Hp. discriminate. }
  destruct pre as [|c pre].
  { injection E as _ Eb _. subst b. vm_compute in Hp. discriminate. }
  destruct pre as [|d pre].
  { injection E as _ _ Ec _. subst c. cbn in Hp.
    rewrite (is_decimal_word _ H3) in Hp. discriminate. }
  injection E as Ea Eb Ec Ed E. subst a b c d.
  exists pre. split; [reflexivity|].
  apply year_token_at_skip4 in Hg. exact Hg.
Qed.

Lemma findall_year_sound n : forall prev s g,
  (length s <= n)%nat ->
  In g (findall_year prev s) -> exists pre, year_token_at prev s pre g.
Proof.
  induction n as [|n IH]; intros prev s g Hlen Hin.
  - destruct s; [contradiction|simpl in Hlen; lia].
  - destruct s as [|c1 s1]; [contradiction|].
    rewrite findall_year_step in Hin.
    destruct (year_at prev (c1 :: s1)) as [g0|] eqn:E.
    + assert (Hy := E). apply year_at_Some in Hy.
      destruct Hy as (d3 & d4 & post & Es & -> & H3 & H4 & _).
      injection Es as -> ->.
      destruct Hin as [<-|Hin].
      * exists []. apply year_at_Some. exact E.
      * apply IH in Hin as [pre Hpre]; [|simpl in Hlen |- *; lia].
        exists ("2" :: "0" :: d3 :: d4 :: pre)%char.
        apply year_token_at_skip4. exact Hpre.
    + assert (Hin' : In g (findall_year (Some c1) s1)).
      { destruct s1 as [|? [|? [|? ?]]]; exact Hin. }
      apply IH in Hin' as [pre Hpre]; [|simpl in Hlen; lia].
      exists (c1 :: pre). apply year_token_at_cons. exact Hpre.
Qed.

Lemma findall_year_complete n : forall prev s pre g,
  (length s <= n)%nat ->
  year_token_at prev s pre g -> In g (findall_year prev s).
Proof.
  induction n as [|n IH]; intros prev s pre g Hlen Hg.
  - destruct Hg as (? & ? & ? & -> & -> & _).
    rewrite length_app in Hlen. simpl in Hlen. lia.
  - destruct s as [|c1 s1].
    { destruct Hg as (? & ? & ? & E & -> & _). destruct pre; discriminate. }
    rewrite findall_year_step.
    destruct (year_at prev (c1 :: s1)) as [g0|] eqn:E.
    + assert (Hy := E). apply year_at_Some in Hy.
      destruct Hy as (d3 & d4 & post & Es & -> & H3 & H4 & _).
      injection Es as -> ->.
      destruct (year_token_after_match _ _ _ _ _ _ H3 H4 Hg)
        as [->|(pre' & -> & Hg')].
      * apply year_at_Some in Hg. rewrite Hg in E. injection E as <-.
        left. reflexivity.
      * right. apply (IH _ _ pre'); [simpl in Hlen |- *; lia|exact Hg'].
    + destruct pre as [|c pre].
      { apply year_at_Some in Hg. congruence. }
      assert (c = c1) as ->.
      { destruct Hg as (? & ? & ? & Es & _). injection Es as -> _. reflexivity. }
      apply year_token_at_cons in Hg.
      assert (In g (findall_year (Some c1) s1)) as Hin.
      { apply (IH _ _ pre); [simpl in Hlen; lia|exact Hg]. }
      destruct s1 as [|? [|? [|? ?]]]; exact Hin.
Qed.

(** [re.findall] returns exactly the word-bounded tokens of the text. *)
Lemma findall_year_iff (s g : str) :
  In g (findall_year None s) <-> year_token s g.
Proof.
  split.
  - apply (findall_year_sound (length s)). lia.
  - intros [pre Hg]. apply (findall_year_complete (length s) _ _ pre); [lia|exact Hg].
Qed.

Lemma int_year_group (d3 d4 : ascii) :
  is_decimal d3 = true -> is_decimal d4 = true ->
  int ["2"; "0"; d3; d4]%char = Some (2000 + 10 * digit_value d3 + digit_value d4).
Proof.
  intros H3 H4. unfold int. cbn [forallb].
  rewrite H3, H4.
  change (true && (true && (true && (true && true)))
          && (N.of_nat (length ["2"; "0"; d3; d4]%char) <=? int_max_str_digits)%N)
    with true.
  cbn. f_equal. unfold digit_value. cbn. lia.
Qed.

Lemma sorted_In (xs : list Z) (y : Z) : In y (sorted xs) <-> In y xs.
Proof.
  unfold sorted. rewrite <- !list_elem_of_In.
  rewrite (merge_sort_Permutation Z.le xs). reflexivity.
Qed.

Lemma StronglySorted_le_lt (xs : list Z) :
  StronglySorted Z.le xs -> NoDup xs -> StronglySorted Z.lt xs.
Proof.
  induction 1 as [|x xs Hs IH Hx]; intros Hnd; constructor.
  - apply IH. apply NoDup_cons_1_2 in Hnd. exact Hnd.
  - apply NoDup_cons in Hnd as [Hni _].
    apply Forall_forall. intros y Hy.
    rewrite Forall_forall in Hx. specialize (Hx y Hy).
    assert (x <> y) by (intros ->; apply Hni; exact Hy). lia.
Qed.

Lemma sorted_strict (xs : list Z) :
  NoDup xs -> StronglySorted Z.lt (sorted xs).
Proof.
  intros Hnd. apply StronglySorted_le_lt.
  - unfold sorted. apply StronglySorted_merge_sort; try apply _.
  - unfold sorted. rewrite (merge_sort_Permutation Z.le xs). exact Hnd.
Qed.

End FindAll.

(** ** Claims on the query interpreter *)

Section Interpreter.
Import Re nlp_processor.

(** C1. Whenever the lower-cased message contains one of "compare", "vs",
    "versus" and also a word-bounded token [20dd], [detect_intent] answers
    'year_comparison', whatever else the message contains: the first rule of
    the cascade wins. *)
Theorem detect_intent_year_comparison (message : str) :
  (exists w, In w [py "compare"; py "vs"; py "versus"]
             /\ substring w (lower message)) ->
  (exists g, year_token (lower message) g) ->
  detect_intent message = py "year_comparison".
Proof.
  intros (w & Hw & Hsub) (g & pre & Hg).
  unfold detect_intent.
  assert (existsb (fun word => contains word (lower message))
            [py "compare"; py "vs"; py "versus"] = true) as ->.
  { apply existsb_exists. exists w. split; [exact Hw|].
    apply contains_iff. exact Hsub. }
  assert (search_year None (lower message) = true) as ->.
  { apply search_year_iff. exists pre, g. exact Hg. }
  reflexivity.
Qed.

(** A message that also carries the keywords of rules 2, 3 and 4. *)
Lemma detect_intent_year_comparison_witness :
  detect_intent (py "Compare the monthly trend of top regions: 2022 VS 2023")
  = py "year_comparison".
Proof.
  apply detect_intent_year_comparison.
  - exists (py "compare"). split; [left; reflexivity|].
    exists [], (py " the monthly trend of top regions: 2022 vs 2023").
    reflexivity.
  - exists (py "2022"), (py "compare the monthly trend of top regions: ").
    exists "2"%char, "2"%char, (py " vs 2023").
    repeat split; reflexivity.
Defined.

Lemma Forall2_In_r {A B} (P : A -> B -> Prop) l k y :
  Forall2 P l k -> In y k -> exists x, In x l /\ P x y.
Proof.
  induction 1 as [|x y' l k HP _ IH]; intros Hin; [contradiction|].
  destruct Hin as [<-|Hin].
  - exists x. split; [left; reflexivity|exact HP].
  - destruct (IH Hin) as (x' & Hx' & HP'). exists x'. split; [right|]; assumption.
Qed.

Lemma Forall2_In_l {A B} (P : A -> B -> Prop) l k x :
  Forall2 P l k -> In x l -> exists y, In y k /\ P x y.
Proof.
  induction 1 as [|x' y l k HP _ IH]; intros Hin; [contradiction|].
  destruct Hin as [<-|Hin].
  - exists y. split; [left; reflexivity|exact HP].
  - destruct (IH Hin) as (y' & Hy' & HP'). exists y'. split; [right|]; assumption.
Qed.

Lemma extract_years_groups (message : str) :
  exists ys, mapM int (findall_year None message) = Some ys
    /\ forall y, In y ys <-> exists g, year_token message g /\ int g = Some y.
Proof.
  destruct (mapM int (findall_year None message)) as [ys|] eqn:E.
  - exists ys. split; [reflexivity|]. apply mapM_Some in E.
    intros y. split.
    + intros Hy.
      destruct (Forall2_In_r _ _ _ _ E Hy) as (g & Hg & Hint).
      exists g. split; [|exact Hint].
      apply findall_year_iff. exact Hg.
    + intros (g & Hg & Hint). apply findall_year_iff in Hg.
      destruct (Forall2_In_l _ _ _ _ E Hg) as (y' & Hy' & Hint').
      congruence.
  - exfalso. apply eq_None_not_Some in E. apply E.
    apply mapM_is_Some. apply Forall_forall. intros g Hg.
    apply list_elem_of_In, findall_year_iff in Hg.
    destruct Hg as (pre & d3 & d4 & post & _ & -> & H3 & H4 & _).
    unfold compose. rewrite int_year_group by assumption. eexists. reflexivity.
Qed.

(** C7. [extract_years] never fails and returns, strictly ascending (hence
    without repetition), exactly the integers written by the word-bounded
    4-digit tokens [20dd] of the message; "compare 2023 and 2022 and 2023"
    gives [2022, 2023]. *)
Theorem extract_years_exact :
  (forall message, exists ys,
      extract_years message = Some ys /\
      StronglySorted Z.lt ys /\
      forall y, In y ys <-> exists g, year_token message g /\ int g = Some y)
  /\ extract_years (py "compare 2023 and 2022 and 2023") = Some [2022; 2023].
Proof.
  split; [|vm_compute; reflexivity].
  intros message. unfold extract_years.
  destruct (extract_years_groups message) as (ys & -> & Hys).
  eexists. split; [reflexivity|]. split.
  - apply sorted_strict. apply NoDup_elements.
  - intros y. rewrite sorted_In, <- Hys, <- !list_elem_of_In.
    rewrite elem_of_elements, elem_of_list_to_set. reflexivity.
Qed.

End Interpreter.

(** ** The top-N pattern *)

Section TopPattern.
Import Re.

Lemma span_app (p : ascii -> bool) (a b : str) :
  forallb p a = true -> stops p b -> span p (a ++ b) = (a, b).
Proof.
  intros Ha Hb. induction a as [|c a IH]; simpl.
  - destruct b as [|c b]; [reflexivity|]. simpl in Hb |- *. rewrite Hb. reflexivity.
  - simpl in Ha. apply andb_prop in Ha as [Hc Ha].
    rewrite Hc, (IH Ha). reflexivity.
Qed.

Lemma span_inv (p : ascii -> bool) (s a b : str) :
  span p s = (a, b) -> s = a ++ b /\ forallb p a = true /\ stops p b.
Proof.
  revert a b. induction s as [|c s IH]; intros a b H; simpl in H.
  - injection H as <- <-. repeat split.
  - destruct (p c) eqn:Hc.
    + destruct (span p s) as [a' b'] eqn:E. injection H as <- <-.
      destruct (IH _ _ eq_refl) as (-> & Ha & Hb).
      repeat split; [simpl; rewrite Hc; exact Ha|exact Hb].
    + injection H as <- <-. repeat split. exact Hc.
Qed.

Lemma stops_space_digits (g post : str) :
  g <> [] -> forallb is_decimal g = true -> stops is_space (g ++ post).
Proof.
  destruct g as [|c g]; [congruence|]. simpl. intros _ H.
  apply andb_prop in H as [H _]. apply is_decimal_not_space. exact H.
Qed.

Lemma truthy_list_true {A} (l : list A) : truthy_list l = true <-> l <> [].
Proof. destruct l; simpl; split; congruence. Qed.

(** The anchored match, read off the text. *)
Lemma top_at_Some (s g : str) : top_at s = Some g <-> top_match_at s [] g.
Proof.
  unfold top_at, top_match_at. split.
  - destruct s as [|c1 [|c2 [|c3 rest]]]; try discriminate.
    destruct (_ && _) eqn:E; [|discriminate].
    apply andb_prop in E as [E H3]. apply andb_prop in E as [H1 H2].
    apply Ascii.eqb_eq in H1, H2, H3. subst c1 c2 c3.
    destruct (span is_space rest) as [ws rest'] eqn:Ews.
    destruct (span is_decimal rest') as [ds post] eqn:Eds.
    destruct (truthy_list ws && truthy_list ds) eqn:Et; [|discriminate].
    intros [= <-]. apply andb_prop in Et as [Hws Hds].
    apply truthy_list_true in Hws, Hds.
    apply span_inv in Ews as (-> & Hsp & _).
    apply span_inv in Eds as (-> & Hdg & Hstop).
    exists ws, post. repeat split; assumption.
  - intros (ws & post & -> & Hws & Hsp & Hg & Hdg & Hstop). simpl.
    rewrite (span_app is_space ws (g ++ post) Hsp (stops_space_digits _ _ Hg Hdg)).
    rewrite (span_app is_decimal g post Hdg Hstop).
    apply truthy_list_true in Hws, Hg. rewrite Hws, Hg. reflexivity.
Qed.

Lemma top_match_at_cons c s pre g :
  top_match_at (c :: s) (c :: pre) g <-> top_match_at s pre g.
Proof.
  unfold top_match_at. split.
  - intros (ws & post & E & H). injection E as E. exists ws, post. split; assumption.
  - intros (ws & post & -> & H). exists ws, post. split; [reflexivity|exact H].
Qed.

Lemma top_match_at_head c s pre g :
  top_match_at (c :: s) pre g -> pre = [] \/ exists pre', pre = c :: pre'.
Proof.
  intros (ws & post & E & _). destruct pre as [|c' pre]; [left; reflexivity|].
  injection E as -> _. right. eexists. reflexivity.
Qed.

Lemma top_match_at_nil pre g : ~ top_match_at [] pre g.
Proof. intros (ws & post & E & _). destruct pre; discriminate. Qed.

(** What [re.search] returns: the group of the leftmost match, if any. *)
Lemma search_top_Some (s g : str) :
  search_top s = Some g -> exists pre, leftmost_top_match s pre g.
Proof.
  induction s as [|c s IH]; cbn [search_top]; intros H.
  - discriminate.
  - destruct (top_at (c :: s)) as [g0|] eqn:E.
    + injection H as ->. exists []. split; [apply top_at_Some; exact E|].
      intros; simpl; lia.
    + destruct (IH H) as (pre & Hm & Hleft). exists (c :: pre). split.
      * apply top_match_at_cons. exact Hm.
      * intros pre' g' Hm'.
        destruct (top_match_at_head _ _ _ _ Hm') as [->|[pre'' ->]].
        -- apply top_at_Some in Hm'. congruence.
        -- apply top_match_at_cons in Hm'. specialize (Hleft _ _ Hm').
           simpl. lia.
Qed.

Lemma search_top_None (s : str) :
  search_top s = None -> forall pre g, ~ top_match_at s pre g.
Proof.
  induction s as [|c s IH]; cbn [search_top]; intros H pre g Hm.
  - exact (top_match_at_nil _ _ Hm).
  - destruct (top_at (c :: s)) as [g0|] eqn:E; [discriminate|].
    destruct (top_match_at_head _ _ _ _ Hm) as [->|[pre' ->]].
    + apply top_at_Some in Hm. congruence.
    + apply top_match_at_cons in Hm. exact (IH H _ _ Hm).
Qed.

(** Two leftmost matches are the same match. *)
Lemma leftmost_top_match_unique (s pre1 g1 pre2 g2 : str) :
  leftmost_top_match s pre1 g1 -> leftmost_top_match s pre2 g2 -> g1 = g2.
Proof.
  intros [H1 L1] [H2 L2].
  assert (Hlen : length pre1 = length pre2).
  { specialize (L1 _ _ H2). specialize (L2 _ _ H1). lia. }
  clear L1 L2. revert pre1 pre2 Hlen H1 H2.
  induction s as [|c s IH]; intros pre1 pre2 Hlen H1 H2.
  - destruct (top_match_at_nil _ _ H1).
  - destruct (top_match_at_head _ _ _ _ H1) as [->|[p1 ->]];
    destruct (top_match_at_head _ _ _ _ H2) as [->|[p2 ->]];
    try discriminate.
    + apply top_at_Some in H1, H2. congruence.
    + apply top_match_at_cons in H1, H2.
      apply (IH p1 p2); [simpl in Hlen; lia|assumption|assumption].
Qed.

Lemma int_digits (g : str) :
  g <> [] -> forallb is_decimal g = true ->
  (N.of_nat (length g) <= int_max_str_digits)%N ->
  exists v, int g = Some v /\ 0 <= v.
Proof.
  intros Hg Hd Hlen. unfold int. destruct g as [|c g]; [congruence|].
  rewrite Hd, (proj2 (N.leb_le _ _) Hlen). eexists. split; [reflexivity|].
  assert (forall l acc, forallb is_decimal l = true -> 0 <= acc ->
            0 <= fold_left (fun a d => 10 * a + digit_value d) l acc) as Hfold.
  { induction l as [|d l IH]; intros acc Hl Hacc; simpl; [exact Hacc|].
    simpl in Hl. apply andb_prop in Hl as [Hd0 Hl].
    apply IH; [exact Hl|]. pose proof (digit_value_range d Hd0). lia. }
  apply Hfold; [exact Hd|lia].
Qed.

End TopPattern.

Section InterpreterEntities.
Import Re nlp_processor.

Lemma contains_false (sub s : str) : ~ substring sub s -> contains sub s = false.
Proof.
  intros H. destruct (contains sub s) eqn:E; [|reflexivity].
  exfalso. apply H, contains_iff, E.
Qed.

Lemma substring_false (sub s : str) : contains sub s = false -> ~ substring sub s.
Proof. intros E H. apply contains_iff in H. congruence. Qed.

Lemma int_too_long (g : str) :
  (int_max_str_digits < N.of_nat (length g))%N -> int g = None.
Proof.
  intros Hlen. unfold int. destruct g as [|c g]; [reflexivity|].
  rewrite (proj2 (N.leb_gt _ _) Hlen), andb_false_r. reflexivity.
Qed.

(** C8, as the specification words it, fails: the lower-cased message
    matches [top\s+(\d+)], and yet there is no value, because [int] raises
    [ValueError] on a digit group of 4301 digits and [extract_top_n] catches
    it. *)
Lemma extract_top_n_long_digit_group :
  (exists pre,
      leftmost_top_match (lower (py "top " ++ repeat "9"%char 4301)) pre
        (repeat "9"%char 4301))
  /\ extract_top_n (py "top " ++ repeat "9"%char 4301) = None.
Proof.
  assert (E : search_top (lower (py "top " ++ repeat "9"%char 4301))
              = Some (repeat "9"%char 4301)) by (vm_compute; reflexivity).
  split.
  - exact (search_top_Some _ _ E).
  - vm_compute. reflexivity.
Qed.

(** C8. [extract_top_n] is total.  When the lower-cased message matches
    [top\s+(\d+)] and the digit group of the leftmost match has at most 4300
    digits, the group parses and the result is that number raised to at
    least 1 ("top 0" gives 1, "top 3" gives 3); when the group is longer
    there is no value; when nothing matches ("top products") there is no
    value either. *)
Theorem extract_top_n_clamped :
  (forall message,
      (forall pre g, leftmost_top_match (lower message) pre g ->
         (N.of_nat (length g) <= 4300)%N ->
         exists v, int g = Some v /\ 0 <= v
                   /\ extract_top_n message = Some (Z.max 1 v))
      /\ (forall pre g, leftmost_top_match (lower message) pre g ->
           (4300 < N.of_nat (length g))%N ->
           extract_top_n message = None)
      /\ ((forall pre g, ~ top_match_at (lower message) pre g) ->
          extract_top_n message = None)
      /\ (forall k, extract_top_n message = Some k -> 1 <= k))
  /\ extract_top_n (py "show me the top 3 products") = Some 3
  /\ extract_top_n (py "top 3") = Some 3
  /\ extract_top_n (py "top 0") = Some 1
  /\ extract_top_n (py "top products") = None.
Proof.
  split; [|split; [|split; [|split]]; vm_compute; reflexivity].
  intros message. unfold extract_top_n.
  destruct (search_top (lower message)) as [g0|] eqn:E.
  - destruct (search_top_Some _ _ E) as (pre0 & Hleft0).
    assert (Hm0 := Hleft0). destruct Hm0 as [(ws & post & _ & _ & _ & Hg & Hd & _) _].
    split; [|split; [|split]].
    + intros pre g Hleft Hlen.
      rewrite (leftmost_top_match_unique _ _ _ _ _ Hleft Hleft0) in Hlen |- *.
      destruct (int_digits g0 Hg Hd Hlen) as (v & Hv & Hpos).
      rewrite Hv. exists v. split; [reflexivity|split; [exact Hpos|reflexivity]].
    + intros pre g Hleft Hlen.
      rewrite (leftmost_top_match_unique _ _ _ _ _ Hleft Hleft0) in Hlen.
      rewrite (int_too_long g0 Hlen). reflexivity.
    + intros Hno. destruct Hleft0 as [Hm _]. destruct (Hno _ _ Hm).
    + intros k Hk. destruct (int g0); [|discriminate].
      injection Hk as <-. lia.
  - pose proof (search_top_None _ E) as Hno. split; [|split; [|split]].
    + intros pre g [Hm _]. destruct (Hno _ _ Hm).
    + intros pre g [Hm _]. destruct (Hno _ _ Hm).
    + reflexivity.
    + discriminate.
Qed.

(** The leftmost of two matches decides: "Top 7 ... top 9" gives 7. *)
Lemma extract_top_n_clamped_witness :
  exists pre v,
    leftmost_top_match (lower (py "Top 7 sellers, then top 9")) pre (py "7")
    /\ int (py "7") = Some v
    /\ extract_top_n (py "Top 7 sellers, then top 9") = Some (Z.max 1 v).
Proof.
  destruct (search_top_Some (lower (py "Top 7 sellers, then top 9")) (py "7") eq_refl)
    as [pre Hleft].
  destruct (proj1 (proj1 extract_top_n_clamped (py "Top 7 sellers, then top 9"))
              pre (py "7") Hleft) as (v & Hv & _ & Hr).
  { vm_compute. discriminate. }
  exists pre, v. split; [exact Hleft|split; assumption].
Defined.

Lemma scan_regions_filter (text : str) (names : list str) :
  scan_regions text names
  = map capitalize (List.filter (fun r => contains r text) names).
Proof.
  induction names as [|r names IH]; simpl; [reflexivity|].
  destruct (contains r text); simpl; rewrite IH; reflexivity.
Qed.

Lemma dedup_NoDup (seen : gset str) (found : list str) :
  NoDup found -> (forall r, r ∈ found -> r ∉ seen) -> dedup seen found = found.
Proof.
  revert seen. induction found as [|r found IH]; intros seen Hnd Hseen; simpl.
  - reflexivity.
  - apply NoDup_cons in Hnd as [Hr Hnd].
    destruct (decide (r ∈ seen)) as [Hin|_].
    + exfalso. apply (Hseen r); [left|exact Hin].
    + f_equal. apply IH; [exact Hnd|].
      intros r' Hr' Hs. apply elem_of_union in Hs as [Hs|Hs].
      * apply elem_of_singleton in Hs. subst r'. exact (Hr Hr').
      * apply (Hseen r'); [right; exact Hr'|exact Hs].
Qed.

Lemma sublist_map_filter {A B} (f : A -> B) (p : A -> bool) (l : list A) :
  sublist (map f (List.filter p l)) (map f l).
Proof.
  induction l as [|x l IH]; simpl; [constructor|].
  destruct (p x); simpl; [apply sublist_skip|apply sublist_cons]; exact IH.
Qed.

Lemma capitalized_REGIONS_NoDup : NoDup (map capitalize REGIONS).
Proof.
  apply NoDup_ListNoDup.
  repeat (constructor; [simpl; intuition discriminate|]). constructor.
Qed.

Lemma capitalize_REGIONS_inj (r r' : str) :
  In r REGIONS -> In r' REGIONS -> capitalize r = capitalize r' -> r = r'.
Proof.
  unfold REGIONS. simpl. intros Hr Hr' E.
  repeat (destruct Hr as [<-|Hr]); try contradiction;
  repeat (destruct Hr' as [<-|Hr']); try contradiction;
  first [reflexivity | vm_compute in E; discriminate].
Qed.

(** C6. [extract_regions] returns the capitalised names of the regions that
    occur in the lower-cased message, each once, in the order of the fixed
    list (north, south, east, west) and not in the order of the message:
    "Sales in north and South" gives ["North", "South"], and so does a
    message that names the south first. *)
Theorem extract_regions_scan_order :
  (forall message,
      extract_regions message
      = map capitalize
          (List.filter (fun r => contains r (lower message)) REGIONS)
      /\ sublist (extract_regions message) (map capitalize REGIONS)
      /\ List.NoDup (extract_regions message)
      /\ forall region, In region REGIONS ->
           (In (capitalize region) (extract_regions message)
            <-> substring region (lower message)))
  /\ extract_regions (py "Sales in north and South") = [py "North"; py "South"]
  /\ extract_regions (py "SOUTH beats north") = [py "North"; py "South"].
Proof.
  split; [|split; vm_compute; reflexivity].
  intros message.
  assert (Hsub : sublist (scan_regions (lower message) REGIONS)
                   (map capitalize REGIONS)).
  { rewrite scan_regions_filter. apply sublist_map_filter. }
  assert (Hnd : NoDup (scan_regions (lower message) REGIONS)).
  { eapply sublist_NoDup; [apply capitalized_REGIONS_NoDup|exact Hsub]. }
  assert (E : extract_regions message = scan_regions (lower message) REGIONS).
  { unfold extract_regions. apply dedup_NoDup; [exact Hnd|].
    intros r _. apply not_elem_of_empty. }
  rewrite E. split; [|split; [|split; [|intros region H; split]]].
  - apply scan_regions_filter.
  - exact Hsub.
  - apply NoDup_ListNoDup. exact Hnd.
  - rewrite scan_regions_filter. intros Hin.
    apply in_map_iff in Hin as (r' & Hcap & Hr').
    apply filter_In in Hr' as [Hr' Hc].
    rewrite <- (capitalize_REGIONS_inj _ _ Hr' H Hcap).
    apply contains_iff. exact Hc.
  - rewrite scan_regions_filter. intros Hs.
    apply in_map. apply filter_In. split; [exact H|].
    apply contains_iff. exact Hs.
Qed.

Lemma extract_regions_scan_order_witness :
  In (capitalize (py "east"))
     (extract_regions (py "Is the West ahead of the EAST?")).
Proof.
  apply (proj1 extract_regions_scan_order (py "Is the West ahead of the EAST?")).
  - right; right; left; reflexivity.
  - exists (py "is the west ahead of the "), (py "?"). reflexivity.
Defined.

Lemma lower_app (a b : str) : lower (a ++ b) = lower a ++ lower b.
Proof. apply map_app. Qed.

(** C10. Keywords are looked up as plain substrings of the lower-cased
    message, word boundaries playing no part: a message containing "least"
    (hence "east") and no keyword of the rules before is classified
    'sales_by_region', and one containing "stop" (hence "top") and no
    keyword of the rules before is classified 'top_products'. *)
Theorem detect_intent_not_word_bounded :
  (forall pre post,
      (forall w, In w [py "compare"; py "vs"; py "versus";
                       py "trend"; py "over time"; py "monthly"] ->
                 ~ substring w (lower (pre ++ py "least" ++ post))) ->
      detect_intent (pre ++ py "least" ++ post) = py "sales_by_region")
  /\ (forall pre post,
      (forall w, In w [py "compare"; py "vs"; py "versus";
                       py "trend"; py "over time"; py "monthly";
                       py "region"; py "north"; py "south"; py "east"; py "west"] ->
                 ~ substring w (lower (pre ++ py "stop" ++ post))) ->
      detect_intent (pre ++ py "stop" ++ post) = py "top_products")
  /\ detect_intent (py "which product sold the least") = py "sales_by_region"
  /\ detect_intent (py "when did growth stop") = py "top_products".
Proof.
  split; [|split; [|split; vm_compute; reflexivity]].
  - intros pre post Hno. unfold detect_intent.
    set (text := lower (pre ++ py "least" ++ post)) in *.
    assert (Hc : forall w, In w [py "compare"; py "vs"; py "versus";
                  py "trend"; py "over time"; py "monthly"] ->
                  contains w text = false).
    { intros w Hw. apply contains_false, Hno, Hw. }
    cbn [existsb]. rewrite !Hc by (simpl; tauto). cbn [orb andb].
    assert (contains (py "east") text = true) as Heast.
    { apply contains_iff. exists (lower pre ++ py "l"), (lower post).
      unfold text. rewrite !lower_app, <- !app_assoc. reflexivity. }
    unfold REGIONS. cbn [existsb]. rewrite Heast.
    rewrite !orb_true_r. reflexivity.
  - intros pre post Hno. unfold detect_intent.
    set (text := lower (pre ++ py "stop" ++ post)) in *.
    assert (Hc : forall w, In w [py "compare"; py "vs"; py "versus";
                  py "trend"; py "over time"; py "monthly";
                  py "region"; py "north"; py "south"; py "east"; py "west"] ->
                  contains w text = false).
    { intros w Hw. apply contains_false, Hno, Hw. }
    unfold REGIONS. cbn [existsb]. rewrite !Hc by (simpl; tauto). cbn [orb andb].
    assert (contains (py "top") text = true) as ->.
    { apply contains_iff. exists (lower pre ++ py "s"), (lower post).
      unfold text. rewrite !lower_app, <- !app_assoc. reflexivity. }
    reflexivity.
Qed.

Lemma detect_intent_not_word_bounded_witness :
  detect_intent (py "At LEAST tell me something" ++ [])
  = py "sales_by_region".
Proof.
  apply (proj1 detect_intent_not_word_bounded (py "At ") (py " tell me something")).
  intros w Hw. apply substring_false.
  simpl in Hw.
  repeat (destruct Hw as [<-|Hw]; [vm_compute; reflexivity|]). contradiction.
Defined.

End InterpreterEntities.

(** ** Grouping and sorting *)

Section KeyOrders.
Import analytics_engine.

Lemma ascii_compare_eq (x y : ascii) : Ascii.compare x y = Eq <-> x = y.
Proof.
  split; [apply Ascii.compare_eq_iff|].
  intros ->. unfold Ascii.compare. apply N.compare_refl.
Qed.

Lemma ascii_compare_antisym (x y : ascii) :
  Ascii.compare y x = CompOpp (Ascii.compare x y).
Proof. apply Ascii.compare_antisym. Qed.

Lemma ascii_compare_trans (x y z : ascii) (c : comparison) :
  Ascii.compare x y = c -> Ascii.compare y z = c -> Ascii.compare x z = c.
Proof.
  unfold Ascii.compare. destruct c; intros H1 H2.
  - rewrite N.compare_eq_iff in *. congruence.
  - rewrite N.compare_lt_iff in *. eapply N.lt_trans; eassumption.
  - rewrite N.compare_gt_iff in *. eapply N.lt_trans; eassumption.
Qed.

#[global] Instance str_key_order : KeyOrder str_compare.
Proof.
  unfold str_compare. split.
  - apply list_compare_refl, ascii_compare_eq.
  - intros x y. apply list_compare_antisym;
      [apply ascii_compare_eq|apply ascii_compare_antisym].
  - intros x y z. apply list_compare_trans;
      [apply ascii_compare_eq|apply ascii_compare_trans|apply ascii_compare_antisym].
Qed.

#[global] Instance Z_key_order : KeyOrder Z.compare.
Proof.
  split.
  - apply Z.compare_eq_iff.
  - intros x y. apply Z.compare_antisym.
  - intros x y z. rewrite !Z.compare_lt_iff. lia.
Qed.

Lemma str_eqb_eq (a b : str) : str_eqb a b = true <-> a = b.
Proof.
  unfold str_eqb. rewrite <- (cmp_eq str_compare a b).
  destruct (str_compare a b); split; congruence.
Qed.

Lemma str_eqb_refl (a : str) : str_eqb a a = true.
Proof. apply str_eqb_eq. reflexivity. Qed.

End KeyOrders.

(** ** The two sorts of the examples *)

Section Sorts.
Import analytics_engine.

Lemma insert_desc_Permutation {K} (x : K * Q) (l : list (K * Q)) :
  Permutation (insert_desc x l) (x :: l).
Proof.
  induction l as [|z l IH]; simpl; [reflexivity|].
  destruct (Qle_bool (snd z) (snd x)); [reflexivity|].
  rewrite IH. apply perm_swap.
Qed.

Lemma stable_sort_desc_Permutation {K} (l : list (K * Q)) :
  Permutation (stable_sort_desc l) l.
Proof.
  induction l as [|x l IH]; simpl; [reflexivity|].
  rewrite insert_desc_Permutation, IH. reflexivity.
Qed.

Lemma insert_desc_descending {K} (x : K * Q) (l : list (K * Q)) :
  StronglySorted sum_desc l -> StronglySorted sum_desc (insert_desc x l).
Proof.
  induction 1 as [|z l Hs IH Hz]; simpl.
  - constructor; constructor.
  - destruct (Qle_bool (snd z) (snd x)) eqn:E.
    + apply Qle_bool_iff in E.
      constructor; [constructor; assumption|].
      constructor; [exact E|].
      eapply List.Forall_impl; [|exact Hz].
      intros w Hw. unfold sum_desc in *. eapply Qle_trans; eassumption.
    + assert (Hlt : (snd x < snd z)%Q).
      { apply Qnot_le_lt. intros Hle. apply Qle_bool_iff in Hle. congruence. }
      constructor; [exact IH|].
      apply List.Forall_forall. intros w Hw.
      apply (Permutation_in _ (insert_desc_Permutation x l)) in Hw.
      destruct Hw as [<-|Hw].
      * apply Qlt_le_weak. exact Hlt.
      * rewrite List.Forall_forall in Hz. apply Hz. exact Hw.
Qed.

Lemma stable_sort_desc_descending {K} (l : list (K * Q)) :
  StronglySorted sum_desc (stable_sort_desc l).
Proof.
  induction l as [|x l IH]; simpl; [constructor|].
  apply insert_desc_descending. exact IH.
Qed.

Lemma insert_by_sum_Permutation {K} (x : K * Q) (l : list (K * Q)) :
  Permutation (insert_by_sum x l) (x :: l).
Proof.
  induction l as [|z l IH]; simpl; [reflexivity|].
  destruct (Qle_bool (snd x) (snd z)); [reflexivity|].
  rewrite IH. apply perm_swap.
Qed.

Lemma reversed_sort_desc_Permutation {K} (l : list (K * Q)) :
  Permutation (reversed_sort_desc l) l.
Proof.
  unfold reversed_sort_desc. rewrite <- Permutation_rev.
  induction l as [|x l IH]; simpl; [reflexivity|].
  rewrite insert_by_sum_Permutation, IH. reflexivity.
Qed.

Lemma insert_by_sum_ascending {K} (x : K * Q) (l : list (K * Q)) :
  StronglySorted (fun a b => sum_desc b a) l ->
  StronglySorted (fun a b => sum_desc b a) (insert_by_sum x l).
Proof.
  induction 1 as [|z l Hs IH Hz]; simpl.
  - constructor; constructor.
  - destruct (Qle_bool (snd x) (snd z)) eqn:E.
    + apply Qle_bool_iff in E.
      constructor; [constructor; assumption|].
      constructor; [exact E|].
      eapply List.Forall_impl; [|exact Hz].
      intros w Hw. unfold sum_desc in *. eapply Qle_trans; eassumption.
    + assert (Hlt : (snd z < snd x)%Q).
      { apply Qnot_le_lt. intros Hle. apply Qle_bool_iff in Hle. congruence. }
      constructor; [exact IH|].
      apply List.Forall_forall. intros w Hw.
      apply (Permutation_in _ (insert_by_sum_Permutation x l)) in Hw.
      destruct Hw as [<-|Hw].
      * apply Qlt_le_weak. exact Hlt.
      * rewrite List.Forall_forall in Hz. apply Hz. exact Hw.
Qed.

Lemma StronglySorted_rev {A} (R : A -> A -> Prop) (l : list A) :
  StronglySorted (fun a b => R b a) l -> StronglySorted R (rev l).
Proof.
  induction 1 as [|x l Hs IH Hx]; simpl; [constructor|].
  revert IH. generalize (rev l) (fun y => proj2 (in_rev l y)). intros l' Hin.
  induction l' as [|y l' IHl']; intros Hl'; simpl.
  - constructor; constructor.
  - apply StronglySorted_inv in Hl' as [Hl' Hy].
    constructor.
    + apply IHl'; [|exact Hl']. intros w Hw. apply Hin. right. exact Hw.
    + apply Forall_app. split; [exact Hy|].
      constructor; [|constructor].
      rewrite List.Forall_forall in Hx. apply Hx, Hin. left. reflexivity.
Qed.

Lemma reversed_sort_desc_descending {K} (l : list (K * Q)) :
  StronglySorted sum_desc (reversed_sort_desc l).
Proof.
  unfold reversed_sort_desc. apply StronglySorted_rev.
  induction l as [|x l IH]; simpl; [constructor|].
  apply insert_by_sum_ascending. exact IH.
Qed.

(** Both runtimes of the examples are as every runtime is taken to be. *)
#[global] Instance exact_runtime_spec : RuntimeSpec exact_runtime.
Proof.
  split.
  - reflexivity.
  - reflexivity.
  - intros K l. apply stable_sort_desc_Permutation.
  - intros K l. apply stable_sort_desc_descending.
Qed.

Lemma reversing_runtime_spec : RuntimeSpec reversing_runtime.
Proof.
  split.
  - reflexivity.
  - reflexivity.
  - intros K l. apply reversed_sort_desc_Permutation.
  - intros K l. apply reversed_sort_desc_descending.
Qed.

End Sorts.

Section GroupByFacts.
Import analytics_engine.
Context {K : Type} (cmp : K -> K -> comparison) `{!KeyOrder cmp}.
Context {R : Runtime} {HR : RuntimeSpec R}.

Lemma cmp_refl (x : K) : cmp x x = Eq.
Proof. apply (cmp_eq cmp). reflexivity. Qed.

Lemma cmp_gt_lt (x y : K) : cmp x y = Gt <-> cmp y x = Lt.
Proof.
  rewrite (cmp_antisym cmp x y). destruct (cmp x y); simpl; split; congruence.
Qed.

Lemma key_lt_irrefl (x : K) : ~ key_lt cmp x x.
Proof. unfold key_lt. rewrite cmp_refl. discriminate. Qed.

Lemma insert_key_In (k x : K) (ks : list K) :
  In x (insert_key cmp k ks) <-> x = k \/ In x ks.
Proof.
  induction ks as [|k' ks IH]; simpl.
  - intuition.
  - destruct (cmp k k') eqn:E; simpl.
    + apply (cmp_eq cmp) in E. subst k'. intuition.
    + intuition.
    + rewrite IH. intuition.
Qed.

Lemma sorted_keys_In (x : K) (ks : list K) :
  In x (sorted_keys cmp ks) <-> In x ks.
Proof.
  induction ks as [|k ks IH]; simpl; [reflexivity|].
  rewrite insert_key_In, IH. intuition.
Qed.

Lemma insert_key_sorted (k : K) (ks : list K) :
  StronglySorted (key_lt cmp) ks -> StronglySorted (key_lt cmp) (insert_key cmp k ks).
Proof.
  induction 1 as [|k' ks Hs IH Hk']; simpl.
  - constructor; constructor.
  - destruct (cmp k k') eqn:E.
    + constructor; assumption.
    + constructor; [constructor; assumption|].
      constructor; [exact E|].
      eapply List.Forall_impl; [|exact Hk'].
      intros z Hz. exact (cmp_lt_trans cmp _ _ _ E Hz).
    + constructor; [exact IH|].
      apply List.Forall_forall. intros z Hz.
      apply insert_key_In in Hz as [->|Hz].
      * apply cmp_gt_lt. exact E.
      * rewrite List.Forall_forall in Hk'. apply Hk'. exact Hz.
Qed.

Lemma sorted_keys_sorted (ks : list K) :
  StronglySorted (key_lt cmp) (sorted_keys cmp ks).
Proof.
  induction ks as [|k ks IH]; simpl; [constructor|].
  apply insert_key_sorted. exact IH.
Qed.

Lemma key_sorted_NoDup (ks : list K) :
  StronglySorted (key_lt cmp) ks -> List.NoDup ks.
Proof.
  induction 1 as [|k ks Hs IH Hk]; constructor; [|exact IH].
  intros Hin. rewrite List.Forall_forall in Hk.
  exact (key_lt_irrefl k (Hk k Hin)).
Qed.

Lemma groupby_sum_keys (key : Row -> K) (data : DataFrame) :
  map fst (groupby_sum cmp key data) = sorted_keys cmp (map key data).
Proof.
  unfold groupby_sum. rewrite map_map. simpl. apply map_id.
Qed.

Lemma groupby_sum_In (key : Row -> K) (data : DataFrame) (k : K) (v : Q) :
  In (k, v) (groupby_sum cmp key data) <->
  In k (map key data)
  /\ v = group_sum (map col_total_sales (group_rows cmp key k data)).
Proof.
  unfold groupby_sum. rewrite in_map_iff. split.
  - intros (k' & [= -> ->] & Hk). apply (proj1 (sorted_keys_In _ _)) in Hk.
    split; [exact Hk|reflexivity].
  - intros [Hk ->]. exists k. split; [reflexivity|].
    apply sorted_keys_In. exact Hk.
Qed.

Lemma groupby_sum_nil (key : Row -> K) : groupby_sum cmp key [] = [].
Proof. reflexivity. Qed.

(** *** The descending sort *)

Lemma sort_values_desc_In (y : K * Q) (l : list (K * Q)) :
  In y (sort_values_desc l) <-> In y l.
Proof.
  split; apply Permutation_in;
    [|symmetry]; apply sort_values_desc_Permutation.
Qed.

Lemma sort_values_desc_length (l : list (K * Q)) :
  length (sort_values_desc l) = length l.
Proof. apply Permutation_length, sort_values_desc_Permutation. Qed.

Lemma sort_values_desc_keys_Permutation (l : list (K * Q)) :
  Permutation (map fst (sort_values_desc l)) (map fst l).
Proof. apply Permutation_map, sort_values_desc_Permutation. Qed.

Lemma sort_values_desc_nil : sort_values_desc (@nil (K * Q)) = [].
Proof.
  apply Permutation_nil. symmetry. apply sort_values_desc_Permutation.
Qed.

Lemma sort_values_desc_sorted (l : list (K * Q)) :
  StronglySorted sum_desc (sort_values_desc l).
Proof. apply sort_values_desc_descending. Qed.

(** *** The ascending sort by key *)

Lemma insert_asc_below (x : K * Q) (l : list (K * Q)) :
  List.Forall (fun y => key_lt cmp (fst x) (fst y)) l -> insert_asc cmp x l = x :: l.
Proof.
  destruct l as [|y l]; simpl; [reflexivity|].
  intros H. apply List.Forall_cons_iff in H as [H _].
  apply cmp_gt_lt in H. rewrite H. reflexivity.
Qed.

Lemma sort_by_key_sorted_id (l : list (K * Q)) :
  StronglySorted (key_lt cmp) (map fst l) -> sort_by_key cmp l = l.
Proof.
  induction l as [|x l IH]; simpl; intros Hl; [reflexivity|].
  apply StronglySorted_inv in Hl as [Hl Hx].
  rewrite (IH Hl). apply insert_asc_below.
  rewrite List.Forall_forall in Hx |- *. intros y Hy. apply Hx, in_map, Hy.
Qed.

(** Sorting the groups by key leaves them as the group-by produced them. *)
Lemma sort_by_key_groupby (key : Row -> K) (data : DataFrame) :
  sort_by_key cmp (groupby_sum cmp key data) = groupby_sum cmp key data.
Proof.
  apply sort_by_key_sorted_id. rewrite groupby_sum_keys. apply sorted_keys_sorted.
Qed.

End GroupByFacts.

(** ** Claims on the aggregators *)

Section Aggregators.
Import analytics_engine.

Lemma head_n_nonneg {A} (n : Z) (l : list A) :
  0 <= n -> head_n n l = firstn (Z.to_nat n) l.
Proof. unfold head_n. intros H. apply Z.leb_le in H. rewrite H. reflexivity. Qed.

Lemma head_n_nil {A} (n : Z) : head_n n (@nil A) = [].
Proof. unfold head_n. destruct (0 <=? n); apply firstn_nil. Qed.



Lemma sorted_keys_distinct (ks : list str) :
  length (sorted_keys str_compare ks) = size (list_to_set ks : gset str).
Proof.
  assert (E : (list_to_set ks : gset str)
              = list_to_set (sorted_keys str_compare ks)).
  { apply set_eq. intros x. rewrite !elem_of_list_to_set, !list_elem_of_In.
    symmetry. apply (sorted_keys_In str_compare). }
  rewrite E. symmetry. apply size_list_to_set.
  apply NoDup_ListNoDup. apply (key_sorted_NoDup str_compare).
  apply (sorted_keys_sorted str_compare).
Qed.

Lemma group_rows_str (key : Row -> str) (p : str) (data : DataFrame) :
  group_rows str_compare key p data
  = List.filter (fun r => str_eqb (key r) p) data.
Proof. reflexivity. Qed.

Lemma group_rows_Z (key : Row -> Z) (k : Z) (data : DataFrame) :
  group_rows Z.compare key k data = List.filter (fun r => key r =? k) data.
Proof.
  unfold group_rows. apply List.filter_ext. intros r.
  rewrite Z.eqb_compare. reflexivity.
Qed.

(** C2, as the code has it.  For [n >= 1], [top_n_products] returns the
    first [min(n, number of distinct products of the filtered rows)] entries
    of the list of all product groups, never more; that list has one entry
    per product, carrying the sum of its rows, and no sum in it is followed
    by a larger one.  The order of groups with equal sums is the sort's to
    choose, and so is which of them are left out. *)
Theorem top_n_products_rows {R : Runtime} {HR : RuntimeSpec R}
    (df : DataFrame) (n : Z) (years : option (list Z))
    (regions : option (list str)) :
  1 <= n ->
  exists rows rest,
    table (top_n_products df n years regions) = KeyedStr (py "product") rows
    /\ length rows
       = Nat.min (Z.to_nat n) (distinct_products (_filter_data df years regions))
    /\ StronglySorted sum_desc (rows ++ rest)
    /\ List.NoDup (map fst (rows ++ rest))
    /\ forall p v,
         In (p, v) (rows ++ rest) <->
         In p (map col_product (_filter_data df years regions))
         /\ v = sum_where (fun r => str_eqb (col_product r) p)
                  (_filter_data df years regions).
Proof.
  intros Hn.
  set (data := _filter_data df years regions).
  set (full := sort_values_desc (groupby_sum str_compare col_product data)).
  exists (head_n n full), (skipn (Z.to_nat n) full).
  assert (Hfull : head_n n full ++ skipn (Z.to_nat n) full = full).
  { rewrite head_n_nonneg by lia. apply firstn_skipn. }
  rewrite Hfull. split; [reflexivity|]. split; [|split; [|split]].
  - rewrite head_n_nonneg by lia. rewrite length_firstn. f_equal.
    unfold full. rewrite sort_values_desc_length.
    rewrite <- (length_map fst), (groupby_sum_keys str_compare).
    apply sorted_keys_distinct.
  - unfold full. apply sort_values_desc_sorted.
  - apply NoDup_ListNoDup. unfold full.
    rewrite (sort_values_desc_keys_Permutation (groupby_sum str_compare col_product data)).
    rewrite (groupby_sum_keys str_compare). apply NoDup_ListNoDup.
    apply (key_sorted_NoDup str_compare). apply (sorted_keys_sorted str_compare).
  - intros p v. unfold full. rewrite sort_values_desc_In.
    rewrite (groupby_sum_In str_compare). reflexivity.
Qed.

Lemma top_n_products_rows_witness :
  exists rows rest,
    table (top_n_products tied_products 3 None (Some [py "South"; py "East"]))
    = KeyedStr (py "product") rows
    /\ length rows
       = Nat.min (Z.to_nat 3)
           (distinct_products
              (_filter_data tied_products None (Some [py "South"; py "East"])))
    /\ StronglySorted sum_desc (rows ++ rest)
    /\ List.NoDup (map fst (rows ++ rest))
    /\ forall p v,
         In (p, v) (rows ++ rest) <->
         In p (map col_product
                 (_filter_data tied_products None (Some [py "South"; py "East"])))
         /\ v = sum_where (fun r => str_eqb (col_product r) p)
                  (_filter_data tied_products None (Some [py "South"; py "East"])).
Proof.
  apply (top_n_products_rows tied_products 3 None (Some [py "South"; py "East"])).
  lia.
Defined.

(** Five rows are asked for, three products exist: three rows come back. *)
Example top_n_products_not_padded :
  table (top_n_products four_year_sales 5 None None)
  = KeyedStr (py "product")
      [(py "Laptop", 1590%Q); (py "Monitor", 500%Q); (py "Printer", 410%Q)].
Proof. vm_compute. reflexivity. Qed.

(** C2, as the specification words it, fails.  A sort that is free to
    arrange equal sums may return them in the opposite of the order they
    had: on four products met in the order Desktop, Laptop, Monitor,
    Printer, with sums 20, 20, 30, 30, the table then reads Printer,
    Monitor, Laptop, Desktop, and of two products with equal sums the one
    met first comes last.  Of the first three rows, the third is then
    Laptop, where a sort that keeps the order of equal sums has Desktop. *)
Lemma top_n_stable_ties_counterexample :
  RuntimeSpec reversing_runtime
  /\ table (top_n_products (R := reversing_runtime) tied_products 5 None None)
     = KeyedStr (py "product")
         [(py "Printer", 30%Q); (py "Monitor", 30%Q);
          (py "Laptop", 20%Q); (py "Desktop", 20%Q)]
  /\ ~ top_n_as_specified (R := reversing_runtime) tied_products 5 None None
  /\ table (top_n_products (R := reversing_runtime) tied_products 3 None None)
     = KeyedStr (py "product")
         [(py "Printer", 30%Q); (py "Monitor", 30%Q); (py "Laptop", 20%Q)]
  /\ table (top_n_products (R := exact_runtime) tied_products 3 None None)
     = KeyedStr (py "product")
         [(py "Monitor", 30%Q); (py "Printer", 30%Q); (py "Desktop", 20%Q)].
Proof.
  split; [exact reversing_runtime_spec|].
  split; [vm_compute; reflexivity|].
  split; [|split; vm_compute; reflexivity].
  intros (rows & Htab & _ & _ & Hties & _).
  assert (Hrows : rows = [(py "Printer", 30%Q); (py "Monitor", 30%Q);
                          (py "Laptop", 20%Q); (py "Desktop", 20%Q)]).
  { vm_compute in Htab. injection Htab as <-. vm_compute. reflexivity. }
  subst rows.
  specialize (Hties 0%nat 1%nat (py "Printer", 30%Q) (py "Monitor", 30%Q)).
  assert (H : (3 < 2)%nat); [|lia].
  apply Hties; [lia|reflexivity|reflexivity|reflexivity].
Qed.

Lemma unique_In (seen : gset Z) (xs : list Z) (y : Z) :
  In y (unique seen xs) <-> In y xs /\ y ∉ seen.
Proof.
  revert seen. induction xs as [|x xs IH]; intros seen; simpl.
  - tauto.
  - destruct (decide (x ∈ seen)) as [Hx|Hx]; simpl; rewrite IH.
    + split; [tauto|]. intros [[->|H] Hs]; [contradiction|tauto].
    + rewrite elem_of_union, elem_of_singleton. split.
      * intros [->|[H Hs]]; [tauto|]. split; [tauto|]. intros Hy. apply Hs. tauto.
      * intros [[->|H] Hs]; [tauto|].
        destruct (decide (y = x)) as [->|Hne]; [tauto|].
        right. split; [exact H|]. intros [Hy|Hy]; contradiction.
Qed.

Lemma unique_NoDup (seen : gset Z) (xs : list Z) : NoDup (unique seen xs).
Proof.
  revert seen. induction xs as [|x xs IH]; intros seen; simpl.
  - constructor.
  - destruct (decide (x ∈ seen)); [apply IH|].
    constructor; [|apply IH].
    rewrite list_elem_of_In, unique_In, elem_of_union, elem_of_singleton. tauto.
Qed.

Lemma filter_all {A} (p : A -> bool) (l : list A) :
  (forall x, In x l -> p x = true) -> List.filter p l = l.
Proof.
  induction l as [|x l IH]; simpl; intros H; [reflexivity|].
  rewrite (H x) by (left; reflexivity). f_equal. apply IH.
  intros y Hy. apply H. right. exact Hy.
Qed.

Lemma isin_Z_In (values : list Z) (x : Z) :
  isin Z.eqb values x = true <-> In x values.
Proof.
  unfold isin. rewrite existsb_exists. split.
  - intros (y & Hy & E). apply Z.eqb_eq in E. subst y. exact Hy.
  - intros H. exists x. split; [exact H|apply Z.eqb_refl].
Qed.

Lemma all_years_In (df : DataFrame) (y : Z) :
  In y (sorted (unique ∅ (map col_year df))) <-> In y (map col_year df).
Proof.
  rewrite sorted_In, unique_In. split; [tauto|].
  intros H. split; [exact H|apply not_elem_of_empty].
Qed.

(** Filtering by every year of the data set keeps every row. *)
Lemma filter_all_years (df : DataFrame) (regions : option (list str)) :
  _filter_data df (Some (sorted (unique ∅ (map col_year df)))) regions
  = _filter_data df None regions.
Proof.
  set (ally := sorted (unique ∅ (map col_year df))).
  assert (Hstep : (if truthy_opt (Some ally)
                   then List.filter (fun r => isin Z.eqb (or_empty (Some ally)) (col_year r)) df
                   else df) = df).
  { destruct (truthy_opt (Some ally)); [|reflexivity].
    apply filter_all. intros r Hr. cbn [or_empty].
    apply isin_Z_In, all_years_In, in_map, Hr. }
  unfold _filter_data. cbv zeta. rewrite Hstep. reflexivity.
Qed.

Lemma comparison_years_few (df : DataFrame) (years : option (list Z)) :
  (length (or_empty years) < 2)%nat ->
  comparison_years df years = sorted (unique ∅ (map col_year df)).
Proof.
  intros H. unfold comparison_years.
  assert ((Z.of_nat (length (or_empty years)) <? 2) = true) as ->
    by (apply Z.ltb_lt; lia).
  rewrite orb_true_r. reflexivity.
Qed.

Lemma key_lt_Z_sorted (ks : list Z) :
  StronglySorted (key_lt Z.compare) ks -> StronglySorted Z.lt ks.
Proof.
  induction 1 as [|k ks Hs IH Hk]; constructor; [exact IH|].
  eapply List.Forall_impl; [|exact Hk].
  intros z Hz. apply Z.compare_lt_iff. exact Hz.
Qed.

(** C3. With fewer than two requested years (none, an empty list or a
    single year) [year_comparison] drops the request: the years it reports
    are the distinct years of the data set in ascending order, the result is
    the one of a call without years, and the table has one row per year of
    the (region-filtered) rows, carrying the sum of that year, in ascending
    order of the year. *)
Theorem year_comparison_fallback {R : Runtime} (df : DataFrame)
    (years : option (list Z)) (region : option str) :
  (length (or_empty years) < 2)%nat ->
  StronglySorted Z.lt (analytics_engine.years (year_comparison df years region))
  /\ (forall y, In y (analytics_engine.years (year_comparison df years region))
                <-> In y (map col_year df))
  /\ year_comparison df years region = year_comparison df None region
  /\ exists rows,
       table (year_comparison df years region) = KeyedInt (py "year") rows
       /\ StronglySorted Z.lt (map fst rows)
       /\ forall y v,
            In (y, v) rows <->
            In y (map col_year (_filter_data df None (region_list region)))
            /\ v = sum_where (fun r => col_year r =? y)
                     (_filter_data df None (region_list region)).
Proof.
  intros Hfew.
  assert (Hy : comparison_years df years = sorted (unique ∅ (map col_year df)))
    by (apply comparison_years_few; exact Hfew).
  assert (Hd : comparison_data df years region
               = _filter_data df None (region_list region)).
  { unfold comparison_data. rewrite Hy. apply filter_all_years. }
  assert (Hy0 : comparison_years df None = sorted (unique ∅ (map col_year df)))
    by (apply comparison_years_few; simpl; lia).
  assert (Hd0 : comparison_data df None region
                = _filter_data df None (region_list region)).
  { unfold comparison_data. rewrite Hy0. apply filter_all_years. }
  unfold year_comparison. cbn [analytics_engine.years table].
  rewrite Hy, Hd, Hy0, Hd0.
  split; [|split; [|split]].
  - apply sorted_strict, unique_NoDup.
  - apply all_years_In.
  - reflexivity.
  - eexists. split; [reflexivity|].
    rewrite (sort_by_key_groupby Z.compare). split.
    + rewrite (groupby_sum_keys Z.compare). apply key_lt_Z_sorted.
      apply (sorted_keys_sorted Z.compare).
    + intros y v. rewrite (groupby_sum_In Z.compare), group_rows_Z. reflexivity.
Qed.

(** One requested year on two rows of 2023: the request is dropped. *)
Lemma year_comparison_fallback_witness :
  year_comparison two_equal_products (Some [2021]) None
  = year_comparison two_equal_products None None.
Proof.
  apply (year_comparison_fallback two_equal_products (Some [2021]) None).
  simpl. lia.
Defined.

(** A single requested year on data spanning 2021 to 2024: all four years. *)
Example year_comparison_single_year :
  analytics_engine.years (year_comparison four_year_sales (Some [2023]) None)
  = [2021; 2022; 2023; 2024]
  /\ table (year_comparison four_year_sales (Some [2023]) None)
     = KeyedInt (py "year")
         [(2021, 1010%Q); (2022, 790%Q); (2023, 200%Q); (2024, 500%Q)].
Proof. split; vm_compute; reflexivity. Qed.

(** C4. When the filter leaves no row, every aggregator still returns a
    result: [total_sales] a single row holding 0, the grouping aggregators
    an empty table. *)
Theorem empty_filter_tables {R : Runtime} {HR : RuntimeSpec R} (df : DataFrame) :
  (forall years regions, _filter_data df years regions = [] ->
      table (total_sales df years regions) = Scalar (py "total_sales") [0%Q]
      /\ forall n, table (top_n_products df n years regions)
                   = KeyedStr (py "product") [])
  /\ (forall years, _filter_data df years None = [] ->
      table (sales_by_region df years) = KeyedStr (py "region") [])
  /\ (forall year region, monthly_data df year region = [] ->
      table (monthly_trend df year region) = KeyedInt (py "month") [])
  /\ (forall years region, comparison_data df years region = [] ->
      table (year_comparison df years region) = KeyedInt (py "year") []).
Proof.
  split; [|split; [|split]].
  - intros years regions H. split.
    + unfold total_sales. cbn [table]. rewrite H. cbn [map].
      rewrite series_sum_nil, round2_zero. reflexivity.
    + intros n. unfold top_n_products. cbn [table]. rewrite H.
      rewrite groupby_sum_nil, sort_values_desc_nil, head_n_nil. reflexivity.
  - intros years H. unfold sales_by_region. cbn [table]. rewrite H.
    rewrite groupby_sum_nil, sort_values_desc_nil. reflexivity.
  - intros year region H. unfold monthly_trend. cbn [table]. rewrite H. reflexivity.
  - intros years region H. unfold year_comparison. cbn [table]. rewrite H. reflexivity.
Qed.

(** The West is absent from the two-row data set. *)
Lemma empty_filter_tables_witness :
  (table (total_sales two_equal_products None (Some [py "West"]))
   = Scalar (py "total_sales") [0%Q]
   /\ forall n, table (top_n_products two_equal_products n None (Some [py "West"]))
                = KeyedStr (py "product") [])
  /\ table (sales_by_region two_equal_products (Some [1999]))
     = KeyedStr (py "region") []
  /\ table (monthly_trend two_equal_products None (Some (py "West")))
     = KeyedInt (py "month") []
  /\ table (year_comparison two_equal_products None (Some (py "West")))
     = KeyedInt (py "year") [].
Proof.
  destruct (empty_filter_tables two_equal_products) as (H1 & H2 & H3 & H4).
  split; [|split; [|split]].
  - apply H1. reflexivity.
  - apply H2. reflexivity.
  - apply H3. reflexivity.
  - apply H4. reflexivity.
Defined.




(** On one sale of an eighth, a value that a double holds exactly and that
    lies half-way between two hundredths, the total reads 0.12 and the
    tables of the region and of the product read 0.125. *)
Example rounding_of_an_eighth :
  table (total_sales one_eighth_sale None None)
  = Scalar (py "total_sales") [3 # 25]
  /\ table (sales_by_region one_eighth_sale None)
     = KeyedStr (py "region") [(py "North", 1 # 8)]
  /\ table (top_n_products one_eighth_sale 5 None None)
     = KeyedStr (py "product") [(py "Monitor", 1 # 8)].
Proof. split; [|split]; vm_compute; reflexivity. Qed.

End Aggregators.

(** ** Claim on the router *)

Section Router.
Import nlp_processor analytics_engine main.

Lemma intent_is_true (intent : str) (name : string) :
  intent_is intent name = true <-> intent = py name.
Proof. apply str_eqb_eq. Qed.

Lemma intent_is_false (intent : str) (name : string) :
  intent <> py name -> intent_is intent name = false.
Proof.
  intros H. destruct (intent_is intent name) eqn:E; [|reflexivity].
  apply intent_is_true in E. contradiction.
Qed.

(** C5. [handle_query] hands a query with one of the five mapped intents to
    the aggregator of that intent, with the parameters of the dispatch table,
    and to that one only: the result carries the intent asked for.  For
    'unknown' and for any other string it returns [None], computing
    nothing. *)
Theorem handle_query_dispatch {R : Runtime} (message : str) (data : DataFrame)
    (parsed : ParsedQuery) :
  let intent := nlp_processor.intent parsed in
  let years := or_none (nlp_processor.years parsed) in
  let regions := or_none (nlp_processor.regions parsed) in
  (intent = py "total_sales" ->
     handle_query message data parsed = Some (total_sales data years regions))
  /\ (intent = py "top_products" ->
     handle_query message data parsed
     = Some (top_n_products data (top_n_or_default (top_n parsed)) years regions))
  /\ (intent = py "sales_by_region" ->
     handle_query message data parsed = Some (sales_by_region data years))
  /\ (intent = py "monthly_trend" ->
     handle_query message data parsed
     = Some (monthly_trend data (first_or_none years) (first_or_none regions)))
  /\ (intent = py "year_comparison" ->
     handle_query message data parsed
     = Some (year_comparison data years (first_or_none regions)))
  /\ (~ In intent [py "total_sales"; py "top_products"; py "sales_by_region";
                   py "monthly_trend"; py "year_comparison"] ->
     handle_query message data parsed = None)
  /\ (forall r, handle_query message data parsed = Some r ->
     analytics_engine.intent r = intent).
Proof.
  intros intent years regions. unfold handle_query.
  fold intent years regions.
  split; [|split; [|split; [|split; [|split; [|split]]]]].
  - intros ->. reflexivity.
  - intros ->. reflexivity.
  - intros ->. reflexivity.
  - intros ->. reflexivity.
  - intros ->. reflexivity.
  - intros Hno. simpl in Hno.
    rewrite !intent_is_false by (intros E; apply Hno; rewrite E; tauto).
    reflexivity.
  - intros r.
    destruct (intent_is intent "total_sales") eqn:E1;
      [apply intent_is_true in E1; intros [= <-]; symmetry; exact E1|].
    destruct (intent_is intent "top_products") eqn:E2;
      [apply intent_is_true in E2; intros [= <-]; symmetry; exact E2|].
    destruct (intent_is intent "sales_by_region") eqn:E3;
      [apply intent_is_true in E3; intros [= <-]; symmetry; exact E3|].
    destruct (intent_is intent "monthly_trend") eqn:E4;
      [apply intent_is_true in E4; intros [= <-]; symmetry; exact E4|].
    destruct (intent_is intent "year_comparison") eqn:E5;
      [apply intent_is_true in E5; intros [= <-]; symmetry; exact E5|].
    discriminate.
Qed.

(** An intent outside the table, and the intent 'unknown'. *)
Lemma handle_query_dispatch_witness :
  handle_query (py "forecast next year") two_equal_products
    (mkParsedQuery (py "forecast") [2023] [py "North"] (Some 3)) = None
  /\ handle_query (py "hello") two_equal_products
       (mkParsedQuery (py "unknown") [] [] None) = None.
Proof.
  split.
  - apply (handle_query_dispatch (py "forecast next year") two_equal_products
             (mkParsedQuery (py "forecast") [2023] [py "North"] (Some 3))).
    simpl. intros H. repeat (destruct H as [H|H]; [discriminate H|]). exact H.
  - apply (handle_query_dispatch (py "hello") two_equal_products
             (mkParsedQuery (py "unknown") [] [] None)).
    simpl. intros H. repeat (destruct H as [H|H]; [discriminate H|]). exact H.
Defined.

End Router.

(** * Further properties of the code *)

(** ** The intent cascade and the entities *)

Section Cascade.
Import Re nlp_processor.

Lemma py_intents_distinct :
  py "monthly_trend" <> py "year_comparison"
  /\ py "sales_by_region" <> py "year_comparison"
  /\ py "top_products" <> py "year_comparison"
  /\ py "total_sales" <> py "year_comparison"
  /\ py "unknown" <> py "year_comparison".
Proof. repeat split; discriminate. Qed.

(** The outcome of the cascade is one of the six intents. *)
Lemma detect_intent_range (message : str) :
  In (detect_intent message)
     [py "year_comparison"; py "monthly_trend"; py "sales_by_region";
      py "top_products"; py "total_sales"; py "unknown"].
Proof.
  unfold detect_intent.
  repeat match goal with
         | |- context [if ?b then _ else _] => destruct b
         end; simpl; tauto.
Qed.

(** The condition of rule 1, on the text. *)
Lemma rule1_iff (text : str) :
  existsb (fun word => contains word text) [py "compare"; py "vs"; py "versus"]
  && search_year None text = true
  <-> (exists w, In w [py "compare"; py "vs"; py "versus"] /\ substring w text)
      /\ (exists g, year_token text g).
Proof.
  rewrite andb_true_iff, existsb_exists, search_year_iff. split.
  - intros [(w & Hw & Hc) (pre & g & Hg)]. split.
    + exists w. split; [exact Hw|]. apply contains_iff. exact Hc.
    + exists g, pre. exact Hg.
  - intros [(w & Hw & Hs) (g & pre & Hg)]. split.
    + exists w. split; [exact Hw|]. apply contains_iff. exact Hs.
    + exists pre, g. exact Hg.
Qed.

Lemma detect_intent_rule1 (message : str) :
  detect_intent message = py "year_comparison"
  <-> existsb (fun word => contains word (lower message))
        [py "compare"; py "vs"; py "versus"]
      && search_year None (lower message) = true.
Proof.
  unfold detect_intent.
  destruct (_ && search_year None (lower message)).
  - split; reflexivity.
  - split; [|discriminate].
    repeat match goal with
           | |- context [if ?b then _ else _] => destruct b
           end; discriminate.
Qed.

(** X1. [detect_intent] answers 'year_comparison' exactly when the lower-cased
    message holds one of "compare", "vs", "versus" together with a
    word-bounded token [20dd]: a comparison keyword without a year is left
    to the later rules. *)
Theorem detect_intent_year_comparison_iff (message : str) :
  detect_intent message = py "year_comparison"
  <-> (exists w, In w [py "compare"; py "vs"; py "versus"]
                 /\ substring w (lower message))
      /\ (exists g, year_token (lower message) g).
Proof. rewrite detect_intent_rule1. apply rule1_iff. Qed.

(** X2. [detect_intent] answers 'unknown' exactly when rule 1 does not apply
    and none of the keywords of rules 2 to 5 occurs in the lower-cased
    message. *)
Theorem detect_intent_unknown_iff (message : str) :
  detect_intent message = py "unknown"
  <-> ~ ((exists w, In w [py "compare"; py "vs"; py "versus"]
                    /\ substring w (lower message))
         /\ (exists g, year_token (lower message) g))
      /\ forall w,
           In w [py "trend"; py "over time"; py "monthly";
                 py "region"; py "north"; py "south"; py "east"; py "west";
                 py "top"; py "best"; py "highest";
                 py "total"; py "overall"; py "revenue"] ->
           ~ substring w (lower message).
Proof.
  split.
  - intros H. split.
    + intros Hyc. apply rule1_iff, detect_intent_rule1 in Hyc.
      rewrite H in Hyc. discriminate Hyc.
    + revert H. unfold detect_intent, REGIONS. cbn [existsb].
      destruct (_ && search_year None (lower message)); [discriminate|].
      set (text := lower message).
      destruct (contains (py "trend") text) eqn:E1; [discriminate|].
      destruct (contains (py "over time") text) eqn:E2; [discriminate|].
      destruct (contains (py "monthly") text) eqn:E3; [discriminate|].
      destruct (contains (py "region") text) eqn:E4; [discriminate|].
      destruct (contains (py "north") text) eqn:E5; [discriminate|].
      destruct (contains (py "south") text) eqn:E6; [discriminate|].
      destruct (contains (py "east") text) eqn:E7; [discriminate|].
      destruct (contains (py "west") text) eqn:E8; [discriminate|].
      destruct (contains (py "top") text) eqn:E9; [discriminate|].
      destruct (contains (py "best") text) eqn:E10; [discriminate|].
      destruct (contains (py "highest") text) eqn:E11; [discriminate|].
      destruct (contains (py "total") text) eqn:E12; [discriminate|].
      destruct (contains (py "overall") text) eqn:E13; [discriminate|].
      destruct (contains (py "revenue") text) eqn:E14; [discriminate|].
      intros _ w Hw. apply substring_false. simpl in Hw.
      repeat (destruct Hw as [<-|Hw]; [assumption|]). contradiction.
  - intros [Hno1 Hno].
    assert (Hc : forall w,
               In w [py "trend"; py "over time"; py "monthly";
                     py "region"; py "north"; py "south"; py "east"; py "west";
                     py "top"; py "best"; py "highest";
                     py "total"; py "overall"; py "revenue"] ->
               contains w (lower message) = false).
    { intros w Hw. apply contains_false, Hno, Hw. }
    destruct (decide (detect_intent message = py "year_comparison")) as [Hyc|Hyc].
    + apply detect_intent_rule1, rule1_iff in Hyc. contradiction.
    + revert Hyc. unfold detect_intent, REGIONS. cbn [existsb].
      destruct (_ && search_year None (lower message)).
      * intros Hyc. exfalso. apply Hyc. reflexivity.
      * intros _. rewrite !Hc by (simpl; tauto). reflexivity.
Qed.

End Cascade.

Section EntitiesAndIntent.
Import Re nlp_processor.

Lemma extract_regions_scan (message : str) :
  extract_regions message = scan_regions (lower message) REGIONS.
Proof.
  unfold extract_regions. apply dedup_NoDup.
  - eapply sublist_NoDup; [apply capitalized_REGIONS_NoDup|].
    rewrite scan_regions_filter. apply sublist_map_filter.
  - intros r _. apply not_elem_of_empty.
Qed.

Lemma scan_regions_nonempty (text : str) (names : list str) :
  scan_regions text names <> [] -> existsb (fun r => contains r text) names = true.
Proof.
  induction names as [|r names IH]; simpl; [congruence|].
  destruct (contains r text); [reflexivity|]. exact IH.
Qed.

Lemma search_top_contains (s g : str) :
  search_top s = Some g -> contains (py "top") s = true.
Proof.
  intros H. apply search_top_Some in H as (pre & (ws & post & -> & _) & _).
  apply contains_iff. exists pre, (ws ++ g ++ post). reflexivity.
Qed.

(** X3. A message that names a region is classified by one of the first three
    rules: it is never 'top_products', 'total_sales' or 'unknown'.  So the
    query "Top 5 products in the North region" of the help text is a
    'sales_by_region' query. *)
Theorem region_names_decide_intent :
  (forall message,
      extract_regions message <> [] ->
      In (detect_intent message)
         [py "year_comparison"; py "monthly_trend"; py "sales_by_region"])
  /\ detect_intent (py "Top 5 products in the North region")
     = py "sales_by_region".
Proof.
  split; [|vm_compute; reflexivity].
  intros message H. rewrite extract_regions_scan in H.
  apply scan_regions_nonempty in H.
  unfold detect_intent. rewrite H.
  destruct (_ && search_year None (lower message)); [simpl; tauto|].
  destruct (_ || contains (py "monthly") (lower message)); [simpl; tauto|].
  rewrite orb_true_r. simpl. tauto.
Qed.

Lemma region_names_decide_intent_witness :
  In (detect_intent (py "best revenue in the WEST"))
     [py "year_comparison"; py "monthly_trend"; py "sales_by_region"].
Proof.
  apply (proj1 region_names_decide_intent). vm_compute. discriminate.
Defined.

(** X4. A message from which a top-N count is read contains "top", so it is
    never classified 'total_sales' or 'unknown'. *)
Theorem top_count_decides_intent (message : str) (k : Z) :
  extract_top_n message = Some k ->
  In (detect_intent message)
     [py "year_comparison"; py "monthly_trend"; py "sales_by_region";
      py "top_products"].
Proof.
  unfold extract_top_n.
  destruct (search_top (lower message)) as [g|] eqn:E; [|discriminate].
  intros _. apply search_top_contains in E.
  unfold detect_intent. rewrite E.
  destruct (_ && search_year None (lower message)); [simpl; tauto|].
  destruct (_ || contains (py "monthly") (lower message)); [simpl; tauto|].
  destruct (_ || existsb _ REGIONS); [simpl; tauto|].
  simpl. tauto.
Qed.

Lemma top_count_decides_intent_witness :
  In (detect_intent (py "overall total of the top 3"))
     [py "year_comparison"; py "monthly_trend"; py "sales_by_region";
      py "top_products"].
Proof.
  apply (top_count_decides_intent (py "overall total of the top 3") 3).
  vm_compute. reflexivity.
Defined.

(** *** Lower-casing *)

Lemma lower_char_idem (c : ascii) : lower_char (lower_char c) = lower_char c.
Proof. destruct c as [[] [] [] [] [] [] [] []]; vm_compute; reflexivity. Qed.

Lemma lower_idem (s : str) : lower (lower s) = lower s.
Proof.
  unfold lower. rewrite map_map. apply map_ext. apply lower_char_idem.
Qed.

Lemma is_word_lower_char (c : ascii) : is_word (lower_char c) = is_word c.
Proof. destruct c as [[] [] [] [] [] [] [] []]; vm_compute; reflexivity. Qed.

Lemma lower_char_decimal (c : ascii) :
  is_decimal (lower_char c) = true -> lower_char c = c.
Proof. destruct c as [[] [] [] [] [] [] [] []]; vm_compute; congruence. Qed.

Lemma is_decimal_lower_char (c : ascii) :
  is_decimal c = true -> lower_char c = c.
Proof. destruct c as [[] [] [] [] [] [] [] []]; vm_compute; congruence. Qed.

Lemma word_opt_lower (o : option ascii) :
  word_opt (option_map lower_char o) = word_opt o.
Proof. destruct o; simpl; [apply is_word_lower_char|reflexivity]. Qed.

Lemma head_lower (s : str) : head (lower s) = option_map lower_char (head s).
Proof. destruct s; reflexivity. Qed.

(** The anchored year match sees the same thing before and after
    lower-casing. *)
Lemma eqb_lower_char_2 (c : ascii) :
  Ascii.eqb (lower_char c) "2" = Ascii.eqb c "2".
Proof. destruct c as [[] [] [] [] [] [] [] []]; vm_compute; reflexivity. Qed.

Lemma eqb_lower_char_0 (c : ascii) :
  Ascii.eqb (lower_char c) "0" = Ascii.eqb c "0".
Proof. destruct c as [[] [] [] [] [] [] [] []]; vm_compute; reflexivity. Qed.

Lemma is_decimal_lower (c : ascii) : is_decimal (lower_char c) = is_decimal c.
Proof. destruct c as [[] [] [] [] [] [] [] []]; vm_compute; reflexivity. Qed.

Lemma year_at_lower (prev : option ascii) (s : str) :
  year_at (option_map lower_char prev) (lower s) = year_at prev s.
Proof.
  destruct s as [|c1 [|c2 [|c3 [|c4 rest]]]]; try reflexivity.
  unfold year_at. cbn [lower map].
  change (map lower_char rest) with (lower rest).
  unfold boundary. rewrite head_lower.
  change (Some (lower_char c1)) with (option_map lower_char (Some c1)).
  change (Some (lower_char c4)) with (option_map lower_char (Some c4)).
  rewrite !word_opt_lower, eqb_lower_char_2, eqb_lower_char_0, !is_decimal_lower.
  destruct (xorb (word_opt prev) (word_opt (Some c1)) && Ascii.eqb c1 "2"
            && Ascii.eqb c2 "0" && is_decimal c3 && is_decimal c4
            && xorb (word_opt (Some c4)) (word_opt (head rest))) eqn:E;
    [|reflexivity].
  apply andb_prop in E as [E _]. apply andb_prop in E as [E H4].
  apply andb_prop in E as [E H3]. apply andb_prop in E as [E H2].
  apply andb_prop in E as [_ H1].
  apply Ascii.eqb_eq in H1, H2. subst c1 c2.
  rewrite (is_decimal_lower_char c3 H3), (is_decimal_lower_char c4 H4).
  reflexivity.
Qed.

Lemma search_year_lower (prev : option ascii) (s : str) :
  search_year (option_map lower_char prev) (lower s) = search_year prev s.
Proof.
  revert prev. induction s as [|c s IH]; intros prev.
  - reflexivity.
  - cbn [search_year lower map]. change (map lower_char s) with (lower s).
    change (lower_char c :: lower s) with (lower (c :: s)).
    rewrite year_at_lower.
    destruct (year_at prev (c :: s)); [reflexivity|].
    apply (IH (Some c)).
Qed.

Lemma findall_year_lower (n : nat) : forall (prev : option ascii) (s : str),
  (length s <= n)%nat ->
  findall_year (option_map lower_char prev) (lower s) = findall_year prev s.
Proof.
  induction n as [|n IH]; intros prev s Hlen.
  - destruct s; [reflexivity|simpl in Hlen; lia].
  - destruct s as [|c1 s1]; [reflexivity|].
    change (lower (c1 :: s1)) with (lower_char c1 :: lower s1).
    rewrite !findall_year_step.
    change (lower_char c1 :: lower s1) with (lower (c1 :: s1)).
    rewrite year_at_lower.
    assert (Hrec : findall_year (Some (lower_char c1)) (lower s1)
                   = findall_year (Some c1) s1).
    { apply (IH (Some c1)). simpl in Hlen. lia. }
    destruct (year_at prev (c1 :: s1)) as [g|]; [|exact Hrec].
    destruct s1 as [|c2 [|c3 [|c4 rest]]]; try exact Hrec.
    cbn [lower map]. f_equal.
    apply (IH (Some c4)). simpl in Hlen |- *. lia.
Qed.

(** X5. Lower-casing a message first changes none of the four extractions
    (messages being made of the code points 0..255). *)
Theorem extraction_ignores_case (message : str) :
  detect_intent (lower message) = detect_intent message
  /\ extract_years (lower message) = extract_years message
  /\ extract_regions (lower message) = extract_regions message
  /\ extract_top_n (lower message) = extract_top_n message.
Proof.
  split; [|split; [|split]].
  - unfold detect_intent. rewrite lower_idem. reflexivity.
  - unfold extract_years.
    pose proof (findall_year_lower (length message) None message (le_n _)) as H.
    cbn [option_map] in H. rewrite H. reflexivity.
  - unfold extract_regions. rewrite lower_idem. reflexivity.
  - unfold extract_top_n. rewrite lower_idem. reflexivity.
Qed.

(** X6. A message classified 'year_comparison' yields at least one year: the
    year test of rule 1, made on the lower-cased text, and [extract_years],
    made on the message itself, see the same tokens (messages being made of
    the code points 0..255). *)
Theorem year_comparison_has_year (message : str) :
  detect_intent message = py "year_comparison" ->
  exists y ys, extract_years message = Some (y :: ys).
Proof.
  intros H. apply detect_intent_rule1 in H.
  apply andb_prop in H as [_ H].
  pose proof (search_year_lower None message) as Hl.
  cbn [option_map] in Hl. rewrite Hl in H.
  apply search_year_iff in H as (pre & g & Hg).
  unfold extract_years.
  destruct (extract_years_groups message) as (ys0 & -> & Hys0).
  cbn [mbind option_bind].
  assert (Hg' : year_token message g) by (exists pre; exact Hg).
  destruct Hg as (d3 & d4 & post & _ & Eg & H3 & H4 & _).
  assert (Hin : In (2000 + 10 * digit_value d3 + digit_value d4) ys0).
  { apply Hys0. exists g. split; [exact Hg'|].
    rewrite Eg. apply int_year_group; assumption. }
  destruct (sorted (elements (list_to_set ys0 : gset Z))) as [|y ys] eqn:E.
  - exfalso.
    assert (In (2000 + 10 * digit_value d3 + digit_value d4)
              (sorted (elements (list_to_set ys0 : gset Z)))) as Hs.
    { apply sorted_In. apply list_elem_of_In.
      apply elem_of_elements, elem_of_list_to_set, list_elem_of_In. exact Hin. }
    rewrite E in Hs. exact Hs.
  - exists y, ys. reflexivity.
Qed.

Lemma year_comparison_has_year_witness :
  exists y ys, extract_years (py "North VS South since 2022") = Some (y :: ys).
Proof.
  apply year_comparison_has_year. vm_compute. reflexivity.
Defined.

End EntitiesAndIntent.

(** ** The parser followed by the router *)

Section Pipeline.
Import Re nlp_processor analytics_engine main.

Lemma parse_user_message_fields (message : str) :
  exists ys,
    extract_years message = Some ys
    /\ parse_user_message message
       = Some (mkParsedQuery (detect_intent message) ys
                 (extract_regions message) (extract_top_n message)).
Proof.
  unfold parse_user_message, extract_years.
  destruct (extract_years_groups message) as (ys0 & -> & _).
  eexists. split; reflexivity.
Qed.

Lemma handle_query_None {R : Runtime} (message : str) (data : DataFrame)
    (parsed : ParsedQuery) :
  handle_query message data parsed = None
  <-> ~ In (nlp_processor.intent parsed)
        [py "total_sales"; py "top_products"; py "sales_by_region";
         py "monthly_trend"; py "year_comparison"].
Proof.
  unfold handle_query. cbv zeta.
  set (i := nlp_processor.intent parsed).
  assert (Hin : forall name,
            In (py name) [py "total_sales"; py "top_products";
                          py "sales_by_region"; py "monthly_trend";
                          py "year_comparison"] ->
            intent_is i name = true ->
            forall r : AnalysisResult,
              Some r = None <->
              ~ In i [py "total_sales"; py "top_products"; py "sales_by_region";
                      py "monthly_trend"; py "year_comparison"]).
  { intros name Hname E r. apply intent_is_true in E.
    split; [discriminate|]. intros H. exfalso. apply H. rewrite E. exact Hname. }
  destruct (intent_is i "total_sales") eqn:E1;
    [apply (Hin "total_sales"%string ltac:(cbn [In]; auto 10) E1)|].
  destruct (intent_is i "top_products") eqn:E2;
    [apply (Hin "top_products"%string ltac:(cbn [In]; auto 10) E2)|].
  destruct (intent_is i "sales_by_region") eqn:E3;
    [apply (Hin "sales_by_region"%string ltac:(cbn [In]; auto 10) E3)|].
  destruct (intent_is i "monthly_trend") eqn:E4;
    [apply (Hin "monthly_trend"%string ltac:(cbn [In]; auto 10) E4)|].
  destruct (intent_is i "year_comparison") eqn:E5;
    [apply (Hin "year_comparison"%string ltac:(cbn [In]; auto 10) E5)|].
  split; [|reflexivity]. intros _ H. cbn [In] in H.
  repeat (destruct H as [H|H];
          [symmetry in H; apply (proj2 (intent_is_true _ _)) in H; congruence|]).
  exact H.
Qed.

Lemma extract_top_n_positive (message : str) (k : Z) :
  extract_top_n message = Some k -> 1 <= k.
Proof.
  unfold extract_top_n.
  destruct (search_top (lower message)); [|discriminate].
  destruct (int s); [|discriminate]. intros [= <-]. lia.
Qed.

Lemma intent_without_regions (message : str) :
  detect_intent message = py "total_sales"
  \/ detect_intent message = py "top_products" ->
  extract_regions message = [].
Proof.
  intros H. destruct (extract_regions message) as [|r rs] eqn:E; [reflexivity|].
  exfalso.
  assert (Hne : extract_regions message <> []) by (rewrite E; discriminate).
  destruct (scan_regions (lower message) REGIONS) eqn:Es.
  { rewrite extract_regions_scan in Hne. contradiction. }
  assert (Hex : existsb (fun r => contains r (lower message)) REGIONS = true).
  { apply scan_regions_nonempty. rewrite Es. discriminate. }
  revert H. unfold detect_intent. rewrite Hex.
  destruct (_ && search_year None (lower message)); [intros [H|H]; discriminate H|].
  destruct (_ || contains (py "monthly") (lower message));
    [intros [H|H]; discriminate H|].
  rewrite orb_true_r. intros [H|H]; discriminate H.
Qed.

(** X8. Through the parser, 'total_sales' and 'top_products' never receive a
    region filter (a message naming a region gets another intent), and the
    count handed to [top_n_products] is at least 1: the count read from the
    message, or 5 when there is none. *)
Theorem parsed_totals_have_no_region {R : Runtime} (message : str) (data : DataFrame)
    (parsed : ParsedQuery) :
  parse_user_message message = Some parsed ->
  (nlp_processor.intent parsed = py "total_sales" ->
     handle_query message data parsed
     = Some (total_sales data (or_none (nlp_processor.years parsed)) None))
  /\ (nlp_processor.intent parsed = py "top_products" ->
     exists n,
       1 <= n
       /\ (top_n parsed = None -> n = 5)
       /\ (forall k, top_n parsed = Some k -> n = k)
       /\ handle_query message data parsed
          = Some (top_n_products data n
                    (or_none (nlp_processor.years parsed)) None)).
Proof.
  intros Hp.
  destruct (parse_user_message_fields message) as (ys & _ & Hp').
  rewrite Hp' in Hp. injection Hp as <-. cbn [nlp_processor.intent
    nlp_processor.years nlp_processor.regions top_n].
  split.
  - intros Hi. unfold handle_query.
    cbn [nlp_processor.intent nlp_processor.years nlp_processor.regions].
    rewrite (intent_without_regions message) by (left; exact Hi).
    rewrite Hi. reflexivity.
  - intros Hi. exists (top_n_or_default (extract_top_n message)).
    split; [|split; [|split]].
    + destruct (extract_top_n message) as [k|] eqn:Ek; simpl; [|lia].
      apply extract_top_n_positive in Ek.
      destruct (k =? 0) eqn:E0; [lia|exact Ek].
    + intros ->. reflexivity.
    + intros k Ek. rewrite Ek. apply extract_top_n_positive in Ek. simpl.
      destruct (k =? 0) eqn:E0; [apply Z.eqb_eq in E0; lia|reflexivity].
    + unfold handle_query.
      cbn [nlp_processor.intent nlp_processor.years nlp_processor.regions top_n].
      rewrite (intent_without_regions message) by (right; exact Hi).
      rewrite Hi. reflexivity.
Qed.

Lemma parsed_totals_have_no_region_witness :
  exists n,
    1 <= n
    /\ handle_query (py "Best 3 products of 2023") two_equal_products
         (mkParsedQuery (py "top_products") [2023] [] None)
       = Some (top_n_products two_equal_products n (Some [2023]) None).
Proof.
  destruct (proj2 (parsed_totals_have_no_region (py "Best 3 products of 2023")
                     two_equal_products
                     (mkParsedQuery (py "top_products") [2023] [] None)
                     eq_refl) eq_refl)
    as (n & Hn & _ & _ & Hq).
  exists n. split; assumption.
Defined.

(** X9. 'monthly_trend' takes a single year and a single region: through the
    parser these are the earliest year written in the message and the first
    region of the fixed list (north, south, east, west) that it names. *)
Theorem monthly_trend_uses_earliest_year (message : str) (parsed : ParsedQuery) :
  parse_user_message message = Some parsed ->
  match first_or_none (or_none (nlp_processor.years parsed)) with
  | Some y => In y (nlp_processor.years parsed)
              /\ forall y', In y' (nlp_processor.years parsed) -> y <= y'
  | None => nlp_processor.years parsed = []
  end
  /\ match first_or_none (or_none (nlp_processor.regions parsed)) with
     | Some g => exists pre post,
                   map capitalize REGIONS = pre ++ g :: post
                   /\ forall g', In g' pre -> ~ In g' (nlp_processor.regions parsed)
     | None => nlp_processor.regions parsed = []
     end.
Proof.
  intros Hp.
  destruct (parse_user_message_fields message) as (ys & Hy & Hp').
  rewrite Hp' in Hp. injection Hp as <-.
  cbn [nlp_processor.years nlp_processor.regions]. split.
  - assert (Hs : StronglySorted Z.lt ys).
    { revert Hy. unfold extract_years.
      destruct (extract_years_groups message) as (ys0 & -> & _).
      intros [= <-]. apply sorted_strict, NoDup_elements. }
    destruct ys as [|y ys]; [reflexivity|]. simpl.
    split; [left; reflexivity|].
    apply StronglySorted_inv in Hs as [_ Hs].
    rewrite List.Forall_forall in Hs.
    intros y' [<-|Hy']; [lia|]. specialize (Hs y' Hy'). lia.
  - rewrite extract_regions_scan, scan_regions_filter.
    unfold REGIONS. cbn [List.filter map].
    destruct (contains (py "north") (lower message)) eqn:E1.
    { exists [], (map capitalize [py "south"; py "east"; py "west"]).
      split; [reflexivity|]. intros g' []. }
    destruct (contains (py "south") (lower message)) eqn:E2.
    { exists [capitalize (py "north")], (map capitalize [py "east"; py "west"]).
      split; [reflexivity|]. intros g' [<-|[]].
      destruct (contains (py "east") (lower message));
      destruct (contains (py "west") (lower message));
      vm_compute; intuition discriminate. }
    destruct (contains (py "east") (lower message)) eqn:E3.
    { exists [capitalize (py "north"); capitalize (py "south")],
             (map capitalize [py "west"]).
      split; [reflexivity|]. intros g' [<-|[<-|[]]];
      destruct (contains (py "west") (lower message));
      vm_compute; intuition discriminate. }
    destruct (contains (py "west") (lower message)) eqn:E4.
    { exists [capitalize (py "north"); capitalize (py "south");
              capitalize (py "east")], [].
      split; [reflexivity|]. intros g' [<-|[<-|[<-|[]]]];
      vm_compute; intuition discriminate. }
    reflexivity.
Qed.

Lemma monthly_trend_uses_earliest_year_witness :
  match first_or_none (or_none [2022; 2024]) with
  | Some y => In y [2022; 2024] /\ forall y', In y' [2022; 2024] -> y <= y'
  | None => [2022; 2024] = []
  end.
Proof.
  exact (proj1 (monthly_trend_uses_earliest_year
                  (py "monthly trend 2024, then 2022, South and North")
                  (mkParsedQuery (py "monthly_trend") [2022; 2024]
                     [py "North"; py "South"] None)
                  eq_refl)).
Defined.

End Pipeline.

(** ** Filtering *)

Section Filtering.
Import analytics_engine.

Lemma isin_str_In (values : list str) (x : str) :
  isin str_eqb values x = true <-> In x values.
Proof.
  unfold isin. rewrite existsb_exists. split.
  - intros (y & Hy & E). apply str_eqb_eq in E. subst y. exact Hy.
  - intros H. exists x. split; [exact H|apply str_eqb_refl].
Qed.

Lemma sublist_List_filter {A} (p : A -> bool) (l : list A) :
  sublist (List.filter p l) l.
Proof.
  induction l as [|x l IH]; simpl; [constructor|].
  destruct (p x); [apply sublist_skip|apply sublist_cons]; exact IH.
Qed.

Lemma filter_idem {A} (p : A -> bool) (l : list A) :
  List.filter p (List.filter p l) = List.filter p l.
Proof.
  induction l as [|x l IH]; simpl; [reflexivity|].
  destruct (p x) eqn:E; simpl; [rewrite E, IH; reflexivity|exact IH].
Qed.

Lemma filter_comm {A} (p q : A -> bool) (l : list A) :
  List.filter p (List.filter q l) = List.filter q (List.filter p l).
Proof.
  induction l as [|x l IH]; simpl; [reflexivity|].
  destruct (p x) eqn:Ep, (q x) eqn:Eq; simpl; rewrite ?Ep, ?Eq, IH; reflexivity.
Qed.

Lemma filter_absorb {A} (p q : A -> bool) (l : list A) :
  (forall x, p x = true -> q x = true) ->
  List.filter p (List.filter q l) = List.filter p l.
Proof.
  intros H. induction l as [|x l IH]; simpl; [reflexivity|].
  destruct (q x) eqn:Eq; simpl.
  - rewrite IH. reflexivity.
  - destruct (p x) eqn:Ep; [rewrite (H x Ep) in Eq; discriminate|exact IH].
Qed.

Lemma filter_data_steps df years regions :
  _filter_data df years regions = region_step regions (year_step years df).
Proof. reflexivity. Qed.

Lemma year_step_In years df r :
  In r (year_step years df)
  <-> In r df /\ (truthy_opt years = true -> In (col_year r) (or_empty years)).
Proof.
  unfold year_step. destruct (truthy_opt years).
  - rewrite filter_In, isin_Z_In. tauto.
  - split; [intros H; split; [exact H|discriminate]|tauto].
Qed.

Lemma region_step_In regions df r :
  In r (region_step regions df)
  <-> In r df /\ (truthy_opt regions = true -> In (col_region r) (or_empty regions)).
Proof.
  unfold region_step. destruct (truthy_opt regions).
  - rewrite filter_In, isin_str_In. tauto.
  - split; [intros H; split; [exact H|discriminate]|tauto].
Qed.

Lemma year_region_steps_comm years regions df :
  region_step regions (year_step years df) = year_step years (region_step regions df).
Proof.
  unfold region_step, year_step.
  destruct (truthy_opt regions), (truthy_opt years); try reflexivity.
  apply filter_comm.
Qed.

Lemma filter_filter {A} (p q : A -> bool) (l : list A) :
  List.filter p (List.filter q l) = List.filter (fun x => q x && p x) l.
Proof.
  induction l as [|x l IH]; simpl; [reflexivity|].
  destruct (q x); simpl; [destruct (p x)|]; rewrite IH; reflexivity.
Qed.

Lemma isin_Z_decide (values : list Z) (x : Z) :
  isin Z.eqb values x = bool_decide (x ∈ values).
Proof.
  apply eq_true_iff_eq. rewrite isin_Z_In, bool_decide_eq_true, list_elem_of_In.
  reflexivity.
Qed.

Lemma isin_str_decide (values : list str) (x : str) :
  isin str_eqb values x = bool_decide (x ∈ values).
Proof.
  apply eq_true_iff_eq. rewrite isin_str_In, bool_decide_eq_true, list_elem_of_In.
  reflexivity.
Qed.

(** X10. [_filter_data] is the list of the rows whose year is among the given
    years and whose region is among the given regions, each as often as it
    occurs and in the order of the data set; a filter that is absent or an
    empty list restricts nothing. *)
Theorem filter_data_rows (df : DataFrame) (years : option (list Z))
    (regions : option (list str)) :
  _filter_data df years regions
  = List.filter
      (fun r =>
         (negb (truthy_opt years) || bool_decide (col_year r ∈ or_empty years))
         && (negb (truthy_opt regions)
             || bool_decide (col_region r ∈ or_empty regions)))
      df
  /\ sublist (_filter_data df years regions) df
  /\ (forall r,
        In r (_filter_data df years regions)
        <-> In r df
            /\ (truthy_opt years = true -> In (col_year r) (or_empty years))
            /\ (truthy_opt regions = true -> In (col_region r) (or_empty regions)))
  /\ _filter_data df (Some []) regions = _filter_data df None regions
  /\ _filter_data df years (Some []) = _filter_data df years None.
Proof.
  split; [|split; [|split; [|split; reflexivity]]].
  - rewrite filter_data_steps. unfold region_step, year_step.
    destruct (truthy_opt regions), (truthy_opt years); cbn [negb orb].
    + rewrite filter_filter. apply List.filter_ext. intros r.
      rewrite isin_Z_decide, isin_str_decide. reflexivity.
    + rewrite <- (filter_all (fun _ => true) df) at 1 by reflexivity.
      rewrite filter_filter. apply List.filter_ext. intros r.
      rewrite isin_str_decide. reflexivity.
    + apply List.filter_ext. intros r.
      rewrite isin_Z_decide, andb_true_r. reflexivity.
    + symmetry. apply filter_all. reflexivity.
  - rewrite filter_data_steps. unfold region_step, year_step.
    destruct (truthy_opt regions), (truthy_opt years);
      repeat (etransitivity; [apply sublist_List_filter|]); reflexivity.
  - intros r. rewrite filter_data_steps, region_step_In, year_step_In. tauto.
Qed.

(** X11. Filtering the filtered rows again with the same filters changes
    nothing, and the year filter and the region filter can be applied one
    after the other in either order. *)
Theorem filter_data_composes (df : DataFrame) (years : option (list Z))
    (regions : option (list str)) :
  _filter_data (_filter_data df years regions) years regions
  = _filter_data df years regions
  /\ _filter_data (_filter_data df None regions) years None
     = _filter_data df years regions
  /\ _filter_data (_filter_data df years None) None regions
     = _filter_data df years regions.
Proof.
  split; [|split].
  - rewrite !filter_data_steps.
    rewrite (year_region_steps_comm years regions (region_step _ _)).
    assert (Hr : forall d, region_step regions (region_step regions d)
                           = region_step regions d).
    { intros d. unfold region_step. destruct (truthy_opt regions); [|reflexivity].
      apply filter_idem. }
    assert (Hy : forall d, year_step years (year_step years d) = year_step years d).
    { intros d. unfold year_step. destruct (truthy_opt years); [|reflexivity].
      apply filter_idem. }
    rewrite Hr, <- year_region_steps_comm, Hy. reflexivity.
  - rewrite !filter_data_steps. cbn [region_step truthy_opt year_step].
    unfold region_step at 1. cbn [truthy_opt].
    symmetry. apply year_region_steps_comm.
  - reflexivity.
Qed.

(** X12. [monthly_trend] selects its rows by equality with one year and one
    region; this is [_filter_data] with one-element lists. *)
Theorem monthly_data_is_filter_data (df : DataFrame) (year : option Z)
    (region : option str) :
  monthly_data df year region
  = _filter_data df (option_map (fun y => [y]) year)
      (option_map (fun g => [g]) region).
Proof.
  unfold monthly_data, _filter_data.
  assert (Hy : forall y d,
             List.filter (fun r => col_year r =? y) d
             = List.filter (fun r => isin Z.eqb [y] (col_year r)) d).
  { intros y d. apply List.filter_ext. intros r. unfold isin. simpl.
    rewrite orb_false_r. reflexivity. }
  assert (Hg : forall g d,
             List.filter (fun r => str_eqb (col_region r) g) d
             = List.filter (fun r => isin str_eqb [g] (col_region r)) d).
  { intros g d. apply List.filter_ext. intros r. unfold isin. simpl.
    rewrite orb_false_r. reflexivity. }
  destruct year as [y|], region as [g|]; cbn [option_map truthy_opt or_empty];
    rewrite ?Hy, ?Hg; reflexivity.
Qed.

End Filtering.

(** ** The grouped tables *)

Section GroupedTables.
Import analytics_engine.

(** X13. [sales_by_region] lists every region of the filtered rows exactly once
    with the sum of its rows, no sum followed by a larger one (the order of
    regions with equal sums is the sort's to choose); its [regions] field is
    the region column of the table, in table order. *)
Theorem sales_by_region_table {R : Runtime} {HR : RuntimeSpec R}
    (df : DataFrame) (years : option (list Z)) :
  exists rows,
    table (sales_by_region df years) = KeyedStr (py "region") rows
    /\ regions (sales_by_region df years) = map fst rows
    /\ StronglySorted sum_desc rows
    /\ List.NoDup (map fst rows)
    /\ forall g v,
         In (g, v) rows <->
         In g (map col_region (_filter_data df years None))
         /\ v = sum_where (fun r => str_eqb (col_region r) g)
                  (_filter_data df years None).
Proof.
  eexists. split; [reflexivity|]. split; [reflexivity|].
  set (data := _filter_data df years None).
  split; [|split].
  - apply sort_values_desc_sorted.
  - apply NoDup_ListNoDup.
    rewrite (sort_values_desc_keys_Permutation (groupby_sum str_compare col_region data)).
    rewrite (groupby_sum_keys str_compare). apply NoDup_ListNoDup.
    apply (key_sorted_NoDup str_compare). apply (sorted_keys_sorted str_compare).
  - intros g v. rewrite sort_values_desc_In.
    rewrite (groupby_sum_In str_compare). reflexivity.
Qed.

(** On the sales of 2021 of the four-year data: the West before the South. *)
Lemma sales_by_region_table_witness :
  exists rows,
    table (sales_by_region four_year_sales (Some [2021])) = KeyedStr (py "region") rows
    /\ regions (sales_by_region four_year_sales (Some [2021])) = map fst rows
    /\ StronglySorted sum_desc rows
    /\ List.NoDup (map fst rows)
    /\ forall g v,
         In (g, v) rows <->
         In g (map col_region (_filter_data four_year_sales (Some [2021]) None))
         /\ v = sum_where (fun r => str_eqb (col_region r) g)
                  (_filter_data four_year_sales (Some [2021]) None).
Proof. apply (sales_by_region_table four_year_sales (Some [2021])). Defined.

(** X14. [monthly_trend] has one row per month of the selected rows, with the
    sum of that month, in strictly ascending order of the month; the year and
    the region it was given are reported back as one-element lists. *)
Theorem monthly_trend_table {R : Runtime} (df : DataFrame) (year : option Z)
    (region : option str) :
  years (monthly_trend df year region) = match year with Some y => [y] | None => [] end
  /\ regions (monthly_trend df year region)
     = match region with Some g => [g] | None => [] end
  /\ exists rows,
       table (monthly_trend df year region) = KeyedInt (py "month") rows
       /\ StronglySorted Z.lt (map fst rows)
       /\ forall m v,
            In (m, v) rows <->
            In m (map col_month (monthly_data df year region))
            /\ v = sum_where (fun r => col_month r =? m) (monthly_data df year region).
Proof.
  split; [reflexivity|]. split; [reflexivity|].
  eexists. split; [reflexivity|].
  rewrite (sort_by_key_groupby Z.compare). split.
  - rewrite (groupby_sum_keys Z.compare). apply key_lt_Z_sorted.
    apply (sorted_keys_sorted Z.compare).
  - intros m v. rewrite (groupby_sum_In Z.compare), group_rows_Z. reflexivity.
Qed.

Lemma comparison_years_given (df : DataFrame) (ys : list Z) :
  (2 <= length ys)%nat -> comparison_years df (Some ys) = ys.
Proof.
  intros H. unfold comparison_years.
  destruct ys as [|y ys]; [simpl in H; lia|]. cbn [truthy_opt negb orb or_empty].
  assert ((Z.of_nat (length (y :: ys)) <? 2) = false) as ->
    by (apply Z.ltb_ge; lia).
  reflexivity.
Qed.

(** X15. With two or more requested years [year_comparison] keeps the request
    as it is in its [years] field, and its table has a row for a requested
    year only if some (region-filtered) row has that year: a requested year
    without data gives no row, not a zero. *)
Theorem year_comparison_requested {R : Runtime} (df : DataFrame) (ys : list Z)
    (region : option str) :
  (2 <= length ys)%nat ->
  years (year_comparison df (Some ys) region) = ys
  /\ exists rows,
       table (year_comparison df (Some ys) region) = KeyedInt (py "year") rows
       /\ StronglySorted Z.lt (map fst rows)
       /\ forall y v,
            In (y, v) rows <->
            In y ys
            /\ In y (map col_year (_filter_data df None (region_list region)))
            /\ v = sum_where (fun r => col_year r =? y)
                     (_filter_data df None (region_list region)).
Proof.
  intros Hlen.
  pose proof (comparison_years_given df ys Hlen) as Hy.
  unfold year_comparison. cbn [years table]. rewrite Hy.
  split; [reflexivity|].
  eexists. split; [reflexivity|].
  rewrite (sort_by_key_groupby Z.compare).
  unfold comparison_data. rewrite Hy.
  set (rl := region_list region).
  assert (Hpos : truthy_opt (Some ys) = true).
  { destruct ys; [simpl in Hlen; lia|reflexivity]. }
  assert (Hin : forall r, In r (_filter_data df (Some ys) rl)
                          <-> In r (_filter_data df None rl) /\ In (col_year r) ys).
  { intros r. rewrite !filter_data_steps, !region_step_In, !year_step_In.
    rewrite Hpos. cbn [or_empty truthy_opt]. intuition discriminate. }
  split.
  - rewrite (groupby_sum_keys Z.compare). apply key_lt_Z_sorted.
    apply (sorted_keys_sorted Z.compare).
  - intros y v. rewrite (groupby_sum_In Z.compare), group_rows_Z.
    assert (Hsum : In y ys ->
              List.filter (fun r => col_year r =? y) (_filter_data df (Some ys) rl)
              = List.filter (fun r => col_year r =? y) (_filter_data df None rl)).
    { intros Hy_in. rewrite !filter_data_steps.
      unfold region_step. destruct (truthy_opt rl).
      - rewrite !(filter_comm (fun r => col_year r =? y)). f_equal.
        unfold year_step. rewrite Hpos. cbn [truthy_opt or_empty].
        apply filter_absorb. intros r Hr. apply Z.eqb_eq in Hr.
        apply isin_Z_In. rewrite Hr. exact Hy_in.
      - unfold year_step. rewrite Hpos. cbn [truthy_opt or_empty].
        apply filter_absorb. intros r Hr. apply Z.eqb_eq in Hr.
        apply isin_Z_In. rewrite Hr. exact Hy_in. }
    rewrite !in_map_iff. unfold sum_where. split.
    + intros [(r & Hr & Hrin) ->]. apply Hin in Hrin as [Hrin Hys].
      rewrite Hr in Hys. split; [exact Hys|]. split.
      * exists r. split; assumption.
      * rewrite (Hsum Hys). reflexivity.
    + intros (Hys & (r & Hr & Hrin) & ->). split.
      * exists r. split; [exact Hr|]. apply Hin. split; [exact Hrin|].
        rewrite Hr. exact Hys.
      * rewrite (Hsum Hys). reflexivity.
Qed.

Lemma year_comparison_requested_witness :
  years (year_comparison four_year_sales (Some [2024; 1999; 2021]) None)
  = [2024; 1999; 2021].
Proof.
  apply (year_comparison_requested four_year_sales [2024; 1999; 2021] None).
  simpl. lia.
Defined.

(** X16. The table for a smaller count is the beginning of the table for a
    larger one. *)
Theorem top_n_products_prefix {R : Runtime} (df : DataFrame) (n m : Z)
    (years : option (list Z)) (regions : option (list str)) :
  0 <= n <= m ->
  exists rows_n rows_m,
    table (top_n_products df n years regions) = KeyedStr (py "product") rows_n
    /\ table (top_n_products df m years regions) = KeyedStr (py "product") rows_m
    /\ rows_n = firstn (Z.to_nat n) rows_m.
Proof.
  intros H. eexists. eexists. split; [reflexivity|]. split; [reflexivity|].
  rewrite !head_n_nonneg by lia. rewrite firstn_firstn.
  f_equal. lia.
Qed.

Lemma top_n_products_prefix_witness :
  exists rows_n rows_m,
    table (top_n_products four_year_sales 1 None None) = KeyedStr (py "product") rows_n
    /\ table (top_n_products four_year_sales 2 None None) = KeyedStr (py "product") rows_m
    /\ rows_n = firstn (Z.to_nat 1) rows_m.
Proof.
  apply (top_n_products_prefix four_year_sales 1 2 None None). lia.
Defined.

End GroupedTables.

(** ** Summaries *)

Section Summaries.
Import analytics_engine main insight_generator.

Ltac eval_intent_tests :=
  repeat match goal with
         | |- context [intent_is (py ?a) ?b] =>
           let v := eval vm_compute in (intent_is (py a) b) in
           change (intent_is (py a) b) with v
         | |- context [str_eqb (py ?a) (py ?b)] =>
           let v := eval vm_compute in (str_eqb (py a) (py b)) in
           change (str_eqb (py a) (py b)) with v
         end; cbv iota.

Lemma sorted_keys_nil {K} (cmp : K -> K -> comparison) `{!KeyOrder cmp}
    (ks : list K) :
  sorted_keys cmp ks = [] <-> ks = [].
Proof.
  split; [|intros ->; reflexivity].
  destruct ks as [|k ks]; [reflexivity|]. intros H. exfalso.
  assert (Hin : In k (sorted_keys cmp (k :: ks))).
  { apply (sorted_keys_In cmp). left. reflexivity. }
  rewrite H in Hin. exact Hin.
Qed.

Lemma groupby_sum_empty {R : Runtime} {K} (cmp : K -> K -> comparison)
    `{!KeyOrder cmp} (key : Row -> K) (data : DataFrame) :
  groupby_sum cmp key data = [] <-> data = [].
Proof.
  unfold groupby_sum. split.
  - intros H. apply map_eq_nil in H. apply (proj1 (sorted_keys_nil cmp _)) in H.
    apply map_eq_nil in H. exact H.
  - intros ->. reflexivity.
Qed.

Lemma sort_values_desc_empty {R : Runtime} {HR : RuntimeSpec R} {K}
    (l : list (K * Q)) :
  sort_values_desc l = [] <-> l = [].
Proof.
  split; [|intros ->; apply sort_values_desc_nil]. intros H.
  apply length_zero_iff_nil. rewrite <- (sort_values_desc_length l), H. reflexivity.
Qed.

Lemma head_last_nonempty {A} (l : list A) :
  l <> [] -> exists a b, head l = Some a /\ last l = Some b.
Proof.
  intros H. destruct l as [|a l]; [congruence|].
  exists a. destruct (last (a :: l)) as [b|] eqn:E.
  - exists b. split; reflexivity.
  - apply last_None in E. discriminate.
Qed.

Lemma first_max_nonempty {K} (rows : list (K * Q)) :
  rows <> [] -> exists b, first_max rows = Some b.
Proof.
  destruct rows as [|r rows]; [congruence|]. intros _. simpl.
  destruct (first_max rows) as [b|]; [|eexists; reflexivity].
  destruct (Qle_bool (snd b) (snd r)); eexists; reflexivity.
Qed.

Lemma first_min_nonempty {K} (rows : list (K * Q)) :
  rows <> [] -> exists b, first_min rows = Some b.
Proof.
  destruct rows as [|r rows]; [congruence|]. intros _. simpl.
  destruct (first_min rows) as [b|]; [|eexists; reflexivity].
  destruct (Qle_bool (snd r) (snd b)); eexists; reflexivity.
Qed.

Lemma summarize_sales_by_region {R : Runtime} (df : DataFrame)
    (years : option (list Z)) :
  summarize (sales_by_region df years)
  = match iloc_first (sort_values_desc
             (groupby_sum str_compare col_region (_filter_data df years None))),
          iloc_last (sort_values_desc
             (groupby_sum str_compare col_region (_filter_data df years None))) with
    | Some best, Some worst =>
      Returned (regions_text (description (sales_by_region df years)) best worst)
    | _, _ => Raised
    end.
Proof.
  unfold summarize, sales_by_region. cbn [intent table description].
  eval_intent_tests.
  destruct (iloc_first _) as [b|]; [|reflexivity].
  destruct (iloc_last _) as [w|]; reflexivity.
Qed.

Lemma summarize_monthly_trend {R : Runtime} (df : DataFrame) (year : option Z)
    (region : option str) :
  summarize (monthly_trend df year region)
  = match iloc_first (groupby_sum Z.compare col_month (monthly_data df year region)),
          iloc_last (groupby_sum Z.compare col_month (monthly_data df year region)) with
    | Some first, Some last =>
      Returned (months_text (description (monthly_trend df year region)) first last)
    | _, _ => Raised
    end.
Proof.
  unfold summarize, monthly_trend. cbn [intent table description].
  eval_intent_tests. rewrite (sort_by_key_groupby Z.compare).
  destruct (iloc_first _) as [b|]; [|reflexivity].
  destruct (iloc_last _) as [w|]; reflexivity.
Qed.

Lemma summarize_year_comparison {R : Runtime} (df : DataFrame)
    (years : option (list Z)) (region : option str) :
  summarize (year_comparison df years region)
  = match first_max (groupby_sum Z.compare col_year (comparison_data df years region)),
          first_min (groupby_sum Z.compare col_year (comparison_data df years region)) with
    | Some best, Some worst =>
      Returned (years_text (description (year_comparison df years region)) best worst)
    | _, _ => Raised
    end.
Proof.
  unfold summarize, year_comparison. cbn [intent table description].
  eval_intent_tests. rewrite (sort_by_key_groupby Z.compare).
  destruct (first_max _) as [b|]; [|reflexivity].
  destruct (first_min _) as [w|]; reflexivity.
Qed.

Lemma summarize_total_sales {R : Runtime} (df : DataFrame)
    (years : option (list Z)) (regions : option (list str)) :
  summarize (total_sales df years regions)
  = Returned
      (total_text (description (total_sales df years regions))
         (round2 (series_sum (map col_total_sales (_filter_data df years regions))))).
Proof. reflexivity. Qed.

Lemma summarize_top_n_products {R : Runtime} (df : DataFrame) (n : Z)
    (years : option (list Z)) (regions : option (list str)) :
  summarize (top_n_products df n years regions)
  = Returned (products_text (description (top_n_products df n years regions))
                (head_n n (sort_values_desc
                   (groupby_sum str_compare col_product (_filter_data df years regions))))).
Proof.
  unfold summarize, top_n_products. cbn [intent table description].
  eval_intent_tests.
  destruct (head_n n _); reflexivity.
Qed.

(** X18. [summarize] always produces a text for the results of [total_sales]
    and [top_n_products].  For [sales_by_region], [monthly_trend] and
    [year_comparison] it raises exactly when no row was aggregated (the
    table is empty), and produces a text otherwise. *)
Theorem summarize_raises_on_empty_tables {R : Runtime} {HR : RuntimeSpec R} :
  (forall df years regions, exists text,
      summarize (total_sales df years regions) = Returned text)
  /\ (forall df n years regions, exists text,
      summarize (top_n_products df n years regions) = Returned text)
  /\ (forall df years,
      (summarize (sales_by_region df years) = Raised
       <-> _filter_data df years None = [])
      /\ (_filter_data df years None <> [] ->
          exists text, summarize (sales_by_region df years) = Returned text))
  /\ (forall df year region,
      (summarize (monthly_trend df year region) = Raised
       <-> monthly_data df year region = [])
      /\ (monthly_data df year region <> [] ->
          exists text, summarize (monthly_trend df year region) = Returned text))
  /\ (forall df years region,
      (summarize (year_comparison df years region) = Raised
       <-> comparison_data df years region = [])
      /\ (comparison_data df years region <> [] ->
          exists text, summarize (year_comparison df years region) = Returned text)).
Proof.
  split; [|split; [|split; [|split]]].
  - intros. rewrite summarize_total_sales. eexists. reflexivity.
  - intros. rewrite summarize_top_n_products. eexists. reflexivity.
  - intros df years. rewrite summarize_sales_by_region.
    destruct (_filter_data df years None) as [|r rest] eqn:E.
    + rewrite groupby_sum_nil, sort_values_desc_nil.
      split; [split; reflexivity|congruence].
    + assert (Hne : sort_values_desc (groupby_sum str_compare col_region (r :: rest))
                    <> []).
      { rewrite sort_values_desc_empty, (groupby_sum_empty str_compare). discriminate. }
      destruct (head_last_nonempty _ Hne) as (a & b & Ha & Hb).
      unfold iloc_first, iloc_last. rewrite Ha, Hb.
      split; [split; discriminate|]. intros _. eexists. reflexivity.
  - intros df year region. rewrite summarize_monthly_trend.
    destruct (monthly_data df year region) as [|r rest] eqn:E.
    + split; [split; reflexivity|congruence].
    + assert (Hne : groupby_sum Z.compare col_month (r :: rest) <> []).
      { rewrite (groupby_sum_empty Z.compare). discriminate. }
      destruct (head_last_nonempty _ Hne) as (a & b & Ha & Hb).
      unfold iloc_first, iloc_last. rewrite Ha, Hb.
      split; [split; discriminate|]. intros _. eexists. reflexivity.
  - intros df years region. rewrite summarize_year_comparison.
    destruct (comparison_data df years region) as [|r rest] eqn:E.
    + split; [split; reflexivity|congruence].
    + assert (Hne : groupby_sum Z.compare col_year (r :: rest) <> []).
      { rewrite (groupby_sum_empty Z.compare). discriminate. }
      destruct (first_max_nonempty _ Hne) as (a & Ha).
      destruct (first_min_nonempty _ Hne) as (b & Hb).
      rewrite Ha, Hb.
      split; [split; discriminate|]. intros _. eexists. reflexivity.
Qed.

(** A region table for the year 2019, which the data do not cover. *)
Lemma summarize_raises_on_empty_tables_witness :
  summarize (sales_by_region four_year_sales (Some [2019])) = Raised.
Proof.
  apply (proj1 (proj2 (proj2 summarize_raises_on_empty_tables))
           four_year_sales (Some [2019])).
  reflexivity.
Defined.

Lemma sorted_head_dominates {A} (R : A -> A -> Prop) (l : list A) (a x : A) :
  StronglySorted R l -> head l = Some a -> In x l -> x = a \/ R a x.
Proof.
  intros Hs Ha Hx. destruct l as [|a' l]; [discriminate|].
  injection Ha as ->. apply StronglySorted_inv in Hs as [_ Hs].
  destruct Hx as [->|Hx]; [left; reflexivity|right].
  rewrite List.Forall_forall in Hs. apply Hs. exact Hx.
Qed.

Lemma sorted_last_dominated {A} (R : A -> A -> Prop) (l : list A) (b x : A) :
  StronglySorted R l -> last l = Some b -> In x l -> x = b \/ R x b.
Proof.
  induction 1 as [|a l Hs IH Ha]; intros Hb Hx; [discriminate|].
  destruct l as [|a' l].
  - injection Hb as ->. destruct Hx as [->|[]]. left. reflexivity.
  - rewrite last_cons_cons in Hb.
    assert (Hbin : In b (a' :: l)).
    { apply list_elem_of_In, last_Some_elem_of. exact Hb. }
    destruct Hx as [->|Hx].
    + right. rewrite List.Forall_forall in Ha. apply Ha. exact Hbin.
    + apply IH; assumption.
Qed.

(** X19. The summary of [sales_by_region] names as best a region whose sum no
    region exceeds, and as lowest a region whose sum none falls below. *)
Theorem summary_names_best_and_lowest_region {R : Runtime} {HR : RuntimeSpec R}
    (df : DataFrame) (years : option (list Z)) :
  _filter_data df years None <> [] ->
  exists rows best worst,
    table (sales_by_region df years) = KeyedStr (py "region") rows
    /\ summarize (sales_by_region df years)
       = Returned (regions_text (description (sales_by_region df years)) best worst)
    /\ In best rows /\ In worst rows
    /\ forall r, In r rows -> (snd worst <= snd r <= snd best)%Q.
Proof.
  intros Hne. rewrite summarize_sales_by_region.
  set (rows := sort_values_desc
                 (groupby_sum str_compare col_region (_filter_data df years None))).
  assert (Hrows : rows <> []).
  { unfold rows. rewrite sort_values_desc_empty, (groupby_sum_empty str_compare).
    exact Hne. }
  assert (Hs : StronglySorted sum_desc rows) by apply sort_values_desc_sorted.
  destruct (head_last_nonempty rows Hrows) as (best & worst & Hb & Hw).
  exists rows, best, worst. unfold iloc_first, iloc_last. rewrite Hb, Hw.
  split; [reflexivity|]. split; [reflexivity|].
  split; [apply list_elem_of_In, head_Some_elem_of; exact Hb|].
  split; [apply list_elem_of_In, last_Some_elem_of; exact Hw|].
  intros r Hr. split.
  - destruct (sorted_last_dominated _ _ _ _ Hs Hw Hr) as [->|H];
      [apply Qle_refl|exact H].
  - destruct (sorted_head_dominates _ _ _ _ Hs Hb Hr) as [->|H];
      [apply Qle_refl|exact H].
Qed.

Lemma summary_names_best_and_lowest_region_witness :
  exists rows best worst,
    table (sales_by_region four_year_sales None) = KeyedStr (py "region") rows
    /\ summarize (sales_by_region four_year_sales None)
       = Returned (regions_text (description (sales_by_region four_year_sales None))
                     best worst)
    /\ In best rows /\ In worst rows
    /\ forall r, In r rows -> (snd worst <= snd r <= snd best)%Q.
Proof.
  apply (summary_names_best_and_lowest_region four_year_sales None). discriminate.
Defined.

Lemma first_max_spec {K} (rows : list (K * Q)) (b : K * Q) :
  first_max rows = Some b ->
  exists pre post,
    rows = pre ++ b :: post
    /\ (forall r, In r pre -> (snd r < snd b)%Q)
    /\ (forall r, In r post -> (snd r <= snd b)%Q).
Proof.
  revert b. induction rows as [|r rows IH]; intros b; simpl; [discriminate|].
  destruct (first_max rows) as [b'|] eqn:E.
  - destruct (IH b' eq_refl) as (pre & post & -> & Hpre & Hpost).
    destruct (Qle_bool (snd b') (snd r)) eqn:El; intros [= <-].
    + apply Qle_bool_iff in El. exists [], (pre ++ b' :: post).
      split; [reflexivity|]. split; [intros ? []|].
      intros x Hx. apply in_app_or in Hx as [Hx|[<-|Hx]].
      * apply Qlt_le_weak. eapply Qlt_le_trans; [apply Hpre; exact Hx|exact El].
      * exact El.
      * eapply Qle_trans; [apply Hpost; exact Hx|exact El].
    + assert (Hlt : (snd r < snd b')%Q).
      { apply Qnot_le_lt. intros H. apply Qle_bool_iff in H. congruence. }
      exists (r :: pre), post. split; [reflexivity|]. split; [|exact Hpost].
      intros x [<-|Hx]; [exact Hlt|apply Hpre; exact Hx].
  - intros [= <-]. destruct rows as [|r' rows].
    + exists [], []. split; [reflexivity|]. split; intros ? [].
    + exfalso. destruct (first_max_nonempty (r' :: rows)) as [x Hx]; congruence.
Qed.

Lemma first_min_spec {K} (rows : list (K * Q)) (b : K * Q) :
  first_min rows = Some b ->
  exists pre post,
    rows = pre ++ b :: post
    /\ (forall r, In r pre -> (snd b < snd r)%Q)
    /\ (forall r, In r post -> (snd b <= snd r)%Q).
Proof.
  revert b. induction rows as [|r rows IH]; intros b; simpl; [discriminate|].
  destruct (first_min rows) as [b'|] eqn:E.
  - destruct (IH b' eq_refl) as (pre & post & -> & Hpre & Hpost).
    destruct (Qle_bool (snd r) (snd b')) eqn:El; intros [= <-].
    + apply Qle_bool_iff in El. exists [], (pre ++ b' :: post).
      split; [reflexivity|]. split; [intros ? []|].
      intros x Hx. apply in_app_or in Hx as [Hx|[<-|Hx]].
      * apply Qlt_le_weak. eapply Qle_lt_trans; [exact El|apply Hpre; exact Hx].
      * exact El.
      * eapply Qle_trans; [exact El|apply Hpost; exact Hx].
    + assert (Hlt : (snd b' < snd r)%Q).
      { apply Qnot_le_lt. intros H. apply Qle_bool_iff in H. congruence. }
      exists (r :: pre), post. split; [reflexivity|]. split; [|exact Hpost].
      intros x [<-|Hx]; [exact Hlt|apply Hpre; exact Hx].
  - intros [= <-]. destruct rows as [|r' rows].
    + exists [], []. split; [reflexivity|]. split; intros ? [].
    + exfalso. destruct (first_min_nonempty (r' :: rows)) as [x Hx]; congruence.
Qed.

(** X20. The summary of [year_comparison] names the year with the largest sum
    and the year with the smallest; when several years tie, the earliest of
    them is named. *)
Theorem summary_names_highest_and_lowest_year {R : Runtime} (df : DataFrame)
    (years : option (list Z)) (region : option str) :
  comparison_data df years region <> [] ->
  exists before_best best after_best before_worst worst after_worst,
    table (year_comparison df years region)
    = KeyedInt (py "year") (before_best ++ best :: after_best)
    /\ before_best ++ best :: after_best = before_worst ++ worst :: after_worst
    /\ summarize (year_comparison df years region)
       = Returned (years_text (description (year_comparison df years region))
                     best worst)
    /\ (forall r, In r before_best -> (snd r < snd best)%Q /\ fst r < fst best)
    /\ (forall r, In r after_best -> (snd r <= snd best)%Q)
    /\ (forall r, In r before_worst -> (snd worst < snd r)%Q /\ fst r < fst worst)
    /\ (forall r, In r after_worst -> (snd worst <= snd r)%Q).
Proof.
  intros Hne. rewrite summarize_year_comparison.
  unfold year_comparison at 1. cbn [table].
  rewrite (sort_by_key_groupby Z.compare).
  set (rows := groupby_sum Z.compare col_year (comparison_data df years region)).
  assert (Hrows : rows <> []).
  { unfold rows. rewrite (groupby_sum_empty Z.compare). exact Hne. }
  assert (Hs : StronglySorted Z.lt (map fst rows)).
  { unfold rows. rewrite (groupby_sum_keys Z.compare). apply key_lt_Z_sorted.
    apply (sorted_keys_sorted Z.compare). }
  destruct (first_max_nonempty rows Hrows) as (best & Hb).
  destruct (first_min_nonempty rows Hrows) as (worst & Hw).
  destruct (first_max_spec rows best Hb) as (pb & qb & Eb & Hpb & Hqb).
  destruct (first_min_spec rows worst Hw) as (pw & qw & Ew & Hpw & Hqw).
  exists pb, best, qb, pw, worst, qw. rewrite Hb, Hw, <- Eb.
  assert (Hbefore : forall pre x post r,
             rows = pre ++ x :: post -> In r pre -> fst r < fst x).
  { intros pre x post r E Hr. rewrite E, map_app in Hs. cbn [map] in Hs.
    clear - Hs Hr. induction pre as [|p pre IH]; [destruct Hr|].
    simpl in Hs. apply StronglySorted_inv in Hs as [Hs Hp].
    destruct Hr as [->|Hr]; [|apply IH; assumption].
    rewrite List.Forall_forall in Hp. apply Hp.
    apply in_or_app. right. left. reflexivity. }
  split; [reflexivity|]. split; [exact Ew|]. split; [reflexivity|].
  split; [intros r Hr; split; [apply Hpb; exact Hr|apply (Hbefore _ _ _ _ Eb Hr)]|].
  split; [exact Hqb|].
  split; [intros r Hr; split; [apply Hpw; exact Hr|apply (Hbefore _ _ _ _ Ew Hr)]|].
  exact Hqw.
Qed.

Lemma summary_names_highest_and_lowest_year_witness :
  exists before_best best after_best before_worst worst after_worst,
    table (year_comparison four_year_sales None None)
    = KeyedInt (py "year") (before_best ++ best :: after_best)
    /\ before_best ++ best :: after_best = before_worst ++ worst :: after_worst
    /\ summarize (year_comparison four_year_sales None None)
       = Returned (years_text (description (year_comparison four_year_sales None None))
                     best worst)
    /\ (forall r, In r before_best -> (snd r < snd best)%Q /\ fst r < fst best)
    /\ (forall r, In r after_best -> (snd r <= snd best)%Q)
    /\ (forall r, In r before_worst -> (snd worst < snd r)%Q /\ fst r < fst worst)
    /\ (forall r, In r after_worst -> (snd worst <= snd r)%Q).
Proof.
  apply (summary_names_highest_and_lowest_year four_year_sales None None).
  discriminate.
Defined.

(** X21. The summary of [monthly_trend] compares the earliest month present
    with the latest one, whatever lies between. *)
Theorem summary_compares_first_and_last_month {R : Runtime} (df : DataFrame) (year : option Z)
    (region : option str) :
  monthly_data df year region <> [] ->
  exists rows first last,
    table (monthly_trend df year region) = KeyedInt (py "month") rows
    /\ summarize (monthly_trend df year region)
       = Returned (months_text (description (monthly_trend df year region))
                     first last)
    /\ In first rows /\ In last rows
    /\ forall r, In r rows -> fst first <= fst r <= fst last.
Proof.
  intros Hne. rewrite summarize_monthly_trend.
  unfold monthly_trend at 1. cbn [table].
  rewrite (sort_by_key_groupby Z.compare).
  set (rows := groupby_sum Z.compare col_month (monthly_data df year region)).
  assert (Hrows : rows <> []).
  { unfold rows. rewrite (groupby_sum_empty Z.compare). exact Hne. }
  assert (Hs : StronglySorted (fun a b : Z * Q => fst a < fst b) rows).
  { assert (Hk : StronglySorted Z.lt (map fst rows)).
    { unfold rows. rewrite (groupby_sum_keys Z.compare). apply key_lt_Z_sorted.
      apply (sorted_keys_sorted Z.compare). }
    clear - Hk. induction rows as [|r rows IH]; [constructor|].
    simpl in Hk. apply StronglySorted_inv in Hk as [Hk Hr].
    constructor; [apply IH; exact Hk|].
    rewrite List.Forall_forall in Hr |- *. intros x Hx. apply Hr, in_map, Hx. }
  destruct (head_last_nonempty rows Hrows) as (first & last & Hf & Hl).
  exists rows, first, last. unfold iloc_first, iloc_last. rewrite Hf, Hl.
  split; [reflexivity|]. split; [reflexivity|].
  split; [apply list_elem_of_In, head_Some_elem_of; exact Hf|].
  split; [apply list_elem_of_In, last_Some_elem_of; exact Hl|].
  intros r Hr. split.
  - destruct (sorted_head_dominates _ _ _ _ Hs Hf Hr) as [->|H]; lia.
  - destruct (sorted_last_dominated _ _ _ _ Hs Hl Hr) as [->|H]; lia.
Qed.

Lemma summary_compares_first_and_last_month_witness :
  exists rows first last,
    table (monthly_trend four_year_sales (Some 2021) None) = KeyedInt (py "month") rows
    /\ summarize (monthly_trend four_year_sales (Some 2021) None)
       = Returned (months_text
                     (description (monthly_trend four_year_sales (Some 2021) None))
                     first last)
    /\ In first rows /\ In last rows
    /\ forall r, In r rows -> fst first <= fst r <= fst last.
Proof.
  apply (summary_compares_first_and_last_month four_year_sales (Some 2021) None).
  discriminate.
Defined.

End Summaries.

(** ** Amounts as text *)

Section Currency.
Import analytics_engine insight_generator.


Lemma uint_chars_decimal (d : Decimal.uint) : forallb is_decimal (uint_chars d) = true.
Proof. induction d; simpl; try reflexivity; exact IHd. Qed.

Lemma read_uint_acc (d : Decimal.uint) (acc : positive) :
  fold_left read_digit (uint_chars d) (Z.pos acc) = Z.pos (Pos.of_uint_acc d acc).
Proof.
  revert acc. induction d; intros acc; try reflexivity;
    unfold uint_chars; cbn [NilEmpty.string_of_uint list_ascii_of_string fold_left];
    fold (uint_chars d);
    match goal with
    | |- fold_left _ _ (read_digit _ ?c) = _ =>
      let v := eval vm_compute in (digit_value c) in
      change (read_digit (Z.pos acc) c) with (10 * Z.pos acc + v)
    end; cbn [Pos.of_uint_acc]; rewrite <- IHd; f_equal; lia.
Qed.

Lemma read_uint (d : Decimal.uint) :
  fold_left read_digit (uint_chars d) 0 = Z.of_N (Pos.of_uint d).
Proof.
  induction d; try reflexivity;
    unfold uint_chars; cbn [NilEmpty.string_of_uint list_ascii_of_string fold_left];
    fold (uint_chars d).
  - exact IHd.
  - apply (read_uint_acc d 1).
  - apply (read_uint_acc d 2).
  - apply (read_uint_acc d 3).
  - apply (read_uint_acc d 4).
  - apply (read_uint_acc d 5).
  - apply (read_uint_acc d 6).
  - apply (read_uint_acc d 7).
  - apply (read_uint_acc d 8).
  - apply (read_uint_acc d 9).
Qed.

Lemma str_of_int_pos (p : positive) : str_of_int (Z.pos p) = uint_chars (Pos.to_uint p).
Proof.
  unfold str_of_int, uint_chars. cbn [Z.to_int NilZero.string_of_int].
  pose proof (DecimalPos.Unsigned.to_uint_nonnil p) as H.
  destruct (Pos.to_uint p); [congruence| | | | | | | | | |]; reflexivity.
Qed.

Lemma str_of_int_digits (n : Z) :
  0 <= n -> str_of_int n <> [] /\ forallb is_decimal (str_of_int n) = true.
Proof.
  intros H. destruct n as [|p|p]; [split; [discriminate|reflexivity]| |lia].
  rewrite str_of_int_pos. split; [|apply uint_chars_decimal].
  pose proof (DecimalPos.Unsigned.to_uint_nonnil p) as Hn.
  unfold uint_chars. destruct (Pos.to_uint p); [congruence| | | | | | | | | |];
    discriminate.
Qed.

(** Writing a natural number and reading it back. *)
Lemma read_str_of_int (n : Z) : 0 <= n -> fold_left read_digit (str_of_int n) 0 = n.
Proof.
  intros H. destruct n as [|p|p]; [reflexivity| |lia].
  rewrite str_of_int_pos, read_uint, DecimalPos.Unsigned.of_to. reflexivity.
Qed.

Lemma group3_commas (n : nat) : forall ds : str,
  (length ds <= n)%nat ->
  List.filter not_comma (group3 ds) = List.filter not_comma ds
  /\ length (group3 ds) = (length ds + (length ds - 1) / 3)%nat.
Proof.
  induction n as [|n IH]; intros ds Hlen.
  - destruct ds; [split; reflexivity|simpl in Hlen; lia].
  - destruct ds as [|a [|b [|c [|d rest]]]]; try (split; reflexivity).
    destruct (IH (d :: rest)) as [IHf IHl]; [simpl in Hlen |- *; lia|].
    change (group3 (a :: b :: c :: d :: rest))
      with (a :: b :: c :: ","%char :: group3 (d :: rest)).
    split.
    + change (a :: b :: c :: ","%char :: group3 (d :: rest))
        with ([a; b; c] ++ ","%char :: group3 (d :: rest)).
      change (a :: b :: c :: d :: rest) with ([a; b; c] ++ d :: rest).
      rewrite !List.filter_app. f_equal.
      change (List.filter not_comma (","%char :: group3 (d :: rest)))
        with (List.filter not_comma (group3 (d :: rest))).
      exact IHf.
    + change (length (a :: b :: c :: ","%char :: group3 (d :: rest)))
        with (4 + length (group3 (d :: rest)))%nat.
      rewrite IHl.
      change (length (a :: b :: c :: d :: rest)) with (3 + length (d :: rest))%nat.
      set (m := length (d :: rest)).
      assert (Hm : (1 <= m)%nat) by (unfold m; simpl; lia).
      replace (3 + m - 1)%nat with (m - 1 + 1 * 3)%nat by lia.
      rewrite Nat.div_add by lia. lia.
Qed.

Lemma filter_rev {A} (p : A -> bool) (l : list A) :
  List.filter p (rev l) = rev (List.filter p l).
Proof.
  induction l as [|x l IH]; [reflexivity|].
  simpl. rewrite List.filter_app, IH. simpl. destruct (p x); [reflexivity|].
  rewrite app_nil_r. reflexivity.
Qed.

Lemma filter_digits (ds : str) :
  forallb is_decimal ds = true -> List.filter not_comma ds = ds.
Proof.
  induction ds as [|c ds IH]; [reflexivity|]. simpl. intros H.
  apply andb_prop in H as [Hc H]. rewrite (IH H).
  assert (not_comma c = true) as ->; [|reflexivity].
  unfold not_comma. destruct (Ascii.eqb c ",") eqn:E; [|reflexivity].
  apply Ascii.eqb_eq in E. subst c. discriminate Hc.
Qed.

(** Counted from the right, every fourth character of the grouped digits
    is a comma, no other is, and the first character is not one. *)
Lemma group3_comma_places (n : nat) : forall ds : str,
  (length ds <= n)%nat -> forallb is_decimal ds = true ->
  (forall i c, nth_error (group3 ds) i = Some c ->
     (c = ","%char <-> (i mod 4 = 3)%nat))
  /\ (ds <> [] -> (length (group3 ds) mod 4 <> 0)%nat).
Proof.
  assert (Hdigit : forall c, is_decimal c = true -> c <> ","%char).
  { intros c Hc ->. discriminate Hc. }
  induction n as [|n IH]; intros ds Hlen Hd.
  - destruct ds; [|simpl in Hlen; lia].
    split; [intros [|i] c H; discriminate H|congruence].
  - destruct ds as [|a [|b [|c [|d rest]]]].
    + split; [intros [|i] x H; discriminate H|congruence].
    + cbn [forallb] in Hd. apply andb_prop in Hd as [Ha _].
      split; [|intros _; discriminate].
      intros [|[|i]] x H; try discriminate H.
      injection H as <-. split; [intros E; destruct (Hdigit a Ha E)|discriminate].
    + cbn [forallb] in Hd.
      apply andb_prop in Hd as [Ha Hd]. apply andb_prop in Hd as [Hb _].
      split; [|intros _; discriminate].
      intros [|[|[|i]]] x H; try discriminate H; injection H as <-;
        (split; [intros E; first [destruct (Hdigit a Ha E)|destruct (Hdigit b Hb E)]
                |discriminate]).
    + cbn [forallb] in Hd.
      apply andb_prop in Hd as [Ha Hd]. apply andb_prop in Hd as [Hb Hd].
      apply andb_prop in Hd as [Hc _].
      split; [|intros _; discriminate].
      intros [|[|[|[|i]]]] x H; try discriminate H; injection H as <-;
        (split; [intros E; first [destruct (Hdigit a Ha E)|destruct (Hdigit b Hb E)
                                 |destruct (Hdigit c Hc E)]
                |discriminate]).
    + assert (Hd' : forallb is_decimal (d :: rest) = true).
      { cbn [forallb] in Hd |- *.
        apply andb_prop in Hd as [_ Hd]. apply andb_prop in Hd as [_ Hd].
        apply andb_prop in Hd as [_ Hd]. exact Hd. }
      cbn [forallb] in Hd.
      apply andb_prop in Hd as [Ha Hd]. apply andb_prop in Hd as [Hb Hd].
      apply andb_prop in Hd as [Hc _].
      destruct (IH (d :: rest)) as [IHp IHl]; [simpl in Hlen |- *; lia|exact Hd'|].
      change (group3 (a :: b :: c :: d :: rest))
        with (a :: b :: c :: ","%char :: group3 (d :: rest)).
      split.
      * intros [|[|[|[|i]]]] x H.
        -- injection H as <-.
           split; [intros E; destruct (Hdigit a Ha E)|discriminate].
        -- injection H as <-.
           split; [intros E; destruct (Hdigit b Hb E)|discriminate].
        -- injection H as <-.
           split; [intros E; destruct (Hdigit c Hc E)|discriminate].
        -- injection H as <-. split; reflexivity.
        -- change (nth_error (group3 (d :: rest)) i = Some x) in H.
           rewrite (IHp i x H).
           replace (S (S (S (S i)))) with (i + 1 * 4)%nat by lia.
           rewrite Nat.Div0.mod_add. reflexivity.
      * intros _.
        change (length (a :: b :: c :: ","%char :: group3 (d :: rest)))
          with (S (S (S (S (length (group3 (d :: rest))))))).
        replace (S (S (S (S (length (group3 (d :: rest)))))))
          with (length (group3 (d :: rest)) + 1 * 4)%nat by lia.
        rewrite Nat.Div0.mod_add. apply IHl. discriminate.
Qed.

(** The nearest integer is at most a half away. *)
Lemma round_half_even_near (x : Q) :
  (inject_Z (round_half_even x) - (1 # 2) <= x
   /\ x <= inject_Z (round_half_even x) + (1 # 2))%Q.
Proof.
  unfold round_half_even.
  pose proof (Qfloor_le x) as Hlo. pose proof (Qlt_floor x) as Hhi.
  set (f := Qfloor x) in *.
  assert (Hf1 : inject_Z (f + 1) = (inject_Z f + 1)%Q) by exact (inject_Z_plus f 1).
  rewrite Hf1 in Hhi.
  destruct (Qcompare (x - inject_Z f) (1 # 2)) eqn:E.
  - apply Qeq_alt in E.
    destruct (Z.even f); [|rewrite Hf1]; lra.
  - apply Qlt_alt in E. lra.
  - apply Qgt_alt in E. rewrite Hf1. lra.
Qed.

(** The nearest integer is the even one when two are equally near. *)
Lemma round_half_even_tie (x : Q) :
  (x == inject_Z (round_half_even x) - (1 # 2)
   \/ x == inject_Z (round_half_even x) + (1 # 2))%Q ->
  Z.even (round_half_even x) = true.
Proof.
  unfold round_half_even.
  pose proof (Qfloor_le x) as Hlo. pose proof (Qlt_floor x) as Hhi.
  set (f := Qfloor x) in *.
  assert (Hf1 : inject_Z (f + 1) = (inject_Z f + 1)%Q) by exact (inject_Z_plus f 1).
  rewrite Hf1 in Hhi.
  destruct (Qcompare (x - inject_Z f) (1 # 2)) eqn:E.
  - intros _. destruct (Z.even f) eqn:Ef; [exact Ef|].
    rewrite Z.even_add, Ef. reflexivity.
  - apply Qlt_alt in E. intros [H|H]; exfalso; lra.
  - apply Qgt_alt in E. rewrite Hf1. intros [H|H]; exfalso; lra.
Qed.

(** X22. [format_currency] writes a dollar sign, a minus sign for an amount
    below zero, and then the digits of the amount rounded to the nearest
    integer, the even one of two that are equally near.  Taking the commas
    out leaves the decimal digits of that integer; counted from the right,
    every fourth character is a comma and no other is, and none stands in
    front.  (An amount is a rational: the negative zero of the doubles,
    which prints a minus sign, is not among them.) *)
Theorem format_currency_reads_back (value : Q) :
  exists body,
    format_currency value
    = py "$" ++ (if is_negative value then py "-" else []) ++ body
    /\ (inject_Z (round_half_even value) - (1 # 2) <= value
        <= inject_Z (round_half_even value) + (1 # 2))%Q
    /\ ((value == inject_Z (round_half_even value) - (1 # 2)
         \/ value == inject_Z (round_half_even value) + (1 # 2))%Q ->
        Z.even (round_half_even value) = true)
    /\ List.filter not_comma body = str_of_int (Z.abs (round_half_even value))
    /\ forallb is_decimal (List.filter not_comma body) = true
    /\ fold_left read_digit (List.filter not_comma body) 0
       = Z.abs (round_half_even value)
    /\ (forall i c, nth_error (rev body) i = Some c ->
          (c = ","%char <-> (i mod 4 = 3)%nat))
    /\ (length body mod 4 <> 0)%nat.
Proof.
  set (n := Z.abs (round_half_even value)).
  assert (Hn : 0 <= n) by (unfold n; lia).
  destruct (str_of_int_digits n Hn) as [Hne Hd].
  assert (Hdr : forallb is_decimal (rev (str_of_int n)) = true).
  { rewrite forallb_forall in Hd |- *. intros c Hc. apply Hd, in_rev, Hc. }
  destruct (group3_commas (length (rev (str_of_int n))) (rev (str_of_int n)) (le_n _))
    as [Hf _].
  destruct (group3_comma_places (length (rev (str_of_int n))) (rev (str_of_int n))
              (le_n _) Hdr) as [Hplaces Hfront].
  assert (Hfilter : List.filter not_comma (rev (group3 (rev (str_of_int n))))
                    = str_of_int n).
  { rewrite filter_rev, Hf, filter_rev, rev_involutive. apply filter_digits. exact Hd. }
  exists (rev (group3 (rev (str_of_int n)))).
  split; [reflexivity|]. split; [apply round_half_even_near|].
  split; [apply round_half_even_tie|].
  rewrite Hfilter. split; [reflexivity|]. split; [exact Hd|].
  split; [apply read_str_of_int; exact Hn|].
  rewrite rev_involutive, length_rev. split; [exact Hplaces|].
  apply Hfront. intros E. apply Hne.
  rewrite <- (rev_involutive (str_of_int n)), E. reflexivity.
Qed.

(** Three amounts: a tie that goes down to the even 1234, a tie that goes up
    to the even 2, and an amount below zero that rounds to zero. *)
Example format_currency_examples :
  format_currency (12345 # 10) = py "$1,234"
  /\ format_currency (3 # 2) = py "$2"
  /\ format_currency (1234567 # 1) = py "$1,234,567"
  /\ format_currency (- (2 # 5)) = py "$-0".
Proof. split; [|split; [|split]]; vm_compute; reflexivity. Qed.

End Currency.

(** ** The read loop *)

Section ReadLoop.
Import nlp_processor analytics_engine main insight_generator visualization cli.

Lemma turn_question {R : Runtime} (OUTPUT_DIR : str) (data : DataFrame)
    (session : Session) (line : str) (parsed : ParsedQuery)
    (result : AnalysisResult) :
  is_question line ->
  parse_user_message (strip line) = Some parsed ->
  intent_is (nlp_processor.intent parsed) "unknown" = false ->
  handle_query (strip line) data parsed = Some result ->
  turn OUTPUT_DIR data session line
  = match summarize result with
    | Returned summary =>
      match visualize_result OUTPUT_DIR result with
      | Returned chart_path =>
        Continue (mkSession (Some result) (Some summary) chart_path)
          ([Ask prompt] ++ [Print (py "Bot: " ++ summary)]
           ++ (if truthy_str chart_path
               then [Print (py "Bot: I also saved a chart to: "
                            ++ default [] chart_path)]
               else []))
      | _ => Uncaught [Ask prompt]
      end
    | _ => Uncaught [Ask prompt]
    end.
Proof.
  intros (H1 & H2 & H3) Hp Hu Hq. unfold turn. cbv zeta.
  rewrite H1, H2, H3, Hp, Hu, Hq. reflexivity.
Qed.

(** X23. A question whose answer is a region, month or year table without rows
    ends the program: [summarize] raises, and nothing in the loop catches
    it.  This is what happens to "Sales by region for 2019" on data that do
    not cover 2019. *)
Theorem empty_answer_ends_the_loop {R : Runtime} {HR : RuntimeSpec R}
    (OUTPUT_DIR : str) (data : DataFrame) (session : Session) (line : str)
    (parsed : ParsedQuery) :
  is_question line ->
  parse_user_message (strip line) = Some parsed ->
  (nlp_processor.intent parsed = py "sales_by_region"
   /\ _filter_data data (or_none (nlp_processor.years parsed)) None = [])
  \/ (nlp_processor.intent parsed = py "monthly_trend"
      /\ monthly_data data
           (first_or_none (or_none (nlp_processor.years parsed)))
           (first_or_none (or_none (nlp_processor.regions parsed))) = [])
  \/ (nlp_processor.intent parsed = py "year_comparison"
      /\ comparison_data data (or_none (nlp_processor.years parsed))
           (first_or_none (or_none (nlp_processor.regions parsed))) = []) ->
  turn OUTPUT_DIR data session line = Uncaught [Ask prompt]
  /\ forall rest,
       loop OUTPUT_DIR data session (line :: rest) = ([Ask prompt], session, Crashed).
Proof.
  intros Hq Hp Hcase.
  assert (Hturn : turn OUTPUT_DIR data session line = Uncaught [Ask prompt]).
  { destruct Hcase as [[Hi He]|[[Hi He]|[Hi He]]].
    - rewrite (turn_question OUTPUT_DIR data session line parsed
                 (sales_by_region data (or_none (nlp_processor.years parsed))) Hq Hp).
      + rewrite summarize_sales_by_region, He, groupby_sum_nil, sort_values_desc_nil.
        reflexivity.
      + rewrite Hi. reflexivity.
      + unfold handle_query. rewrite Hi. reflexivity.
    - rewrite (turn_question OUTPUT_DIR data session line parsed
                 (monthly_trend data
                    (first_or_none (or_none (nlp_processor.years parsed)))
                    (first_or_none (or_none (nlp_processor.regions parsed)))) Hq Hp).
      + rewrite summarize_monthly_trend, He. reflexivity.
      + rewrite Hi. reflexivity.
      + unfold handle_query. rewrite Hi. reflexivity.
    - rewrite (turn_question OUTPUT_DIR data session line parsed
                 (year_comparison data (or_none (nlp_processor.years parsed))
                    (first_or_none (or_none (nlp_processor.regions parsed)))) Hq Hp).
      + rewrite summarize_year_comparison, He. reflexivity.
      + rewrite Hi. reflexivity.
      + unfold handle_query. rewrite Hi. reflexivity. }
  split; [exact Hturn|]. intros rest. cbn [loop]. rewrite Hturn. reflexivity.
Qed.

Lemma empty_answer_ends_the_loop_witness :
  loop (py "output") four_year_sales fresh
    [py "Sales by region for 2019"; py "Total sales"; py "exit"]
  = ([Ask prompt], fresh, Crashed).
Proof.
  apply (proj2 (empty_answer_ends_the_loop (py "output") four_year_sales fresh
                  (py "Sales by region for 2019")
                  (mkParsedQuery (py "sales_by_region") [2019] [] None)
                  ltac:(repeat split; reflexivity)
                  eq_refl
                  (or_introl (conj eq_refl eq_refl)))).
Defined.

Lemma app_cons_nonempty {A} (l1 : list A) (x : A) (l2 : list A) : l1 ++ x :: l2 <> [].
Proof. destruct l1; discriminate. Qed.

Lemma summarize_nonempty (result : AnalysisResult) (text : str) :
  summarize result = Returned text -> text <> [].
Proof.
  unfold summarize.
  repeat match goal with
         | |- context [if ?b then _ else _] => destruct b
         | |- context [match ?x with _ => _ end] => destruct x
         end;
    intros [= <-];
    first [ discriminate
          | unfold products_text, regions_text, months_text, years_text;
            apply app_cons_nonempty ].
Qed.

Lemma turn_consistent {R : Runtime} (OUTPUT_DIR : str) (data : DataFrame)
    (session session' : Session) (line : str) (outputs : list Output) :
  consistent OUTPUT_DIR session ->
  turn OUTPUT_DIR data session line = Continue session' outputs ->
  consistent OUTPUT_DIR session'
  /\ forall path text r chart,
       In (PdfSaved path text r chart) outputs ->
       path = pdf_path OUTPUT_DIR
       /\ cli.last_result session = Some r
       /\ summarize r = Returned text
       /\ visualize_result OUTPUT_DIR r = Returned chart.
Proof.
  intros Hc. unfold turn. cbv zeta.
  destruct (is_one_of _ [py "exit"; py "quit"; py "q"]); [discriminate|].
  destruct (is_one_of _ [py "help"; py "examples"]).
  { intros [= <- <-]. split; [exact Hc|].
    intros ? ? ? ? [H|[H|[]]]; discriminate H. }
  destruct (startswith (py "export pdf") _).
  { destruct (last_result session) as [r|] eqn:Er.
    - destruct (last_summary session) as [[|c text]|] eqn:Es.
      + intros [= <- <-]. split; [exact Hc|].
        intros ? ? ? ? [H|[H|[]]]; discriminate H.
      + intros [= <- <-]. split; [exact Hc|].
        intros path t r' chart [H|[H|[H|[]]]]; try discriminate H.
        injection H as <- <- <- <-.
        destruct Hc as [->|(r0 & t0 & Hr0 & Ht0 & _ & Hsum & Hvis)];
          [discriminate Er|].
        rewrite Er in Hr0. injection Hr0 as <-.
        rewrite Es in Ht0. injection Ht0 as <-.
        repeat split; assumption.
      + intros [= <- <-]. split; [exact Hc|].
        intros ? ? ? ? [H|[H|[]]]; discriminate H.
    - intros [= <- <-]. split; [exact Hc|].
      intros ? ? ? ? [H|[H|[]]]; discriminate H. }
  destruct (parse_user_message (strip line)) as [parsed|]; [|discriminate].
  destruct (intent_is (nlp_processor.intent parsed) "unknown").
  { intros [= <- <-]. split; [exact Hc|].
    intros ? ? ? ? [H|[H|[]]]; discriminate H. }
  destruct (handle_query (strip line) data parsed) as [result|].
  - destruct (summarize result) as [summary| |] eqn:Es; try discriminate.
    destruct (visualize_result OUTPUT_DIR result) as [chart| |] eqn:Ev;
      try discriminate.
    intros [= <- <-]. split.
    + right. exists result, summary. cbn [cli.last_result cli.last_summary
        cli.last_chart_path].
      repeat split; try assumption. apply (summarize_nonempty result). exact Es.
    + intros ? ? ? ? Hin. exfalso.
      destruct Hin as [H|[H|Hin]]; [discriminate H|discriminate H|].
      destruct (truthy_str chart); [destruct Hin as [H|[]]; discriminate H|destruct Hin].
  - intros [= <- <-]. split; [exact Hc|].
    intros ? ? ? ? [H|[H|[]]]; discriminate H.
Qed.

Lemma loop_consistent {R : Runtime} (OUTPUT_DIR : str) (data : DataFrame)
    (lines : list str) :
  forall session outputs final ending,
    consistent OUTPUT_DIR session ->
    loop OUTPUT_DIR data session lines = (outputs, final, ending) ->
    consistent OUTPUT_DIR final
    /\ forall path text r chart,
         In (PdfSaved path text r chart) outputs ->
         path = pdf_path OUTPUT_DIR
         /\ summarize r = Returned text
         /\ visualize_result OUTPUT_DIR r = Returned chart.
Proof.
  induction lines as [|line lines IH]; intros session outputs final ending Hc; cbn [loop].
  - intros [= <- <- <-]. split; [exact Hc|].
    intros ? ? ? ? [H|[]]. discriminate H.
  - destruct (turn OUTPUT_DIR data session line) as [s' outs|outs|outs] eqn:Et.
    + destruct (loop OUTPUT_DIR data s' lines) as [[outs' final'] ending'] eqn:El.
      intros [= <- <- <-].
      destruct (turn_consistent _ _ _ _ _ _ Hc Et) as [Hc' Hp].
      destruct (IH _ _ _ _ Hc' El) as [Hf Hp'].
      split; [exact Hf|].
      intros path text r chart Hin. apply in_app_or in Hin as [Hin|Hin].
      * destruct (Hp _ _ _ _ Hin) as (H1 & _ & H2 & H3). repeat split; assumption.
      * apply (Hp' _ _ _ _ Hin).
    + intros [= <- <- <-]. split; [exact Hc|].
      revert Et. unfold turn. cbv zeta.
      repeat match goal with
             | |- context [if ?b then _ else _] => destruct b
             | |- context [match ?x with _ => _ end] => destruct x
             end; intros [= <-] ? ? ? ? Hin; exfalso;
        repeat (destruct Hin as [Hin|Hin]; [discriminate Hin|]); exact Hin.
    + intros [= <- <- <-]. split; [exact Hc|].
      revert Et. unfold turn. cbv zeta.
      repeat match goal with
             | |- context [if ?b then _ else _] => destruct b
             | |- context [match ?x with _ => _ end] => destruct x
             end; intros [= <-] ? ? ? ? Hin; exfalso;
        repeat (destruct Hin as [Hin|Hin]; [discriminate Hin|]); exact Hin.
Qed.

(** The first letter of a summary of a routed query. *)
Lemma handle_query_summary {R : Runtime} (message : str) (data : DataFrame)
    (parsed : ParsedQuery) (result : AnalysisResult) (text : str) :
  handle_query message data parsed = Some result ->
  summarize result = Returned text ->
  exists c rest, text = c :: rest /\ In c [ "T"; "S"; "M"; "Y" ]%char.
Proof.
  unfold handle_query. cbv zeta.
  destruct (intent_is _ "total_sales").
  { intros [= <-]. rewrite summarize_total_sales. intros [= <-].
    eexists _, _. split; [reflexivity|]. cbn [In]. tauto. }
  destruct (intent_is _ "top_products").
  { intros [= <-]. rewrite summarize_top_n_products. intros [= <-].
    eexists _, _. split; [reflexivity|]. cbn [In]. tauto. }
  destruct (intent_is _ "sales_by_region").
  { intros [= <-]. rewrite summarize_sales_by_region.
    destruct (iloc_first _); [|discriminate].
    destruct (iloc_last _); [|discriminate]. intros [= <-].
    eexists _, _. split; [reflexivity|]. cbn [In]. tauto. }
  destruct (intent_is _ "monthly_trend").
  { intros [= <-]. rewrite summarize_monthly_trend.
    destruct (iloc_first _); [|discriminate].
    destruct (iloc_last _); [|discriminate]. intros [= <-].
    eexists _, _. split; [reflexivity|]. cbn [In]. tauto. }
  destruct (intent_is _ "year_comparison"); [|discriminate].
  intros [= <-]. rewrite summarize_year_comparison.
  destruct (first_max _); [|discriminate].
  destruct (first_min _); [|discriminate]. intros [= <-].
  eexists _, _. split; [reflexivity|]. cbn [In]. tauto.
Qed.

(** A parsed message whose intent is not 'unknown' has a result. *)
Lemma handle_query_parsed {R : Runtime} (message : str) (data : DataFrame)
    (parsed : ParsedQuery) :
  parse_user_message message = Some parsed ->
  intent_is (nlp_processor.intent parsed) "unknown" = false ->
  handle_query message data parsed <> None.
Proof.
  intros Hp Hu.
  destruct (parse_user_message_fields message) as (ys & _ & Hp').
  rewrite Hp' in Hp. injection Hp as <-.
  rewrite handle_query_None. cbn [nlp_processor.intent] in Hu |- *.
  intros Hno.
  pose proof (detect_intent_range message) as Hr. simpl in Hr, Hno.
  destruct Hr as [Hr|[Hr|[Hr|[Hr|[Hr|[Hr|[]]]]]]];
    try (apply Hno; rewrite <- Hr; tauto).
  rewrite <- Hr in Hu. discriminate Hu.
Qed.

Lemma turn_never_misses {R : Runtime} (OUTPUT_DIR : str) (data : DataFrame)
    (session : Session) (line : str) :
  ~ In (Print (py "Bot: I wasn't able to compute that request."))
       (outputs_of (turn OUTPUT_DIR data session line)).
Proof.
  unfold turn. cbv zeta.
  destruct (is_one_of _ [py "exit"; py "quit"; py "q"]).
  { intros [H|[H|[]]]; discriminate H. }
  destruct (is_one_of _ [py "help"; py "examples"]).
  { intros [H|[H|[]]]; discriminate H. }
  destruct (startswith (py "export pdf") _).
  { destruct (last_result session) as [r|];
      [destruct (last_summary session) as [[|c text]|]|];
      cbn [outputs_of app]; intros Hin;
      repeat (destruct Hin as [Hin|Hin]; [discriminate Hin|]); exact Hin. }
  destruct (parse_user_message (strip line)) as [parsed|] eqn:Hp;
    [|intros [H|[]]; discriminate H].
  destruct (intent_is (nlp_processor.intent parsed) "unknown") eqn:Hu.
  { intros [H|[H|[]]]; discriminate H. }
  destruct (handle_query (strip line) data parsed) as [result|] eqn:Hq;
    [|destruct (handle_query_parsed _ data _ Hp Hu Hq)].
  destruct (summarize result) as [summary| |] eqn:Es;
    try (intros [H|[]]; discriminate H).
  destruct (visualize_result OUTPUT_DIR result) as [chart| |];
    try (intros [H|[]]; discriminate H).
  destruct (handle_query_summary _ _ _ _ _ Hq Es) as (c & rest & -> & Hc).
  cbn [outputs_of app]. intros [H|[H|Hin]]; [discriminate H| |].
  - injection H as H. cbn [In] in Hc.
    destruct Hc as [<-|[<-|[<-|[<-|[]]]]]; discriminate H.
  - destruct (truthy_str chart); [|destruct Hin].
    destruct Hin as [H|[]]. discriminate H.
Qed.

Lemma loop_never_misses {R : Runtime} (OUTPUT_DIR : str) (data : DataFrame)
    (lines : list str) :
  forall session,
    ~ In (Print (py "Bot: I wasn't able to compute that request."))
         (fst (fst (loop OUTPUT_DIR data session lines))).
Proof.
  induction lines as [|line lines IH]; intros session; cbn [loop].
  - intros [H|[]]. discriminate H.
  - pose proof (turn_never_misses OUTPUT_DIR data session line) as Ht.
    destruct (turn OUTPUT_DIR data session line) as [s' outs|outs|outs];
      cbn [outputs_of] in Ht; [|exact Ht|exact Ht].
    specialize (IH s').
    destruct (loop OUTPUT_DIR data s' lines) as [[outs' final'] ending'].
    cbn [fst] in IH |- *. intros Hin. apply in_app_or in Hin as [Hin|Hin];
      [exact (Ht Hin)|exact (IH Hin)].
Qed.

(** X7. Parsing never fails, and the router answers a parsed message with "no
    result" exactly when its intent is 'unknown'.  The read loop filters
    'unknown' out before routing, so its branch for a missing result is
    never taken: whatever is typed, [run_cli] never prints the line of that
    branch. *)
Theorem parsed_query_routed {R : Runtime} (data : DataFrame) :
  (forall message, exists parsed,
      parse_user_message message = Some parsed
      /\ (handle_query message data parsed = None
          <-> nlp_processor.intent parsed = py "unknown"))
  /\ (forall OUTPUT_DIR session line parsed,
        parse_user_message (strip line) = Some parsed ->
        intent_is (nlp_processor.intent parsed) "unknown" = false ->
        handle_query (strip line) data parsed <> None
        /\ ~ In (Print (py "Bot: I wasn't able to compute that request."))
               (outputs_of (turn OUTPUT_DIR data session line)))
  /\ (forall OUTPUT_DIR lines,
        ~ In (Print (py "Bot: I wasn't able to compute that request."))
             (fst (fst (run_cli OUTPUT_DIR data lines)))).
Proof.
  split; [|split].
  - intros message.
    destruct (parse_user_message_fields message) as (ys & _ & Hp).
    eexists. split; [exact Hp|].
    rewrite handle_query_None. cbn [nlp_processor.intent].
    pose proof (detect_intent_range message) as Hr. simpl in Hr |- *.
    split.
    + intros Hno. destruct Hr as [Hr|[Hr|[Hr|[Hr|[Hr|[Hr|[]]]]]]];
        try (exfalso; apply Hno; rewrite <- Hr; tauto).
      symmetry. exact Hr.
    + intros ->. intros H.
      repeat (destruct H as [H|H]; [discriminate H|]). exact H.
  - intros OUTPUT_DIR session line parsed Hp Hu.
    split; [apply handle_query_parsed; assumption|apply turn_never_misses].
  - intros OUTPUT_DIR lines. unfold run_cli.
    pose proof (loop_never_misses OUTPUT_DIR data lines fresh) as Hl.
    destruct (loop OUTPUT_DIR data fresh lines) as [[outputs final] ending].
    cbn [fst] in Hl |- *.
    intros [H|[H|Hin]]; [discriminate H|discriminate H|exact (Hl Hin)].
Qed.

(** X24. Whatever is typed, the session stays in step with itself: what the
    loop remembers at the end is either nothing or a result together with
    its own summary and its own chart path, and every report that
    [export pdf] wrote went to the same file and paired a result with the
    summary and the chart path of that very result. *)
Theorem run_cli_session_consistent {R : Runtime} (OUTPUT_DIR : str)
    (data : DataFrame) (lines : list str) :
  consistent OUTPUT_DIR (snd (fst (run_cli OUTPUT_DIR data lines)))
  /\ forall path text r chart,
       In (PdfSaved path text r chart) (fst (fst (run_cli OUTPUT_DIR data lines))) ->
       path = pdf_path OUTPUT_DIR
       /\ summarize r = Returned text
       /\ visualize_result OUTPUT_DIR r = Returned chart.
Proof.
  unfold run_cli.
  destruct (loop OUTPUT_DIR data fresh lines) as [[outputs final] ending] eqn:El.
  cbn [fst snd].
  destruct (loop_consistent OUTPUT_DIR data lines fresh outputs final ending
              (or_introl eq_refl) El) as [Hf Hp].
  split; [exact Hf|].
  intros path text r chart [H|[H|Hin]]; try discriminate H.
  apply (Hp _ _ _ _ Hin).
Qed.

Lemma run_cli_session_consistent_witness :
  pdf_path (py "output") = pdf_path (py "output")
  /\ summarize (total_sales four_year_sales (Some [2021]) None)
     = Returned (py "Total sales amount to $1,010. Total sales for years 2021.")
  /\ visualize_result (py "output") (total_sales four_year_sales (Some [2021]) None)
     = Returned None.
Proof.
  apply (proj2 (run_cli_session_consistent (py "output") four_year_sales
                  [py "Total sales in 2021"; py "Export PDF please"; py "quit"])
           (pdf_path (py "output"))
           (py "Total sales amount to $1,010. Total sales for years 2021.")
           (total_sales four_year_sales (Some [2021]) None) None).
  vm_compute. right. right. right. right. right. left. reflexivity.
Defined.

End ReadLoop.
